(** * prompt_toolkit/layout/controls.py: user interface controls

    A shallow embedding of [UIContent], [TokenListControl], [DummyControl]
    and [BufferControl], and the properties of the rendering pipeline that
    the specification states about them.

    Python integers are [Z]; a unicode string is the list of its code
    points; a Python exception is a value of [exn] carried by [result];
    code that mutates an object threads the object's state explicitly. *)

From Stdlib Require Import ZArith QArith Lia List String Ascii.
From stdpp Require Import base option list gmap.

Local Open Scope Z_scope.

(** ** Python values *)

(** A unicode string, as the list of its code points. *)
Definition str := list N.

(** The text of an ASCII literal. *)
Definition u (s : string) : str :=
  map N_of_ascii (list_ascii_of_string s).

(** The exceptions that the modelled code raises. [NameError] is what a call
    of a closure that was never made would give; no path of the program
    leads there. *)
Inductive exn :=
  | IndexError
  | ZeroDivisionError
  | NameError.

Inductive result (A : Type) :=
  | Ok (a : A)
  | Raise (e : exn).
Arguments Ok {A} a.
Arguments Raise {A} e.

(** [divmod(a, b)] for integers: the quotient rounds towards minus infinity
    and the remainder has the sign of [b], as [Z.div] and [Z.modulo] do;
    a zero divisor raises. *)
Definition divmod (a b : Z) : result (Z * Z) :=
  if b =? 0 then Raise ZeroDivisionError else Ok (a / b, a mod b).

(** [l[i]] on a Python list: a negative index counts from the end, an index
    outside [-len(l) .. len(l) - 1] raises [IndexError]. *)
Definition py_index {A} (l : list A) (i : Z) : result A :=
  let n := Z.of_nat (length l) in
  let j := if i <? 0 then i + n else i in
  if (0 <=? j) && (j <? n)
  then match l !! Z.to_nat j with
       | Some a => Ok a
       | None => Raise IndexError
       end
  else Raise IndexError.

(** A computation of the program: it reads and updates a state [S] and
    returns a value or raises. *)
Definition M (S A : Type) : Type := S -> result A * S.

Definition ret {S A} (a : A) : M S A := fun s => (Ok a, s).
Definition raise {S A} (e : exn) : M S A := fun s => (Raise e, s).
Definition bind {S A B} (m : M S A) (k : A -> M S B) : M S B :=
  fun s => match m s with
           | (Ok a, s') => k a s'
           | (Raise e, s') => (Raise e, s')
           end.
Definition gets {S A} (f : S -> A) : M S A := fun s => (Ok (f s), s).
Definition modify {S} (f : S -> S) : M S unit := fun s => (Ok tt, f s).

Declare Scope py_scope.
Delimit Scope py_scope with py.
Notation "'let!' x ':=' m 'in' k" := (bind m (fun x => k))
  (at level 10, x pattern, m at level 100, k at level 200) : py_scope.
Notation "'do!' m 'in' k" := (bind m (fun _ => k))
  (at level 10, m at level 100, k at level 200) : py_scope.

(** ** Tokens and points *)

(** A pygments token type is the tuple of the names on its path from the
    root: [Token] is the empty path. *)
Definition TokenType := list string.
Definition Token : TokenType := [].
Definition Token_SetCursorPosition : TokenType := ["SetCursorPosition"%string].
Definition Token_SetMenuPosition : TokenType := ["SetMenuPosition"%string].

(** A line of a control: a list of [(Token, text)] tuples. *)
Definition Line := list (TokenType * str).

Record Point := mkPoint { x : Z; y : Z }.

(** ** UIContent *)

Module UIContent.

(** [get_line] is a callable of the control that made the content: it may
    read and update the control's state [S], and it may raise. *)
Record t (S : Type) := mk {
  get_line : Z -> M S Line;
  line_count : Z;
  cursor_position : Point;
  menu_position : option Point;
  show_cursor : bool
}.
Arguments mk {S}.
Arguments get_line {S}.
Arguments line_count {S}.
Arguments cursor_position {S}.
Arguments menu_position {S}.
Arguments show_cursor {S}.

(** [UIContent.__init__]: [cursor_position or Point(0, 0)]. *)
Definition init {S} (get_line : Z -> M S Line) (line_count : Z)
    (cursor_position menu_position : option Point) : t S :=
  mk get_line line_count (default (mkPoint 0 0) cursor_position)
     menu_position true.

Definition set_menu_position {S} (c : t S) (p : option Point) : t S :=
  mk (get_line c) (line_count c) (cursor_position c) p (show_cursor c).

(** [UIContent.__getitem__] *)
Definition getitem {S} (c : t S) (lineno : Z) : M S Line :=
  if lineno <? line_count c then get_line c lineno else raise IndexError.

(** [UIContent.get_height_for_text], a static method; [get_cwidth] is
    prompt_toolkit.utils.get_cwidth, the display cell-width of a text. *)
Definition get_height_for_text (get_cwidth : str -> Z)
    (txt : str) (width : Z) : Z :=
  let line_width := get_cwidth txt in
  match divmod line_width width with
  | Raise _ => 10 ^ 10
  | Ok (quotient, remainder) =>
      let quotient := if remainder =? 0 then quotient else quotient + 1 in
      Z.max 1 quotient
  end.

(** [UIContent.get_height_for_line]. The dictionary [_line_heights] of the
    content is threaded beside the state of the control; [token_list_to_text]
    is prompt_toolkit.layout.utils.token_list_to_text. A height that is in
    the dictionary is returned; otherwise the line is fetched, measured, and
    its height stored. *)
Definition get_height_for_line {S} (get_cwidth : str -> Z)
    (token_list_to_text : Line -> str) (c : t S) (lineno width : Z)
    : M (S * gmap (Z * Z) Z) Z :=
  fun st =>
    let '(s, _line_heights) := st in
    match _line_heights !! (lineno, width) with
    | Some height => (Ok height, (s, _line_heights))
    | None =>
        match get_line c lineno s with
        | (Ok line, s') =>
            let txt := token_list_to_text line in
            let result := get_height_for_text get_cwidth txt width in
            (Ok result, (s', <[(lineno, width) := result]> _line_heights))
        | (Raise e, s') => (Raise e, (s', _line_heights))
        end
    end.

End UIContent.

(** What a caller does that draws lines of a content: [content.get_line(i)]
    for each line number of the list, in turn. *)
Fixpoint request_lines {S} (content : UIContent.t S) (linenos : list Z)
    : M S (list Line) :=
  match linenos with
  | [] => ret []
  | i :: rest =>
      (let! line := UIContent.get_line content i in
       let! lines := request_lines content rest in
       ret (line :: lines))%py
  end.

(** The least integer that is at least [a / b], for [0 < b]. *)
Definition ceil_div (a b : Z) : Z := - ((- a) / b).

(** Modelled from the spec: prompt_toolkit.utils.get_cwidth is not among the
    sources at hand. The display cell-width of a text accounts for
    variable-width characters: a control character takes no cell, an East
    Asian wide character takes two, any other character one. *)
Definition char_cells (c : N) : Z :=
  if ((c <? 32) || ((127 <=? c) && (c <? 160)))%N then 0
  else if (((4352 <=? c) && (c <=? 4447))
           || ((11904 <=? c) && (c <=? 42191))
           || ((44032 <=? c) && (c <=? 55203))
           || ((63744 <=? c) && (c <=? 64255))
           || ((65280 <=? c) && (c <=? 65376)))%N then 2
  else 1.

Definition cells (txt : str) : Z :=
  fold_right (fun c acc => char_cells c + acc) 0 txt.

(** A line of 10^10 + 1 letters [a]. *)
Definition long_line : str := repeat 97%N (Z.to_nat (10 ^ 10 + 1)).

(** ** SimpleCache *)

Module SimpleCache.

(** Modelled from the spec: prompt_toolkit.cache.SimpleCache is not among the
    sources at hand. It is a bounded cache with simple eviction: a lookup
    that misses runs the getter, stores its value and, once more than
    [maxsize] entries are held, drops the oldest entry. The entries are kept
    oldest first. *)
Record t (K V : Type) := mk {
  maxsize : nat;
  entries : list (K * V)
}.
Arguments mk {K V}.
Arguments maxsize {K V}.
Arguments entries {K V}.

Definition empty {K V} (maxsize : nat) : t K V := mk maxsize [].

Section ops.
Context {K V : Type} `{EqDecision K}.

Fixpoint assoc (key : K) (l : list (K * V)) : option V :=
  match l with
  | [] => None
  | (k, v) :: l' => if decide (k = key) then Some v else assoc key l'
  end.

Definition lookup (key : K) (c : t K V) : option V := assoc key (entries c).

Definition store (key : K) (v : V) (c : t K V) : t K V :=
  let es := entries c ++ [(key, v)] in
  mk (maxsize c) (if decide (maxsize c < length es)%nat then tail es else es).

(** [cache.get(key, getter_func)], for a cache that is the field of the
    state read by [rd] and written by [wr]. *)
Definition get {S} (rd : S -> t K V) (wr : t K V -> S -> S)
    (key : K) (getter_func : M S V) : M S V :=
  fun s =>
    match lookup key (rd s) with
    | Some v => (Ok v, s)
    | None =>
        match getter_func s with
        | (Ok v, s') => (Ok v, wr (store key v (rd s')) s')
        | (Raise e, s') => (Raise e, s')
        end
    end.
End ops.

End SimpleCache.

(** ** DummyControl *)

Module DummyControl.

(** [DummyControl.create_content]: every line is empty, and the line count
    is something very big. *)
Definition create_content {S} (width : Z) (height : option Z)
    : UIContent.t S :=
  UIContent.init (fun i => ret []) (100 ^ 100) None None.

Definition is_focussable : bool := false.

End DummyControl.

(** ** TokenListControl *)

(** An item of a token list: [(Token, text)], or [(Token, text, handler)]
    with a mouse handler, which is compared by identity. *)
Record Item := mkItem {
  item_token : TokenType;
  item_text : str;
  item_handler : option nat
}.

Global Instance Item_eq_dec : EqDecision Item.
Proof. solve_decision. Defined.

(** [text.split('\n')] *)
Fixpoint split_newlines (txt : str) : list str :=
  match txt with
  | [] => [[]]
  | c :: rest =>
      match split_newlines rest with
      | [] => [[c]]
      | part :: parts =>
          if (c =? 10)%N then [] :: part :: parts
          else (c :: part) :: parts
      end
  end.

(** Modelled from the spec: prompt_toolkit.layout.utils.split_lines is not
    among the sources at hand. It splits a token list into lines on the line
    breaks of its texts; the last line is produced even when it is empty. *)
Fixpoint split_parts (tok : TokenType) (h : option nat) (parts : list str)
    (line : list Item) : list (list Item) * list Item :=
  match parts with
  | [] => ([], line)
  | [last] => ([], line ++ [mkItem tok last h])
  | part :: rest =>
      let line := match part with
                  | [] => line
                  | _ => line ++ [mkItem tok part h]
                  end in
      let '(done, cur) := split_parts tok h rest [] in
      (line :: done, cur)
  end.

Fixpoint split_lines_from (tokens : list Item) (line : list Item)
    : list (list Item) :=
  match tokens with
  | [] => [line]
  | item :: rest =>
      let '(done, cur) :=
        split_parts (item_token item) (item_handler item)
                    (split_newlines (item_text item)) line in
      done ++ split_lines_from rest cur
  end.

Definition split_lines (tokens : list Item) : list (list Item) :=
  split_lines_from tokens [].

Module TokenListControl.

Section control.
(** The application, as far as the control looks at it: the counter of
    render passes, and the callback that produces the token list. *)
Variable App : Type.
Variable render_counter : App -> Z.
Variable get_tokens : App -> list Item.

Record t := mk {
  _content_cache : SimpleCache.t (list Item * Z) (UIContent.t unit);
  _token_cache : SimpleCache.t Z (list Item);
  _tokens : option (list Item);
  (** instrumentation: calls of [get_tokens] and of [get_content] *)
  get_tokens_calls : nat;
  get_content_calls : nat
}.

(** [TokenListControl.__init__] *)
Definition init : t :=
  mk (SimpleCache.empty 18) (SimpleCache.empty 1) None 0 0.

Definition set_content_cache c (s : t) : t :=
  mk c (_token_cache s) (_tokens s) (get_tokens_calls s) (get_content_calls s).
Definition set_token_cache c (s : t) : t :=
  mk (_content_cache s) c (_tokens s) (get_tokens_calls s) (get_content_calls s).
Definition set_tokens ts (s : t) : t :=
  mk (_content_cache s) (_token_cache s) ts
     (get_tokens_calls s) (get_content_calls s).
Definition count_get_tokens (s : t) : t :=
  mk (_content_cache s) (_token_cache s) (_tokens s)
     (S (get_tokens_calls s)) (get_content_calls s).
Definition count_get_content (s : t) : t :=
  mk (_content_cache s) (_token_cache s) (_tokens s)
     (get_tokens_calls s) (S (get_content_calls s)).

(** [_get_tokens_cached] *)
Definition _get_tokens_cached (app : App) : M t (list Item) :=
  SimpleCache.get _token_cache set_token_cache (render_counter app)
    (do! modify count_get_tokens in ret (get_tokens app))%py.

(** [get_cursor_position(token)], local to [create_content]: the column
    and row of the first token of the given type. *)
Fixpoint find_in_line (token : TokenType) (line : Line) (x : Z) : option Z :=
  match line with
  | [] => None
  | (t, txt) :: rest =>
      if decide (t = token) then Some x
      else find_in_line token rest (x + Z.of_nat (length txt))
  end.

Fixpoint find_in_lines (token : TokenType) (lines : list Line) (y : Z)
    : option Point :=
  match lines with
  | [] => None
  | line :: rest =>
      match find_in_line token line 0 with
      | Some x => Some (mkPoint x y)
      | None => find_in_lines token rest (y + 1)
      end
  end.

Definition get_cursor_position (token_lines : list Line) (token : TokenType)
    : option Point :=
  find_in_lines token token_lines 0.

Definition get_menu_position (token_lines : list Line) : option Point :=
  get_cursor_position token_lines Token_SetMenuPosition.

(** [get_content], local to [create_content] *)
Definition get_content (token_lines : list Line) : UIContent.t unit :=
  UIContent.init
    (fun i s => (py_index token_lines i, s))
    (Z.of_nat (length token_lines))
    (get_cursor_position token_lines Token_SetCursorPosition)
    (get_menu_position token_lines).

(** [TokenListControl.create_content] *)
Definition create_content (app : App) (width : Z) (height : option Z)
    : M t (UIContent.t unit) :=
  (let! tokens_with_mouse_handlers := _get_tokens_cached app in
   let token_lines_with_mouse_handlers :=
     split_lines tokens_with_mouse_handlers in
   let token_lines : list Line :=
     map (map (fun item => (item_token item, item_text item)))
         token_lines_with_mouse_handlers in
   do! modify (set_tokens (Some tokens_with_mouse_handlers)) in
   let key := (tokens_with_mouse_handlers, width) in
   SimpleCache.get _content_cache set_content_cache key
     (do! modify count_get_content in ret (get_content token_lines)))%py.

(** The token list that [_get_tokens_cached] returns in the state [s]: the
    one cached for the render pass, or else what [get_tokens] gives. *)
Definition cached_tokens (app : App) (s : t) : list Item :=
  match SimpleCache.lookup (render_counter app) (_token_cache s) with
  | Some tokens => tokens
  | None => get_tokens app
  end.

(** [TokenListControl.preferred_height] *)
Definition preferred_height (app : App) (width : Z) : M t Z :=
  (let! content := create_content app width None in
   ret (UIContent.line_count content))%py.
(** The number of characters of the texts of a line: the column at which
    a token after them starts, as [get_cursor_position] counts columns. *)
Definition line_length (line : Line) : Z :=
  fold_right (fun item acc => Z.of_nat (length (snd item)) + acc) 0 line.

(** [TokenListControl.reset] *)
Definition reset (s : t) : t := set_tokens None s.

(** [max(line_lengths)], for the widths of the parts that
    [text.split('\n')] gives: there is always at least one part. *)
Definition max_width (get_cwidth : str -> Z) (parts : list str) : Z :=
  match parts with
  | [] => 0
  | part :: parts =>
      fold_left (fun m l => Z.max m (get_cwidth l)) parts (get_cwidth part)
  end.

(** [TokenListControl.preferred_width]: the width of the longest line.
    [token_list_to_text] is prompt_toolkit.layout.utils.token_list_to_text,
    on a token list with mouse handlers. *)
Definition preferred_width (get_cwidth : str -> Z)
    (token_list_to_text : list Item -> str) (app : App)
    (max_available_width : Z) : M t Z :=
  (let! tokens := _get_tokens_cached app in
   let text := token_list_to_text tokens in
   ret (max_width get_cwidth (split_newlines text)))%py.
End control.

End TokenListControl.

(** ** The collaborators of BufferControl *)

Inductive SelectionType := CHARACTERS | LINES | BLOCK.

Record SelectionState := mkSelectionState {
  original_cursor_position : Z;
  selection_type : SelectionType
}.

Module Document.
(** An immutable snapshot: text, cursor offset and selection. *)
Record t := mk {
  text : str;
  cursor_position : Z;
  selection : option SelectionState
}.
End Document.

(** The methods of [Document] that the control calls;
    prompt_toolkit.document is not among the sources at hand, so they are
    taken as an interface. *)
Class DocumentOps := {
  cursor_position_row : Document.t -> Z;
  cursor_position_col : Document.t -> Z;
  line_count : Document.t -> Z;
  translate_index_to_position : Document.t -> Z -> Z * Z;
  translate_row_col_to_index : Document.t -> Z -> Z -> Z;
  find_boundaries_of_current_word : Document.t -> Z * Z
}.

Record CompletionState := mkCompletionState {
  original_document : Document.t
}.

Inductive SearchDirection := FORWARD | BACKWARD.

Record SearchState := mkSearchState {
  search_text : str;
  direction : SearchDirection;
  ignore_case : bool
}.

Module Buffer.
(** Modelled from the spec: prompt_toolkit.buffer is not among the sources
    at hand. The buffer holds the text, the cursor offset, the selection
    (anchored at the cursor offset where it was started) and the state of
    a running completion; its document is the snapshot of the first
    three. A cursor move sets the offset that it is given, and the
    selection commands set or clear the selection: the spec states no more
    of them. What the buffer of the toolkit does beside, to a running
    completion or to an offset below zero, is outside this model, which
    carries the completion along as it is. *)
Record t := mk {
  text : str;
  cursor_position : Z;
  selection_state : option SelectionState;
  complete_state : option CompletionState
}.

Definition document (b : t) : Document.t :=
  Document.mk (text b) (cursor_position b) (selection_state b).

Definition set_cursor_position (i : Z) (b : t) : t :=
  mk (text b) i (selection_state b) (complete_state b).

Definition exit_selection (b : t) : t :=
  mk (text b) (cursor_position b) None (complete_state b).

Definition start_selection (ty : SelectionType) (b : t) : t :=
  mk (text b) (cursor_position b)
     (Some (mkSelectionState (cursor_position b) ty)) (complete_state b).
End Buffer.

Inductive MouseEventType := MOUSE_UP | MOUSE_DOWN | SCROLL_UP | SCROLL_DOWN.

Global Instance MouseEventType_eq_dec : EqDecision MouseEventType.
Proof. solve_decision. Defined.

Record MouseEvent := mkMouseEvent {
  position : Point;
  event_type : MouseEventType
}.

(** What a mouse handler returns: [None] when it handled the event,
    [NotImplemented] when it did not. *)
Inductive handled := PyNone | NotImplemented.

(** ** The mouse handler of TokenListControl *)

Module TokenListMouse.

Section handler.
Variable App : Type.
(** What the call [handler(app, mouse_event)] returns, for the handler with
    the given identity. *)
Variable call : nat -> App -> MouseEvent -> handled.

(** The loop of [mouse_handler] over the tokens of the clicked line: the
    first item at whose end the count of characters reaches [xpos] decides;
    its handler, if it has one, is the one to call. *)
Fixpoint find_handler (tokens : list Item) (count xpos : Z) : option nat :=
  match tokens with
  | [] => None
  | item :: rest =>
      let count := count + Z.of_nat (length (item_text item)) in
      if xpos <=? count then item_handler item
      else find_handler rest count xpos
  end.

(** [TokenListControl.mouse_handler] *)
Definition mouse_handler (app : App) (mouse_event : MouseEvent)
    : M TokenListControl.t handled :=
  fun s =>
    match TokenListControl._tokens s with
    | Some (item :: items) =>
        let tokens_for_line := split_lines (item :: items) in
        match py_index tokens_for_line (y (position mouse_event)) with
        | Raise _ => (Ok NotImplemented, s)
        | Ok tokens =>
            let xpos := x (position mouse_event) in
            match find_handler tokens 0 xpos with
            | Some handler => (Ok (call handler app mouse_event), s)
            | None => (Ok NotImplemented, s)
            end
        end
    | _ => (Ok NotImplemented, s)
    end.
(** The number of characters of the texts of the items. *)
Definition items_length (items : list Item) : Z :=
  fold_right (fun item acc => Z.of_nat (length (item_text item)) + acc) 0
             items.
End handler.

End TokenListMouse.

(** A reading of [time.time()], in seconds. The code holds it in a float;
    here it is a rational, and [.3] is three tenths. *)
Definition Qlt_bool (a b : Q) : bool := negb (Qle_bool b a).

Section collaborators.
(** What the application holds beside the focus. *)
Variable Env : Type.

Record App := mkApp {
  (** [app.layout.current_control], as the identity of a control *)
  current_control : nat;
  environment : Env
}.

Record TransformationInput := mkTransformationInput {
  ti_app : App;
  ti_buffer_control : nat;
  ti_document : Document.t;
  ti_lineno : Z;
  ti_source_to_display : Z -> Z;
  ti_tokens : Line;
  ti_width : Z;
  ti_height : option Z
}.

Record Transformation := mkTransformation {
  tr_tokens : Line;
  tr_source_to_display : Z -> Z;
  tr_display_to_source : Z -> Z
}.

(** [Lexer.lex_document] returns the function from a line number to the
    tokens of that line. *)
Class Lexer := { lex_document : App -> Document.t -> Z -> Line }.

(** [Processor.apply_transformation] *)
Class Processor := {
  apply_transformation : TransformationInput -> Transformation
}.
End collaborators.

Arguments mkApp {Env}.
Arguments current_control {Env}.
Arguments environment {Env}.
Arguments mkTransformationInput {Env}.
Arguments ti_app {Env}.
Arguments ti_buffer_control {Env}.
Arguments ti_document {Env}.
Arguments ti_lineno {Env}.
Arguments ti_source_to_display {Env}.
Arguments ti_tokens {Env}.
Arguments ti_width {Env}.
Arguments ti_height {Env}.
Arguments lex_document {Env _}.
Arguments apply_transformation {Env _}.

Record _ProcessedLine := mkProcessedLine {
  tokens : Line;
  source_to_display : Z -> Z;
  display_to_source : Z -> Z
}.

(** ** BufferControl *)

Module BufferControl.

Section control.
Context {Env : Type} `{!DocumentOps} `{!Lexer Env} `{!Processor Env}.

(** The arguments of [BufferControl.__init__], and the identity of the
    control. [document_for_search] is the buffer's method. *)
Variable self : nat.
Variable preview_search : App Env -> bool.
Variable focus_on_click : App Env -> bool.
Variable menu_position : option (App Env -> option Z).
Variable document_for_search : Buffer.t -> SearchState -> Document.t.

(** The closure [get_processed_line] that [create_func] returns: the
    variables it captures and its dictionary [cache]. *)
Record Closure := mkClosure {
  cl_document : Document.t;
  cl_width : Z;
  cl_height : option Z;
  cl_get_line : Z -> Line;
  cache : gmap Z _ProcessedLine
}.

(** The objects that the control reads and mutates. A closure is named by
    its place in [closures], so that the control and the contents it made
    share the closure's cache. *)
Record t := mk {
  app : App Env;
  buffer : Buffer.t;
  (** the buffer of [self.search_buffer_control], when there is one *)
  search_buffer : option Buffer.t;
  search_state : SearchState;
  _token_cache : SimpleCache.t str (Z -> Line);
  _last_click_timestamp : option Q;
  _last_get_processed_line : option nat;
  closures : list Closure;
  (** instrumentation: calls of [lexer.lex_document] and of
      [merged_processor.apply_transformation] *)
  lex_document_calls : nat;
  apply_transformation_calls : nat
}.

(** [BufferControl.__init__] *)
Definition init (app : App Env) (buffer : Buffer.t)
    (search_buffer : option Buffer.t) (search_state : SearchState) : t :=
  mk app buffer search_buffer search_state (SimpleCache.empty 8)
     None None [] 0 0.

Definition set_app a (s : t) : t :=
  mk a (buffer s) (search_buffer s) (search_state s) (_token_cache s)
     (_last_click_timestamp s) (_last_get_processed_line s) (closures s)
     (lex_document_calls s) (apply_transformation_calls s).
Definition set_buffer b (s : t) : t :=
  mk (app s) b (search_buffer s) (search_state s) (_token_cache s)
     (_last_click_timestamp s) (_last_get_processed_line s) (closures s)
     (lex_document_calls s) (apply_transformation_calls s).
Definition set_token_cache c (s : t) : t :=
  mk (app s) (buffer s) (search_buffer s) (search_state s) c
     (_last_click_timestamp s) (_last_get_processed_line s) (closures s)
     (lex_document_calls s) (apply_transformation_calls s).
Definition set_last_click_timestamp ts (s : t) : t :=
  mk (app s) (buffer s) (search_buffer s) (search_state s) (_token_cache s)
     ts (_last_get_processed_line s) (closures s)
     (lex_document_calls s) (apply_transformation_calls s).
Definition set_last_get_processed_line f (s : t) : t :=
  mk (app s) (buffer s) (search_buffer s) (search_state s) (_token_cache s)
     (_last_click_timestamp s) f (closures s)
     (lex_document_calls s) (apply_transformation_calls s).
Definition set_closures cs (s : t) : t :=
  mk (app s) (buffer s) (search_buffer s) (search_state s) (_token_cache s)
     (_last_click_timestamp s) (_last_get_processed_line s) cs
     (lex_document_calls s) (apply_transformation_calls s).
Definition count_lex_document (s : t) : t :=
  mk (app s) (buffer s) (search_buffer s) (search_state s) (_token_cache s)
     (_last_click_timestamp s) (_last_get_processed_line s) (closures s)
     (S (lex_document_calls s)) (apply_transformation_calls s).
Definition count_apply_transformation (s : t) : t :=
  mk (app s) (buffer s) (search_buffer s) (search_state s) (_token_cache s)
     (_last_click_timestamp s) (_last_get_processed_line s) (closures s)
     (lex_document_calls s) (S (apply_transformation_calls s)).

(** [app.layout.current_control == self] *)
Definition has_focus (s : t) : bool :=
  bool_decide (current_control (app s) = self).

(** [_get_tokens_for_line_func]: cached using [document.text]. *)
Definition _get_tokens_for_line_func (document : Document.t)
    : M t (Z -> Line) :=
  SimpleCache.get _token_cache set_token_cache (Document.text document)
    (let! a := gets app in
     do! modify count_lex_document in
     ret (lex_document a document))%py.

(** The [TransformationInput] that [transform] builds: the application,
    the control, the document, the line number, the identity as
    [source_to_display], the tokens, the width and the height. *)
Definition transformation_input (a : App Env) (document : Document.t)
    (width : Z) (height : option Z) (lineno : Z) (tokens : Line)
    : TransformationInput Env :=
  let source_to_display := fun i : Z => i in
  mkTransformationInput a self document lineno source_to_display tokens
                        width height.

(** The local [cursor_column] of [transform], before the processors are
    applied: the cursor's column on the cursor's line, [None] elsewhere. *)
Definition cursor_column_of (document : Document.t) (lineno : Z)
    : option Z :=
  if decide (cursor_position_row document = lineno)
  then Some (cursor_position_col document)
  else None.

(** [transform], local to [_create_get_processed_line_func]; the second
    component is the value of [cursor_column] when the function returns,
    which the function does not return. *)
Definition transform_locals (a : App Env) (document : Document.t)
    (width : Z) (height : option Z) (lineno : Z) (tokens : Line)
    : _ProcessedLine * option Z :=
  let cursor_column := cursor_column_of document lineno in
  let transformation :=
    apply_transformation
      (transformation_input a document width height lineno tokens) in
  let cursor_column :=
    match cursor_column with
    | Some c =>
        if c =? 0 then cursor_column
        else Some (tr_source_to_display transformation c)
    | None => None
    end in
  (mkProcessedLine (tr_tokens transformation)
                   (tr_source_to_display transformation)
                   (tr_display_to_source transformation),
   cursor_column).

Definition transform (a : App Env) (document : Document.t)
    (width : Z) (height : option Z) (lineno : Z) (tokens : Line)
    : _ProcessedLine :=
  fst (transform_locals a document width height lineno tokens).

Definition set_cache (c : gmap Z _ProcessedLine) (cl : Closure) : Closure :=
  mkClosure (cl_document cl) (cl_width cl) (cl_height cl) (cl_get_line cl) c.

(** [get_processed_line(i)], for the closure at [addr]. *)
Definition get_processed_line (addr : nat) (i : Z) : M t _ProcessedLine :=
  fun s =>
    match closures s !! addr with
    | None => (Raise NameError, s)
    | Some cl =>
        match cache cl !! i with
        | Some processed_line => (Ok processed_line, s)
        | None =>
            let processed_line :=
              transform (app s) (cl_document cl) (cl_width cl)
                        (cl_height cl) i (cl_get_line cl i) in
            let cl' := set_cache (<[i := processed_line]> (cache cl)) cl in
            (Ok processed_line,
             count_apply_transformation
               (set_closures (<[addr := cl']> (closures s)) s))
        end
    end.

(** [_create_get_processed_line_func]: the address of a new closure with
    an empty cache. *)
Definition _create_get_processed_line_func (document : Document.t)
    (width : Z) (height : option Z) : M t nat :=
  (let! get_line := _get_tokens_for_line_func document in
   let! cs := gets closures in
   do! modify (set_closures
                 (cs ++ [mkClosure document width height get_line ∅])) in
   ret (length cs))%py.

(** The document to be shown: the search document while a search is
    previewed, the buffer's document otherwise. *)
Definition document_to_show (s : t) : Document.t :=
  let preview_now :=
    match search_buffer s with
    | Some sb =>
        negb (bool_decide (Buffer.text sb = [])) && preview_search (app s)
    | None => false
    end in
  if preview_now then
    match search_buffer s with
    | Some sb =>
        document_for_search (buffer s)
          (mkSearchState (Buffer.text sb) (direction (search_state s))
                         (ignore_case (search_state s)))
    | None => Buffer.document (buffer s)
    end
  else Buffer.document (buffer s).

(** [translate_rowcol], local to [create_content] *)
Definition translate_rowcol (addr : nat) (row col : Z) : M t Point :=
  (let! pl := get_processed_line addr row in
   ret (mkPoint (source_to_display pl col) row))%py.

(** [get_line], local to [create_content] *)
Definition get_line (addr : nat) (i : Z) : M t Line :=
  (let! pl := get_processed_line addr i in
   let tokens := tokens pl in
   let tokens := tokens ++ [(Token, u " ")] in
   ret tokens)%py.

(** [BufferControl.create_content] *)
Definition create_content (width : Z) (height : option Z)
    : M t (UIContent.t t) :=
  (let! buffer := gets buffer in
   let! document := gets document_to_show in
   let! addr := _create_get_processed_line_func document width height in
   do! modify (set_last_get_processed_line (Some addr)) in
   let! cursor := translate_rowcol addr (cursor_position_row document)
                                   (cursor_position_col document) in
   let content :=
     UIContent.init (get_line addr) (line_count document)
                    (Some cursor) None in
   let! focus := gets has_focus in
   if focus then
     let! a := gets app in
     let menu := match menu_position with
                 | Some callback => callback a
                 | None => None
                 end in
     match menu with
     | Some menu =>
         let '(menu_row, menu_col) :=
           translate_index_to_position (Buffer.document buffer) menu in
         let! p := translate_rowcol addr menu_row menu_col in
         ret (UIContent.set_menu_position content (Some p))
     | None =>
         match Buffer.complete_state buffer with
         | Some complete_state =>
             let '(menu_row, menu_col) :=
               translate_index_to_position (Buffer.document buffer)
                 (Z.min (Buffer.cursor_position buffer)
                        (Document.cursor_position
                           (original_document complete_state))) in
             let! p := translate_rowcol addr menu_row menu_col in
             ret (UIContent.set_menu_position content (Some p))
         | None => ret (UIContent.set_menu_position content None)
         end
     end
   else ret content)%py.

Definition update_buffer (f : Buffer.t -> Buffer.t) (s : t) : t :=
  set_buffer (f (buffer s)) s.

(** [self._last_click_timestamp and time.time() - self._last_click_timestamp < .3],
    as the condition of the [if] that follows: a timestamp that is [None]
    or zero is false. *)
Definition is_double_click (last_click : option Q) (now : Q) : bool :=
  match last_click with
  | Some t0 => negb (Qeq_bool t0 0) && Qlt_bool (now - t0) (3 # 10)
  | None => false
  end.

(** [BufferControl.mouse_handler]; [now1] and [now2] are the two readings
    of [time.time()] that the handling of a release takes. *)
Definition mouse_handler (mouse_event : MouseEvent) (now1 now2 : Q)
    : M t handled :=
  (let position := position mouse_event in
   let! focus := gets has_focus in
   if focus then
     let! last := gets _last_get_processed_line in
     match last with
     | Some addr =>
         let! processed_line := get_processed_line addr (y position) in
         let xpos := display_to_source processed_line (x position) in
         let! b := gets buffer in
         let index :=
           translate_row_col_to_index (Buffer.document b)
                                      (y position) xpos in
         match event_type mouse_event with
         | MOUSE_DOWN =>
             do! modify (update_buffer Buffer.exit_selection) in
             do! modify (update_buffer (Buffer.set_cursor_position index)) in
             ret PyNone
         | MOUSE_UP =>
             do! (if 1 <? Z.abs (Buffer.cursor_position b - index) then
                    do! modify (update_buffer
                                  (Buffer.start_selection CHARACTERS)) in
                    modify (update_buffer (Buffer.set_cursor_position index))
                  else ret tt) in
             let! last_click := gets _last_click_timestamp in
             let double_click := is_double_click last_click now1 in
             do! modify (set_last_click_timestamp (Some now2)) in
             if double_click then
               let! b := gets buffer in
               let '(start, end_) :=
                 find_boundaries_of_current_word (Buffer.document b) in
               do! modify (update_buffer (fun b =>
                     Buffer.set_cursor_position
                       (Buffer.cursor_position b + start) b)) in
               do! modify (update_buffer
                             (Buffer.start_selection CHARACTERS)) in
               do! modify (update_buffer (fun b =>
                     Buffer.set_cursor_position
                       (Buffer.cursor_position b + (end_ - start)) b)) in
               ret PyNone
             else ret PyNone
         | _ => ret NotImplemented
         end
     | None => ret PyNone
     end
   else
     let! a := gets app in
     if focus_on_click a
        && bool_decide (event_type mouse_event = MOUSE_UP) then
       do! modify (set_app (mkApp self (environment a))) in
       ret PyNone
     else ret NotImplemented)%py.
(** The loop of [preferred_height] over the lines [i], [i + 1], ... of the
    content, [n] of them, with the height summed so far. *)
Fixpoint preferred_height_loop (get_cwidth : str -> Z)
    (token_list_to_text : Line -> str) (content : UIContent.t t)
    (width max_available_height : Z) (n : nat) (i height : Z)
    : M (t * gmap (Z * Z) Z) Z :=
  match n with
  | O => ret height
  | S n' =>
      (let! h := UIContent.get_height_for_line get_cwidth token_list_to_text
                   content i width in
       let height := height + h in
       if max_available_height <=? height then ret max_available_height
       else preferred_height_loop get_cwidth token_list_to_text content width
              max_available_height n' (i + 1) height)%py
  end.

(** [BufferControl.preferred_height]. The content is made for this call and
    dropped after it, and its [_line_heights] with it. *)
Definition preferred_height (get_cwidth : str -> Z)
    (token_list_to_text : Line -> str) (width max_available_height : Z)
    (wrap_lines : bool) : M t Z :=
  (let! content := create_content width None in
   if negb wrap_lines then ret (UIContent.line_count content)
   else if max_available_height <=? UIContent.line_count content
   then ret max_available_height
   else
     fun s =>
       let '(r, (s', _)) :=
         preferred_height_loop get_cwidth token_list_to_text content width
           max_available_height (Z.to_nat (UIContent.line_count content))
           0 0 (s, ∅) in
       (r, s'))%py.

(** The height that [get_height_for_line] finds for line [i] of a content
    of the control: that of the processed tokens of the line and the blank
    that [get_line] appends. *)
Definition line_height (get_cwidth : str -> Z)
    (token_list_to_text : Line -> str) (a : App Env)
    (document : Document.t) (width : Z) (height : option Z)
    (lines : Z -> Line) (i : Z) : Z :=
  UIContent.get_height_for_text get_cwidth
    (token_list_to_text
       (tr_tokens
          (apply_transformation
             (transformation_input a document width height i (lines i)))
        ++ [(Token, u " ")]))
    width.

(** Every height that the dictionary [_line_heights] of a content of the
    control holds for the width is the height of its line. *)
Definition heights_ok (get_cwidth : str -> Z)
    (token_list_to_text : Line -> str) (a : App Env)
    (document : Document.t) (width : Z) (lines : Z -> Line)
    (heights : gmap (Z * Z) Z) : Prop :=
  forall j hh,
    heights !! (j, width) = Some hh ->
    hh = line_height get_cwidth token_list_to_text a document width None
                     lines j.

(** The sum of [f i], [f (i + 1)], ..., [n] terms. *)
Fixpoint sum_from (f : Z -> Z) (n : nat) (i : Z) : Z :=
  match n with
  | O => 0
  | S n' => f i + sum_from f n' (i + 1)
  end.

(** The line function that [_get_tokens_for_line_func] returns in the
    state [s]: the cached one, or else what the lexer gives. *)
Definition lexer_lines (s : t) (document : Document.t) : Z -> Line :=
  match SimpleCache.lookup (Document.text document) (_token_cache s) with
  | Some get_line => get_line
  | None => lex_document (app s) document
  end.

(** Every processed line in the cache of the closure is what [transform]
    gives for its line number, in the application [a]. *)
Definition closure_ok (a : App Env) (cl : Closure) : Prop :=
  forall i pl,
    cache cl !! i = Some pl ->
    pl = transform a (cl_document cl) (cl_width cl) (cl_height cl) i
                   (cl_get_line cl i).

(** The closure at [addr] was made for the given document, width, height
    and line function, and its cache is as [closure_ok] says. *)
Definition closure_at (s : t) (addr : nat) (document : Document.t)
    (width : Z) (height : option Z) (get_line : Z -> Line) : Prop :=
  exists cl,
    closures s !! addr = Some cl
    /\ cl_document cl = document /\ cl_width cl = width
    /\ cl_height cl = height /\ cl_get_line cl = get_line
    /\ closure_ok (app s) cl.

(** [s'] differs from [s] at most in the closures and in the count of the
    applications of the processors. *)
Definition frame (s s' : t) : Prop :=
  app s' = app s /\ buffer s' = buffer s
  /\ search_buffer s' = search_buffer s /\ search_state s' = search_state s
  /\ _token_cache s' = _token_cache s
  /\ _last_click_timestamp s' = _last_click_timestamp s
  /\ _last_get_processed_line s' = _last_get_processed_line s
  /\ lex_document_calls s' = lex_document_calls s.
(** What [translate_rowcol(row, col)] returns for a closure made for the
    given document, width, height and line function. *)
Definition translated (a : App Env) (document : Document.t) (width : Z)
    (height : option Z) (lines : Z -> Line) (rc : Z * Z) : Point :=
  mkPoint
    (source_to_display
       (transform a document width height (fst rc) (lines (fst rc)))
       (snd rc))
    (fst rc).

(** The source offset at which [create_content] anchors the menu when the
    control has the focus: what the callback gives, or else, while a
    completion runs, the lesser of the cursor offset and of the cursor offset
    of the completion's original document. *)
Definition menu_offset (s : t) : option Z :=
  match match menu_position with
        | Some callback => callback (app s)
        | None => None
        end with
  | Some menu => Some menu
  | None =>
      match Buffer.complete_state (buffer s) with
      | Some complete_state =>
          Some (Z.min (Buffer.cursor_position (buffer s))
                      (Document.cursor_position
                         (original_document complete_state)))
      | None => None
      end
  end.
(** The rows whose lines [create_content] itself processes, in the state
    [s]: the row of the cursor of the document that is shown and, when the
    control has the focus and the menu has an anchor, the row of that
    anchor. *)
Definition rendered_row (s : t) (i : Z) : Prop :=
  i = cursor_position_row (document_to_show s)
  \/ (has_focus s = true
      /\ exists menu,
           menu_offset s = Some menu
           /\ i = fst (translate_index_to_position
                         (Buffer.document (buffer s)) menu)).
End control.

End BufferControl.

(** ** Concrete collaborators *)

Module Sample.

(** Modelled from the spec: prompt_toolkit.document.Document is not among
    the sources at hand. The document exposes the cursor's row and column,
    the line count, the conversions between an offset and a row and column,
    and the boundaries of the word at the cursor, relative to the cursor. *)
Definition lines (d : Document.t) : list str :=
  split_newlines (Document.text d).

Fixpoint position_in (ls : list str) (index row : Z) : Z * Z :=
  match ls with
  | [] => (row, index)
  | [_] => (row, index)
  | l :: rest =>
      if index <=? Z.of_nat (length l) then (row, index)
      else position_in rest (index - Z.of_nat (length l) - 1) (row + 1)
  end.

Fixpoint line_starts (ls : list str) (start : Z) : list Z :=
  match ls with
  | [] => []
  | l :: rest => start :: line_starts rest (start + Z.of_nat (length l) + 1)
  end.

Definition clamp (lo hi v : Z) : Z := Z.max lo (Z.min v hi).

Definition row_col_to_index (d : Document.t) (row col : Z) : Z :=
  let ls := lines d in
  let starts := line_starts ls 0 in
  let '(start, line) :=
    match py_index starts row, py_index ls row with
    | Ok s, Ok l => (s, l)
    | _, _ =>
        if row <? 0 then (default 0 (head starts), default [] (head ls))
        else (default 0 (last starts), default [] (last ls))
    end in
  clamp 0 (Z.of_nat (length (Document.text d)))
        (start + clamp 0 (Z.of_nat (length line)) col).

Definition is_word_char (c : N) : bool :=
  (((48 <=? c) && (c <=? 57)) || ((65 <=? c) && (c <=? 90))
   || ((97 <=? c) && (c <=? 122)) || (c =? 95))%N.

Definition is_space (c : N) : bool :=
  (((9 <=? c) && (c <=? 13)) || (c =? 32))%N.

Fixpoint run (p : N -> bool) (s : str) : Z :=
  match s with
  | c :: rest => if p c then 1 + run p rest else 0
  | [] => 0
  end.

(** The length of the run of word characters, or else of characters that
    are neither word characters nor blanks, that [s] starts with. *)
Definition word_prefix (s : str) : option Z :=
  match s with
  | [] => None
  | c :: _ =>
      if is_word_char c then Some (run is_word_char s)
      else if is_space c then None
      else Some (run (fun c => negb (is_word_char c) && negb (is_space c)) s)
  end.

Fixpoint take_line (s : str) : str :=
  match s with
  | [] => []
  | c :: rest => if (c =? 10)%N then [] else c :: take_line rest
  end.

Definition boundaries_of_current_word (d : Document.t) : Z * Z :=
  let n := Z.to_nat (Document.cursor_position d) in
  let before := take_line (rev (firstn n (Document.text d))) in
  let after := take_line (skipn n (Document.text d)) in
  let match_before := word_prefix before in
  let match_after := word_prefix after in
  let match_before :=
    match match_before, match_after, before, after with
    | Some _, Some _, c1 :: _, c2 :: _ =>
        if eqb (is_word_char c1) (is_word_char c2) then match_before
        else None
    | _, _, _, _ => match_before
    end in
  (match match_before with Some k => - k | None => 0 end,
   match match_after with Some k => k | None => 0 end).

Global Instance document_ops : DocumentOps := {|
  cursor_position_row d :=
    fst (position_in (lines d) (Document.cursor_position d) 0);
  cursor_position_col d :=
    snd (position_in (lines d) (Document.cursor_position d) 0);
  line_count d := Z.of_nat (length (lines d));
  translate_index_to_position d i := position_in (lines d) i 0;
  translate_row_col_to_index := row_col_to_index;
  find_boundaries_of_current_word := boundaries_of_current_word
|}.

(** A lexer that gives every line one token with the text of the line, as
    [SimpleLexer] does, and an empty line past the end. *)
Global Instance simple_lexer : Lexer unit := {|
  lex_document _ d := fun lineno =>
    match py_index (lines d) lineno with
    | Ok l => [(Token, l)]
    | Raise _ => []
    end
|}.

(** A processor that changes nothing. *)
Global Instance dummy_processor : Processor unit := {|
  apply_transformation ti :=
    mkTransformation (ti_tokens ti) (fun i => i) (fun i => i)
|}.

(** A buffer control with the defaults of [BufferControl.__init__], focused,
    over a buffer with the given text and cursor. *)
Definition the_app : App unit := mkApp 0%nat tt.

Definition control (txt : str) (cursor : Z) : BufferControl.t :=
  BufferControl.init the_app (Buffer.mk txt cursor None None) None
    (mkSearchState [] FORWARD false).

Definition search_document (b : Buffer.t) (ss : SearchState) : Document.t :=
  Buffer.document b.

Definition create_content :=
  BufferControl.create_content 0%nat (fun _ => false) None search_document.

Definition mouse_handler :=
  BufferControl.mouse_handler 0%nat (fun _ => false).

(** The state that [create_content], at width 80, leaves behind. *)
Definition rendered (s : BufferControl.t) : BufferControl.t :=
  snd (create_content 80 None s).

(** The state that the handling of a mouse event leaves behind, when both
    readings of the clock give [now]. *)
Definition after_event (kind : MouseEventType) (column : Z) (now : Q)
    (s : BufferControl.t) : BufferControl.t :=
  snd (mouse_handler (mkMouseEvent (mkPoint column 0) kind) now now s).

(** The two lines [abc] and [def]. *)
Definition abc_def : str := u "abc" ++ [10%N] ++ u "def".

(** A completion is running: the text was [abcdefghij] with the cursor at
    its end, and is now [abc] with the cursor at 3. *)
Definition completing : BufferControl.t :=
  BufferControl.init the_app
    (Buffer.mk (u "abc") 3 None
       (Some (mkCompletionState (Document.mk (u "abcdefghij") 10 None))))
    None (mkSearchState [] FORWARD false).

(** A press on the [c] of [ab cd] and a release one cell to the left, on
    the blank, at second 100; then the same press and release again, a tenth
    of a second later. *)
Definition jittery_double_click : BufferControl.t :=
  after_event MOUSE_UP 2 (1001 # 10)
    (after_event MOUSE_DOWN 3 (1001 # 10)
       (after_event MOUSE_UP 2 100
          (after_event MOUSE_DOWN 3 100
             (rendered (control (u "ab cd") 0))))).

(** A release on the [w] of [hello world] has been handled at second 100. *)
Definition clicked : BufferControl.t :=
  BufferControl.set_last_click_timestamp (Some 100%Q)
    (rendered (control (u "hello world") 6)).

(** A token list control that shows one token, in every render pass. *)
Definition toolbar_tokens (app : Z) : list Item := [mkItem Token (u "a") None].

Definition toolbar_content (app : Z) :=
  TokenListControl.create_content Z (fun app => app) toolbar_tokens app 80
                                  None.

End Sample.

(** * Properties *)

(** ** The height of a line *)

Lemma ceil_div_spec (a b : Z) :
  0 < b -> b * (ceil_div a b - 1) < a <= b * ceil_div a b.
Proof.
  intros Hb. unfold ceil_div.
  pose proof (Z.div_mod (- a) b ltac:(lia)) as Hdm.
  pose proof (Z.mod_pos_bound (- a) b Hb) as Hr.
  nia.
Qed.

Lemma divmod_nonzero (a b : Z) :
  b <> 0 -> divmod a b = Ok (a / b, a mod b).
Proof.
  intros Hb. unfold divmod.
  destruct (Z.eqb_spec b 0) as [->|_]; [contradiction | reflexivity].
Qed.

Lemma ceil_of_divmod (a b : Z) :
  0 < b ->
  (if a mod b =? 0 then a / b else a / b + 1) = ceil_div a b.
Proof.
  intros Hb.
  pose proof (ceil_div_spec a b Hb) as Hc.
  pose proof (Z.div_mod a b ltac:(lia)) as Hdm.
  pose proof (Z.mod_pos_bound a b Hb) as Hr.
  destruct (Z.eqb_spec (a mod b) 0) as [H0|H0]; nia.
Qed.

Lemma get_height_for_text_positive_width (get_cwidth : str -> Z)
    (txt : str) (width : Z) :
  0 < width ->
  UIContent.get_height_for_text get_cwidth txt width
  = Z.max 1 (ceil_div (get_cwidth txt) width).
Proof.
  intros Hw. unfold UIContent.get_height_for_text.
  rewrite divmod_nonzero by lia.
  now rewrite ceil_of_divmod.
Qed.

Lemma get_height_for_text_zero_width (get_cwidth : str -> Z) (txt : str) :
  UIContent.get_height_for_text get_cwidth txt 0 = 10 ^ 10.
Proof. reflexivity. Qed.

Lemma cells_app (s1 s2 : str) : cells (s1 ++ s2) = cells s1 + cells s2.
Proof.
  induction s1 as [|c s1 IH]; simpl; [reflexivity|].
  unfold cells in *. simpl. rewrite IH. lia.
Qed.

Lemma cells_repeat (c : N) (n : nat) :
  cells (repeat c n) = char_cells c * Z.of_nat n.
Proof.
  induction n as [|n IH]; [simpl; lia|].
  change (repeat c (S n)) with ([c] ++ repeat c n).
  rewrite cells_app, IH. unfold cells at 1. simpl fold_right. lia.
Qed.

(** C1: for every text and every positive width, [get_height_for_text]
    returns [max(1, ceil(display_width / width))], where the display width
    is what [get_cwidth] gives for the text, whatever cell widths it
    assigns to the characters; the result is at least 1. *)
Theorem get_height_for_text_ceil (get_cwidth : str -> Z) (txt : str)
    (width : Z) :
  0 < width ->
  UIContent.get_height_for_text get_cwidth txt width
  = Z.max 1 (ceil_div (get_cwidth txt) width)
  /\ 1 <= UIContent.get_height_for_text get_cwidth txt width.
Proof.
  intros Hw. rewrite get_height_for_text_positive_width by exact Hw.
  split; [reflexivity | lia].
Qed.

(** Two wide characters fill four cells: in a width of three they take two
    rows, where their count would give one. *)
Lemma get_height_for_text_ceil_witness :
  0 < 3
  /\ UIContent.get_height_for_text cells [20013%N; 25991%N] 3 = 2
  /\ (UIContent.get_height_for_text cells [20013%N; 25991%N] 3
      = Z.max 1 (ceil_div (cells [20013%N; 25991%N]) 3)
      /\ 1 <= UIContent.get_height_for_text cells [20013%N; 25991%N] 3).
Proof.
  split; [lia|]. split; [reflexivity|].
  apply (get_height_for_text_ceil cells [20013%N; 25991%N] 3). lia.
Defined.

(** C7, as stated, fails: a line of 10^10 + 1 letters is higher at width 1
    than the value returned for width 0. *)
Lemma sentinel_below_height_of_long_line :
  UIContent.get_height_for_text cells long_line 0
  < UIContent.get_height_for_text cells long_line 1.
Proof.
  rewrite get_height_for_text_zero_width.
  rewrite get_height_for_text_positive_width by lia.
  unfold long_line. rewrite cells_repeat.
  rewrite Z2Nat.id by lia.
  change (char_cells 97) with 1.
  unfold ceil_div. rewrite Z.div_1_r. lia.
Qed.

(** C7, amended: for every text, [get_height_for_text(text, 0)] does not
    raise and returns 10^10; that value is at least the height at every
    width [w >= 1] exactly when the display width of the text is at most
    10^10. *)
Theorem get_height_for_text_sentinel (get_cwidth : str -> Z) (txt : str) :
  UIContent.get_height_for_text get_cwidth txt 0 = 10 ^ 10
  /\ ((forall w, 1 <= w ->
         UIContent.get_height_for_text get_cwidth txt w
         <= UIContent.get_height_for_text get_cwidth txt 0)
      <-> get_cwidth txt <= 10 ^ 10).
Proof.
  split; [reflexivity|].
  rewrite get_height_for_text_zero_width. split.
  - intros H. specialize (H 1 ltac:(lia)).
    rewrite get_height_for_text_positive_width in H by lia.
    unfold ceil_div in H. rewrite Z.div_1_r in H. lia.
  - intros Hle w Hw.
    rewrite get_height_for_text_positive_width by lia.
    pose proof (ceil_div_spec (get_cwidth txt) w ltac:(lia)) as Hc.
    assert (0 < 10 ^ 10) by lia.
    apply Z.max_lub; [lia|]. nia.
Qed.

Lemma get_height_for_text_sentinel_witness :
  UIContent.get_height_for_text cells (u "hello world") 0 = 10 ^ 10
  /\ UIContent.get_height_for_text cells (u "hello world") 4
     <= UIContent.get_height_for_text cells (u "hello world") 0.
Proof.
  destruct (get_height_for_text_sentinel cells (u "hello world"))
    as [H0 [_ Hle]].
  split; [exact H0|].
  apply Hle; [vm_compute; discriminate | lia].
Defined.

(** ** Access to the lines of a content *)

Lemma getitem_in_range {S} (c : UIContent.t S) (lineno : Z) (s : S) :
  lineno < UIContent.line_count c ->
  UIContent.getitem c lineno s = UIContent.get_line c lineno s.
Proof.
  intros Hlt. unfold UIContent.getitem.
  destruct (Z.ltb_spec lineno (UIContent.line_count c)); [reflexivity | lia].
Qed.

Lemma getitem_out_of_range {S} (c : UIContent.t S) (lineno : Z) (s : S) :
  UIContent.line_count c <= lineno ->
  UIContent.getitem c lineno s = (Raise IndexError, s).
Proof.
  intros Hge. unfold UIContent.getitem.
  destruct (Z.ltb_spec lineno (UIContent.line_count c)); [lia | reflexivity].
Qed.

Lemma py_index_negative {A} (l : list A) (i : Z) :
  - Z.of_nat (length l) <= i < 0 ->
  exists a, l !! Z.to_nat (Z.of_nat (length l) + i) = Some a
            /\ py_index l i = Ok a.
Proof.
  intros Hi. unfold py_index. cbv zeta.
  destruct (Z.ltb_spec i 0) as [_|?]; [|lia].
  destruct (Z.leb_spec 0 (i + Z.of_nat (length l))) as [_|?]; [|lia].
  destruct (Z.ltb_spec (i + Z.of_nat (length l)) (Z.of_nat (length l)))
    as [_|?]; [|lia].
  simpl. rewrite (Z.add_comm (Z.of_nat (length l)) i).
  destruct (l !! Z.to_nat (i + Z.of_nat (length l))) as [a|] eqn:Hl.
  - exists a. split; reflexivity.
  - apply lookup_ge_None in Hl. lia.
Qed.

Lemma py_index_too_negative {A} (l : list A) (i : Z) :
  i < - Z.of_nat (length l) -> py_index l i = Raise IndexError.
Proof.
  intros Hi. unfold py_index. cbv zeta.
  destruct (Z.ltb_spec i 0) as [_|?]; [|lia].
  destruct (Z.leb_spec 0 (i + Z.of_nat (length l))) as [?|_]; [lia|].
  reflexivity.
Qed.

(** C8: on every content, access at a line number that is at least
    [line_count] raises [IndexError], and access at a line number from 0 up
    to [line_count - 1] returns [get_line(lineno)]; the content of the
    dummy control has 100^100 lines, and its line 0 is the empty list. *)
Theorem getitem_bounds {S} (c : UIContent.t S) (lineno : Z) (s : S)
    (width : Z) (height : option Z) :
  (UIContent.line_count c <= lineno ->
   UIContent.getitem c lineno s = (Raise IndexError, s))
  /\ (0 <= lineno < UIContent.line_count c ->
      UIContent.getitem c lineno s = UIContent.get_line c lineno s)
  /\ UIContent.line_count (DummyControl.create_content (S := S) width height)
     = 100 ^ 100
  /\ UIContent.getitem (DummyControl.create_content width height) 0 s
     = (Ok [], s).
Proof.
  split; [apply getitem_out_of_range|].
  split; [intros [_ Hlt]; now apply getitem_in_range|].
  split; [reflexivity|].
  rewrite getitem_in_range; [reflexivity|].
  change (0 < 100 ^ 100). apply Z.pow_pos_nonneg; lia.
Qed.

Lemma getitem_bounds_witness :
  UIContent.getitem (TokenListControl.get_content [[(Token, u "a")]]) 1 tt
  = (Raise IndexError, tt)
  /\ UIContent.getitem (TokenListControl.get_content [[(Token, u "a")]]) 0 tt
     = (Ok [(Token, u "a")], tt).
Proof.
  destruct (getitem_bounds (TokenListControl.get_content [[(Token, u "a")]])
                           1 tt 80 None) as [Hhigh _].
  destruct (getitem_bounds (TokenListControl.get_content [[(Token, u "a")]])
                           0 tt 80 None) as [_ [Hlow _]].
  split.
  - apply Hhigh. simpl. lia.
  - rewrite Hlow; [reflexivity | simpl; lia].
Defined.

(** C9, as stated, fails: the content of a token list with one line raises
    [IndexError] at line number -2. *)
Lemma getitem_below_the_first_line_raises :
  match TokenListControl.create_content unit (fun _ => 0)
          (fun _ => [mkItem Token (u "a") None]) tt 80 None
          TokenListControl.init with
  | (Ok content, _) =>
      UIContent.line_count content = 1
      /\ UIContent.getitem content (-2) tt = (Raise IndexError, tt)
  | (Raise _, _) => False
  end.
Proof. vm_compute. split; reflexivity. Qed.

(** C9, amended: index access does not reject a negative line number: when
    [lineno < 0 <= line_count] the guard holds and [UIContent[lineno]] is
    [get_line(lineno)]. For the content of a token list with [n] lines this
    is the line counted from the end when [-n <= lineno < 0], and the
    [IndexError] of the list lookup when [lineno < -n]. *)
Theorem getitem_negative :
  (forall S (c : UIContent.t S) (lineno : Z) (s : S),
      0 <= UIContent.line_count c -> lineno < 0 ->
      UIContent.getitem c lineno s = UIContent.get_line c lineno s)
  /\ (forall (token_lines : list Line) (lineno : Z) (s : unit),
         - Z.of_nat (length token_lines) <= lineno < 0 ->
         exists line,
           token_lines !! Z.to_nat (Z.of_nat (length token_lines) + lineno)
           = Some line
           /\ UIContent.getitem (TokenListControl.get_content token_lines)
                                lineno s = (Ok line, s))
  /\ (forall (token_lines : list Line) (lineno : Z) (s : unit),
         lineno < - Z.of_nat (length token_lines) ->
         UIContent.getitem (TokenListControl.get_content token_lines)
                           lineno s = (Raise IndexError, s)).
Proof.
  split; [|split].
  - intros S c lineno s Hn Hneg. apply getitem_in_range. lia.
  - intros token_lines lineno s Hi.
    destruct (py_index_negative token_lines lineno Hi) as [line [Hl Hp]].
    exists line. split; [exact Hl|].
    rewrite getitem_in_range by (simpl; lia).
    simpl. now rewrite Hp.
  - intros token_lines lineno s Hi.
    rewrite getitem_in_range by (simpl; lia).
    simpl. now rewrite py_index_too_negative.
Qed.

Lemma getitem_negative_witness :
  UIContent.getitem
    (TokenListControl.get_content [[(Token, u "a")]; [(Token, u "b")]])
    (-1) tt
  = (Ok [(Token, u "b")], tt).
Proof.
  destruct getitem_negative as [_ [Hneg _]].
  destruct (Hneg [[(Token, u "a")]; [(Token, u "b")]] (-1) tt) as [l [Hl Hg]].
  - simpl. lia.
  - simpl in Hl. injection Hl as <-. exact Hg.
Defined.

(** ** The caches *)

Lemma assoc_app_miss {K V} `{EqDecision K} (key : K) (v : V)
    (l : list (K * V)) :
  SimpleCache.assoc key l = None ->
  SimpleCache.assoc key (l ++ [(key, v)]) = Some v.
Proof.
  induction l as [|[k w] l IH]; simpl.
  - intros _. destruct (decide (key = key)); [reflexivity | contradiction].
  - destruct (decide (k = key)); [discriminate | exact IH].
Qed.

(** A value that was just stored is found, in a cache that holds at least
    one entry. *)
Lemma lookup_store {K V} `{EqDecision K} (key : K) (v : V)
    (c : SimpleCache.t K V) :
  (0 < SimpleCache.maxsize c)%nat ->
  SimpleCache.lookup key c = None ->
  SimpleCache.lookup key (SimpleCache.store key v c) = Some v.
Proof.
  unfold SimpleCache.lookup, SimpleCache.store. intros Hmax Hmiss.
  cbn [SimpleCache.entries].
  destruct (decide (SimpleCache.maxsize c
                    < length (SimpleCache.entries c ++ [(key, v)]))%nat)
    as [Hfull|_].
  - destruct (SimpleCache.entries c) as [|[k w] l] eqn:He.
    + simpl in Hfull. lia.
    + simpl in Hmiss. destruct (decide (k = key)); [discriminate|].
      simpl. now apply assoc_app_miss.
  - now apply assoc_app_miss.
Qed.


Section token_list_control.
Variable App : Type.
Variable render_counter : App -> Z.
Variable get_tokens : App -> list Item.

Local Abbreviation tl_create_content :=
  (TokenListControl.create_content App render_counter get_tokens).
Local Abbreviation cached_tokens :=
  (TokenListControl.cached_tokens App render_counter get_tokens).

(** The content that [create_content] returns is the one cached for the
    token list and the width, or else a new one, which is then cached. *)
Lemma token_list_create_content_spec (app : App) (width : Z)
    (height : option Z) (s : TokenListControl.t) :
  let tokens := cached_tokens app s in
  exists content s1,
    tl_create_content app width height s = (Ok content, s1)
    /\ content
       = match SimpleCache.lookup (tokens, width)
                 (TokenListControl._content_cache s) with
         | Some cached => cached
         | None =>
             TokenListControl.get_content
               (map (map (fun item => (item_token item, item_text item)))
                    (split_lines tokens))
         end
    /\ TokenListControl.get_content_calls s1
       = match SimpleCache.lookup (tokens, width)
                 (TokenListControl._content_cache s) with
         | Some _ => TokenListControl.get_content_calls s
         | None => S (TokenListControl.get_content_calls s)
         end
    /\ ((0 < SimpleCache.maxsize (TokenListControl._content_cache s))%nat ->
        SimpleCache.lookup (tokens, width)
                           (TokenListControl._content_cache s1)
        = Some content)
    /\ SimpleCache.maxsize (TokenListControl._content_cache s1)
       = SimpleCache.maxsize (TokenListControl._content_cache s).
Proof.
  intros tokens. subst tokens.
  unfold TokenListControl.create_content,
    TokenListControl._get_tokens_cached, TokenListControl.cached_tokens,
    SimpleCache.get, bind, modify, ret.
  destruct (SimpleCache.lookup (render_counter app)
                               (TokenListControl._token_cache s))
    as [tokens|]; cbn [TokenListControl._content_cache
                       TokenListControl.set_tokens
                       TokenListControl.set_token_cache
                       TokenListControl.count_get_tokens
                       TokenListControl.get_content_calls].
  - destruct (SimpleCache.lookup (tokens, width)
                                 (TokenListControl._content_cache s))
      as [content|] eqn:Hc.
    + eexists. eexists. do 3 (split; [reflexivity|]).
      split; [intros _; exact Hc | reflexivity].
    + eexists. eexists. do 3 (split; [reflexivity|]).
      split; [|reflexivity]. intros Hmax. cbn. now apply lookup_store.
  - destruct (SimpleCache.lookup (get_tokens app, width)
                                 (TokenListControl._content_cache s))
      as [content|] eqn:Hc.
    + eexists. eexists. do 3 (split; [reflexivity|]).
      split; [intros _; exact Hc | reflexivity].
    + eexists. eexists. do 3 (split; [reflexivity|]).
      split; [|reflexivity]. intros Hmax. cbn. now apply lookup_store.
Qed.

(** A second [create_content] that obtains the same token list, at the same
    width, takes the content from the cache: [get_content] is not run. *)
Lemma token_list_create_content_twice (app app' : App) (width : Z)
    (height height' : option Z) (s : TokenListControl.t) :
  (0 < SimpleCache.maxsize (TokenListControl._content_cache s))%nat ->
  cached_tokens app' (snd (tl_create_content app width height s))
  = cached_tokens app s ->
  exists content s1 s2,
    tl_create_content app width height s = (Ok content, s1)
    /\ tl_create_content app' width height' s1 = (Ok content, s2)
    /\ TokenListControl.get_content_calls s2
       = TokenListControl.get_content_calls s1.
Proof.
  intros Hmax Hsame.
  destruct (token_list_create_content_spec app width height s)
    as (c1 & s1 & Hrun1 & _ & _ & Hlook1 & _).
  rewrite Hrun1 in Hsame. cbn [snd] in Hsame.
  destruct (token_list_create_content_spec app' width height' s1)
    as (c2 & s2 & Hrun2 & Hc2 & Hcalls2 & _).
  rewrite Hsame, (Hlook1 Hmax) in Hc2, Hcalls2. subst c2.
  exists c1, s1, s2. split; [exact Hrun1|]. split; [exact Hrun2|].
  exact Hcalls2.
Qed.

End token_list_control.

(** ** The buffer control *)

Section buffer_control.
Context {Env : Type} `{!DocumentOps} `{!Lexer Env} `{!Processor Env}.
Variable self : nat.
Variable preview_search : App Env -> bool.
Variable focus_on_click : App Env -> bool.
Variable menu_position : option (App Env -> option Z).
Variable document_for_search : Buffer.t -> SearchState -> Document.t.

Local Abbreviation state := (@BufferControl.t Env).
Local Abbreviation get_processed_line := (BufferControl.get_processed_line self).
Local Abbreviation transform := (BufferControl.transform self).
Local Abbreviation closure_at := (BufferControl.closure_at self).
Local Abbreviation create_content :=
  (BufferControl.create_content self preview_search menu_position
                                document_for_search).
Local Abbreviation mouse_handler :=
  (BufferControl.mouse_handler self focus_on_click).
Local Abbreviation document_to_show :=
  (BufferControl.document_to_show preview_search document_for_search).

Lemma frame_refl (s : state) : BufferControl.frame s s.
Proof. repeat split. Qed.

Lemma frame_trans (s1 s2 s3 : state) :
  BufferControl.frame s1 s2 -> BufferControl.frame s2 s3 ->
  BufferControl.frame s1 s3.
Proof.
  unfold BufferControl.frame.
  intros (?&?&?&?&?&?&?&?) (?&?&?&?&?&?&?&?).
  repeat split; congruence.
Qed.

(** A call of [get_processed_line] returns what [transform] gives for the
    line, keeps the closure as it was made, and applies the processors at
    most once: once when the line is not in the cache, never when it is. *)
Lemma get_processed_line_spec (s : state) (addr : nat) (i : Z)
    (document : Document.t) (width : Z) (height : option Z)
    (lines : Z -> Line) :
  closure_at s addr document width height lines ->
  exists s',
    get_processed_line addr i s
    = (Ok (transform (BufferControl.app s) document width height i (lines i)),
       s')
    /\ closure_at s' addr document width height lines
    /\ BufferControl.frame s s'
    /\ length (BufferControl.closures s') = length (BufferControl.closures s)
    /\ (forall cl, BufferControl.closures s !! addr = Some cl ->
        match BufferControl.cache cl !! i with
        | Some _ =>
            BufferControl.apply_transformation_calls s'
            = BufferControl.apply_transformation_calls s
        | None =>
            BufferControl.apply_transformation_calls s'
            = S (BufferControl.apply_transformation_calls s)
        end)
    /\ (forall cl', BufferControl.closures s' !! addr = Some cl' ->
        is_Some (BufferControl.cache cl' !! i)).
Proof.
  intros (cl & Hcl & Hd & Hw & Hh & Hl & Hok). subst.
  assert (Hlt : (addr < length (BufferControl.closures s))%nat)
    by (eapply lookup_lt_Some; eassumption).
  unfold BufferControl.get_processed_line. rewrite Hcl.
  destruct (BufferControl.cache cl !! i) as [pl|] eqn:Hc.
  - exists s. rewrite (Hok i pl Hc).
    split; [reflexivity|]. split; [exists cl; now repeat split|].
    split; [apply frame_refl|]. split; [reflexivity|]. split.
    + intros cl0 Hcl0. injection Hcl0 as <-. now rewrite Hc.
    + intros cl0 Hcl0. rewrite Hcl in Hcl0. injection Hcl0 as <-.
      rewrite Hc. eauto.
  - eexists. split; [reflexivity|]. split.
    { eexists. split; [apply list_lookup_insert_eq; exact Hlt|].
      repeat split. intros j pl Hj.
      change (<[i := transform (BufferControl.app s)
                      (BufferControl.cl_document cl)
                      (BufferControl.cl_width cl)
                      (BufferControl.cl_height cl) i
                      (BufferControl.cl_get_line cl i)]>
                (BufferControl.cache cl) !! j = Some pl) in Hj.
      destruct (decide (i = j)) as [->|Hne].
      - rewrite lookup_insert_eq in Hj. now injection Hj as <-.
      - rewrite lookup_insert_ne in Hj by exact Hne. exact (Hok j pl Hj). }
    split; [repeat split|]. split; [apply length_insert|]. split.
    + intros cl0 Hcl0. injection Hcl0 as <-. now rewrite Hc.
    + intros cl0 Hcl0.
      change (<[addr := BufferControl.set_cache
                  (<[i := transform (BufferControl.app s)
                            (BufferControl.cl_document cl)
                            (BufferControl.cl_width cl)
                            (BufferControl.cl_height cl) i
                            (BufferControl.cl_get_line cl i)]>
                     (BufferControl.cache cl)) cl]>
                (BufferControl.closures s) !! addr = Some cl0) in Hcl0.
      rewrite list_lookup_insert_eq in Hcl0 by exact Hlt.
      injection Hcl0 as <-.
      unfold BufferControl.set_cache, BufferControl.cache at 1.
      rewrite lookup_insert_eq. eauto.
Qed.

(** [_create_get_processed_line_func] returns a new closure with an empty
    cache; it calls the lexer only when the text of the document is not in
    the token cache, and it applies no processor. *)
Lemma create_func_spec (s : state) (document : Document.t) (width : Z)
    (height : option Z) :
  exists s',
    BufferControl._create_get_processed_line_func document width height s
    = (Ok (length (BufferControl.closures s)), s')
    /\ BufferControl.closures s'
       = BufferControl.closures s
         ++ [BufferControl.mkClosure document width height
               (BufferControl.lexer_lines s document) ∅]
    /\ BufferControl.app s' = BufferControl.app s
    /\ BufferControl.buffer s' = BufferControl.buffer s
    /\ BufferControl.search_buffer s' = BufferControl.search_buffer s
    /\ BufferControl.search_state s' = BufferControl.search_state s
    /\ BufferControl._last_click_timestamp s'
       = BufferControl._last_click_timestamp s
    /\ BufferControl._last_get_processed_line s'
       = BufferControl._last_get_processed_line s
    /\ BufferControl.apply_transformation_calls s'
       = BufferControl.apply_transformation_calls s
    /\ BufferControl.lex_document_calls s'
       = match SimpleCache.lookup (Document.text document)
                                  (BufferControl._token_cache s) with
         | Some _ => BufferControl.lex_document_calls s
         | None => S (BufferControl.lex_document_calls s)
         end
    /\ SimpleCache.maxsize (BufferControl._token_cache s')
       = SimpleCache.maxsize (BufferControl._token_cache s)
    /\ ((0 < SimpleCache.maxsize (BufferControl._token_cache s))%nat ->
        SimpleCache.lookup (Document.text document)
                           (BufferControl._token_cache s')
        = Some (BufferControl.lexer_lines s document)).
Proof.
  unfold BufferControl._create_get_processed_line_func,
    BufferControl._get_tokens_for_line_func, BufferControl.lexer_lines,
    SimpleCache.get, bind, gets, modify, ret.
  destruct (SimpleCache.lookup (Document.text document)
                               (BufferControl._token_cache s)) as [f|] eqn:Hc.
  - eexists. split; [reflexivity|]. repeat split. intros _. exact Hc.
  - eexists. split; [reflexivity|]. repeat split.
    intros Hmax. cbn. now apply lookup_store.
Qed.

Lemma closure_at_new (s : state) (cl : BufferControl.Closure)
    (cs : list BufferControl.Closure) :
  BufferControl.closures s = cs ++ [cl] ->
  BufferControl.cache cl = ∅ ->
  closure_at s (length cs) (BufferControl.cl_document cl)
    (BufferControl.cl_width cl) (BufferControl.cl_height cl)
    (BufferControl.cl_get_line cl).
Proof.
  intros Hcs Hempty. exists cl. rewrite Hcs.
  split; [apply list_lookup_middle; reflexivity|].
  repeat split. intros i pl Hi. rewrite Hempty in Hi.
  rewrite lookup_empty in Hi. discriminate.
Qed.

Lemma bind_ok {S A B} (m : M S A) (k : A -> M S B) (s s' : S) (a : A) :
  m s = (Ok a, s') -> bind m k s = k a s'.
Proof. intros Hm. unfold bind. now rewrite Hm. Qed.

Lemma bind_gets {S A B} (f : S -> A) (k : A -> M S B) (s : S) :
  bind (gets f) k s = k (f s) s.
Proof. reflexivity. Qed.

Lemma bind_modify {S B} (f : S -> S) (k : unit -> M S B) (s : S) :
  bind (modify f) k s = k tt (f s).
Proof. reflexivity. Qed.

Lemma closure_at_ext (s s' : state) (addr : nat) (document : Document.t)
    (width : Z) (height : option Z) (lines : Z -> Line) :
  BufferControl.closures s' = BufferControl.closures s ->
  BufferControl.app s' = BufferControl.app s ->
  closure_at s addr document width height lines ->
  closure_at s' addr document width height lines.
Proof.
  intros Hc Ha (cl & Hcl & Hrest). exists cl. now rewrite Hc, Ha.
Qed.

(** [translate_rowcol] maps the column through the [source_to_display] of
    the processed line of the row. *)
Lemma translate_rowcol_spec (s : state) (addr : nat) (row col : Z)
    (document : Document.t) (width : Z) (height : option Z)
    (lines : Z -> Line) :
  closure_at s addr document width height lines ->
  exists s',
    BufferControl.translate_rowcol self addr row col s
    = (Ok (BufferControl.translated self (BufferControl.app s) document
             width height lines (row, col)), s')
    /\ closure_at s' addr document width height lines
    /\ BufferControl.frame s s'
    /\ length (BufferControl.closures s') = length (BufferControl.closures s)
    /\ (forall cl, BufferControl.closures s !! addr = Some cl ->
        match BufferControl.cache cl !! row with
        | Some _ =>
            BufferControl.apply_transformation_calls s'
            = BufferControl.apply_transformation_calls s
        | None =>
            BufferControl.apply_transformation_calls s'
            = S (BufferControl.apply_transformation_calls s)
        end).
Proof.
  intros Hcl.
  destruct (get_processed_line_spec s addr row _ _ _ _ Hcl)
    as (s' & Hrun & Hcl' & Hfr & Hlen & Hcount & _).
  exists s'. unfold BufferControl.translate_rowcol.
  rewrite (bind_ok _ _ _ _ _ Hrun).
  split; [reflexivity|]. split; [exact Hcl'|]. split; [exact Hfr|].
  split; [exact Hlen | exact Hcount].
Qed.

(** [get_line], in a state in which the closure is as it was made: the
    tokens that the processors give for the line, and one more token, a
    blank of the default style. *)
Lemma get_line_spec (s : state) (addr : nat) (i : Z)
    (document : Document.t) (width : Z) (height : option Z)
    (lines : Z -> Line) :
  closure_at s addr document width height lines ->
  exists s',
    BufferControl.get_line self addr i s
    = (Ok (tr_tokens
             (apply_transformation
                (BufferControl.transformation_input self
                   (BufferControl.app s) document width height i (lines i)))
           ++ [(Token, u " ")]), s')
    /\ closure_at s' addr document width height lines
    /\ BufferControl.frame s s'.
Proof.
  intros Hcl.
  destruct (get_processed_line_spec s addr i _ _ _ _ Hcl)
    as (s' & Hrun & Hcl' & Hfr & _).
  exists s'. unfold BufferControl.get_line.
  rewrite (bind_ok _ _ _ _ _ Hrun).
  split; [reflexivity|]. split; [exact Hcl' | exact Hfr].
Qed.

(** What [create_content] returns and what it leaves behind. *)
Lemma create_content_spec (s : state) (width : Z) (height : option Z) :
  let document := document_to_show s in
  let lines := BufferControl.lexer_lines s document in
  let addr := length (BufferControl.closures s) in
  exists content s1,
    create_content width height s = (Ok content, s1)
    /\ UIContent.get_line content = BufferControl.get_line self addr
    /\ UIContent.line_count content = line_count document
    /\ UIContent.cursor_position content
       = BufferControl.translated self (BufferControl.app s) document width
           height lines
           (cursor_position_row document, cursor_position_col document)
    /\ UIContent.menu_position content
       = (if BufferControl.has_focus self s then
            option_map
              (fun menu =>
                 BufferControl.translated self (BufferControl.app s) document
                   width height lines
                   (translate_index_to_position
                      (Buffer.document (BufferControl.buffer s)) menu))
              (BufferControl.menu_offset menu_position s)
          else None)
    /\ closure_at s1 addr document width height lines
    /\ BufferControl._last_get_processed_line s1 = Some addr
    /\ BufferControl.app s1 = BufferControl.app s
    /\ BufferControl.buffer s1 = BufferControl.buffer s
    /\ BufferControl.search_buffer s1 = BufferControl.search_buffer s
    /\ BufferControl.search_state s1 = BufferControl.search_state s
    /\ BufferControl._last_click_timestamp s1
       = BufferControl._last_click_timestamp s
    /\ BufferControl.lex_document_calls s1
       = match SimpleCache.lookup (Document.text document)
                                  (BufferControl._token_cache s) with
         | Some _ => BufferControl.lex_document_calls s
         | None => S (BufferControl.lex_document_calls s)
         end
    /\ (S (BufferControl.apply_transformation_calls s)
        <= BufferControl.apply_transformation_calls s1
        <= S (S (BufferControl.apply_transformation_calls s)))%nat
    /\ SimpleCache.maxsize (BufferControl._token_cache s1)
       = SimpleCache.maxsize (BufferControl._token_cache s)
    /\ ((0 < SimpleCache.maxsize (BufferControl._token_cache s))%nat ->
        SimpleCache.lookup (Document.text document)
                           (BufferControl._token_cache s1)
        = Some lines).
Proof.
  intros document lines addr.
  unfold BufferControl.create_content.
  rewrite !bind_gets. fold document.
  destruct (create_func_spec s document width height)
    as (sa & Hrun & Hcs & Happ & Hbuf & Hsb & Hss & Hts & Hlast & Hatc
        & Hlex & Hmax & Hlook).
  rewrite (bind_ok _ _ _ _ _ Hrun), bind_modify. fold addr.
  set (sb := BufferControl.set_last_get_processed_line (Some addr) sa).
  assert (Hat : closure_at sb addr document width height lines).
  { apply (closure_at_ext sa sb); [reflexivity | reflexivity |].
    exact (closure_at_new sa _ _ Hcs eq_refl). }
  assert (Hnew : BufferControl.closures sb !! addr
                 = Some (BufferControl.mkClosure document width height
                           lines ∅)).
  { change (BufferControl.closures sb) with (BufferControl.closures sa).
    rewrite Hcs. apply list_lookup_middle. reflexivity. }
  destruct (translate_rowcol_spec sb addr (cursor_position_row document)
              (cursor_position_col document) _ _ _ _ Hat)
    as (sc & Hrun1 & Hat1 & Hfr1 & Hlen1 & Hcount1).
  specialize (Hcount1 _ Hnew). cbn [BufferControl.cache] in Hcount1.
  rewrite lookup_empty in Hcount1.
  destruct Hfr1 as (Ha1 & Hb1 & Hsb1 & Hss1 & Htc1 & Hts1 & Hl1 & Hlx1).
  change (BufferControl.app sb) with (BufferControl.app sa) in *.
  change (BufferControl.buffer sb) with (BufferControl.buffer sa) in *.
  change (BufferControl.search_buffer sb)
    with (BufferControl.search_buffer sa) in *.
  change (BufferControl.search_state sb)
    with (BufferControl.search_state sa) in *.
  change (BufferControl._token_cache sb)
    with (BufferControl._token_cache sa) in *.
  change (BufferControl._last_click_timestamp sb)
    with (BufferControl._last_click_timestamp sa) in *.
  change (BufferControl._last_get_processed_line sb) with (Some addr) in *.
  change (BufferControl.lex_document_calls sb)
    with (BufferControl.lex_document_calls sa) in *.
  change (BufferControl.apply_transformation_calls sb)
    with (BufferControl.apply_transformation_calls sa) in *.
  assert (Hfocus : BufferControl.has_focus self sc
                   = BufferControl.has_focus self s).
  { unfold BufferControl.has_focus. now rewrite Ha1, Happ. }
  rewrite Happ in Hrun1.
  rewrite (bind_ok _ _ _ _ _ Hrun1). cbv zeta. rewrite bind_gets.
  rewrite Hfocus.
  destruct (BufferControl.has_focus self s).
  - rewrite bind_gets. unfold BufferControl.menu_offset.
    rewrite Ha1, Happ.
    assert (Hmenu : forall offset : Z,
      exists content s1,
        (let '(menu_row, menu_col) :=
           translate_index_to_position
             (Buffer.document (BufferControl.buffer s)) offset in
         bind (BufferControl.translate_rowcol self addr menu_row menu_col)
           (fun p =>
              ret (UIContent.set_menu_position
                     (UIContent.init (BufferControl.get_line self addr)
                        (line_count document)
                        (Some (BufferControl.translated self
                                 (BufferControl.app s) document width height
                                 lines
                                 (cursor_position_row document,
                                  cursor_position_col document)))
                        None)
                     (Some p)))) sc
        = (Ok content, s1)
        /\ UIContent.get_line content = BufferControl.get_line self addr
        /\ UIContent.line_count content = line_count document
        /\ UIContent.cursor_position content
           = BufferControl.translated self (BufferControl.app s) document
               width height lines
               (cursor_position_row document, cursor_position_col document)
        /\ UIContent.menu_position content
           = Some (BufferControl.translated self (BufferControl.app s)
                     document width height lines
                     (translate_index_to_position
                        (Buffer.document (BufferControl.buffer s)) offset))
        /\ closure_at s1 addr document width height lines
        /\ BufferControl.frame sc s1
        /\ (BufferControl.apply_transformation_calls sc
            <= BufferControl.apply_transformation_calls s1
            <= S (BufferControl.apply_transformation_calls sc))%nat).
    { intros offset.
      destruct (translate_index_to_position
                  (Buffer.document (BufferControl.buffer s)) offset)
        as [menu_row menu_col] eqn:Hpos.
      destruct (translate_rowcol_spec sc addr menu_row menu_col _ _ _ _ Hat1)
        as (sd & Hrun2 & Hat2 & Hfr2 & Hlen2 & Hcount2).
      rewrite Ha1, Happ in Hrun2.
      rewrite (bind_ok _ _ _ _ _ Hrun2).
      eexists. eexists. split; [reflexivity|].
      do 4 (split; [reflexivity|]). split; [exact Hat2|].
      split; [exact Hfr2|].
      destruct Hat1 as (cl1 & Hcl1 & _). specialize (Hcount2 _ Hcl1).
      destruct (BufferControl.cache cl1 !! menu_row); lia. }
    assert (Hfin : forall s1 : state,
      closure_at s1 addr document width height lines ->
      BufferControl.frame sc s1 ->
      (BufferControl.apply_transformation_calls sc
       <= BufferControl.apply_transformation_calls s1
       <= S (BufferControl.apply_transformation_calls sc))%nat ->
      closure_at s1 addr document width height lines
      /\ BufferControl._last_get_processed_line s1 = Some addr
      /\ BufferControl.app s1 = BufferControl.app s
      /\ BufferControl.buffer s1 = BufferControl.buffer s
      /\ BufferControl.search_buffer s1 = BufferControl.search_buffer s
      /\ BufferControl.search_state s1 = BufferControl.search_state s
      /\ BufferControl._last_click_timestamp s1
         = BufferControl._last_click_timestamp s
      /\ BufferControl.lex_document_calls s1
         = match SimpleCache.lookup (Document.text document)
                                    (BufferControl._token_cache s) with
           | Some _ => BufferControl.lex_document_calls s
           | None => S (BufferControl.lex_document_calls s)
           end
      /\ (S (BufferControl.apply_transformation_calls s)
          <= BufferControl.apply_transformation_calls s1
          <= S (S (BufferControl.apply_transformation_calls s)))%nat
      /\ SimpleCache.maxsize (BufferControl._token_cache s1)
         = SimpleCache.maxsize (BufferControl._token_cache s)
      /\ ((0 < SimpleCache.maxsize (BufferControl._token_cache s))%nat ->
          SimpleCache.lookup (Document.text document)
                             (BufferControl._token_cache s1)
          = Some lines)).
    { intros s1 Hat2
        (Ha2 & Hb2 & Hsb2 & Hss2 & Htc2 & Hts2 & Hl2 & Hlx2) Hn.
      split; [exact Hat2|].
      split; [congruence|]. split; [congruence|]. split; [congruence|].
      split; [congruence|]. split; [congruence|]. split; [congruence|].
      split; [congruence|]. split; [lia|].
      split; [rewrite Htc2, Htc1; exact Hmax|].
      rewrite Htc2, Htc1. exact Hlook. }
    destruct (match menu_position with
              | Some callback => callback (BufferControl.app s)
              | None => None
              end) as [menu|].
    + destruct (Hmenu menu)
        as (content & s1 & Hrun2 & Hg & Hn & Hc & Hm & Hat2 & Hfr2 & Hcnt).
      exists content, s1. split; [exact Hrun2|].
      do 4 (split; [assumption|]). now apply Hfin.
    + destruct (Buffer.complete_state (BufferControl.buffer s))
        as [complete_state|].
      * destruct (Hmenu
                    (Z.min (Buffer.cursor_position (BufferControl.buffer s))
                       (Document.cursor_position
                          (original_document complete_state))))
          as (content & s1 & Hrun2 & Hg & Hn & Hc & Hm & Hat2 & Hfr2 & Hcnt).
        exists content, s1. split; [exact Hrun2|].
        do 4 (split; [assumption|]). now apply Hfin.
      * eexists. exists sc. split; [reflexivity|].
        do 4 (split; [reflexivity|]).
        apply Hfin; [exact Hat1 | apply frame_refl | lia].
  - eexists. exists sc. split; [reflexivity|].
    do 4 (split; [reflexivity|]).
    split; [exact Hat1|].
    split; [congruence|]. split; [congruence|]. split; [congruence|].
    split; [congruence|]. split; [congruence|]. split; [congruence|].
    split; [congruence|]. split; [lia|].
    split; [rewrite Htc1; exact Hmax|].
    rewrite Htc1. exact Hlook.
Qed.

Lemma document_to_show_ext (s s' : state) :
  BufferControl.app s' = BufferControl.app s ->
  BufferControl.buffer s' = BufferControl.buffer s ->
  BufferControl.search_buffer s' = BufferControl.search_buffer s ->
  BufferControl.search_state s' = BufferControl.search_state s ->
  document_to_show s' = document_to_show s.
Proof.
  intros Ha Hb Hsb Hss. unfold BufferControl.document_to_show.
  now rewrite Ha, Hb, Hsb, Hss.
Qed.

(** C2: in the content that [create_content] produces, [get_line(i)]
    returns, for every line number [i], the tokens that the processors give
    for line [i] followed by exactly one more token, a single blank of the
    default style; this holds on every line, whether the cursor is on it or
    not. *)
Theorem get_line_appends_blank (s : state) (width : Z) (height : option Z) :
  exists content s1,
    create_content width height s = (Ok content, s1)
    /\ forall i : Z, exists s2,
        UIContent.get_line content i s1
        = (Ok (tr_tokens
                 (apply_transformation
                    (BufferControl.transformation_input self
                       (BufferControl.app s) (document_to_show s) width
                       height i
                       (BufferControl.lexer_lines s (document_to_show s) i)))
               ++ [(Token, u " ")]), s2).
Proof.
  destruct (create_content_spec s width height)
    as (content & s1 & Hrun & Hget & _ & _ & _ & Hat & _ & Happ & _).
  exists content, s1. split; [exact Hrun|]. intros i.
  destruct (get_line_spec s1 _ i _ _ _ _ Hat) as (s2 & Hline & _).
  exists s2. rewrite Hget, Hline, Happ. reflexivity.
Qed.

(** A second [create_content] on the state that the first one left: the
    lexer is not called again, a new closure with an empty cache is made,
    and the processors are applied again, once or twice. *)
Lemma create_content_twice (s : state) (width : Z) (height : option Z) :
  (0 < SimpleCache.maxsize (BufferControl._token_cache s))%nat ->
  exists content1 s1 content2 s2,
    create_content width height s = (Ok content1, s1)
    /\ create_content width height s1 = (Ok content2, s2)
    /\ BufferControl.lex_document_calls s2
       = BufferControl.lex_document_calls s1
    /\ (S (BufferControl.apply_transformation_calls s1)
        <= BufferControl.apply_transformation_calls s2
        <= S (S (BufferControl.apply_transformation_calls s1)))%nat
    /\ BufferControl._last_get_processed_line s1
       = Some (length (BufferControl.closures s))
    /\ BufferControl._last_get_processed_line s2
       = Some (length (BufferControl.closures s1))
    /\ (length (BufferControl.closures s)
        < length (BufferControl.closures s1))%nat.
Proof.
  intros Hmax.
  destruct (create_content_spec s width height)
    as (c1 & s1 & Hrun1 & _ & _ & _ & _ & Hat1 & Hl1 & Ha1 & Hb1 & Hsb1
        & Hss1 & _ & _ & _ & Hmax1 & Hlook1).
  destruct (create_content_spec s1 width height)
    as (c2 & s2 & Hrun2 & _ & _ & _ & _ & _ & Hl2 & _ & _ & _ & _ & _
        & Hlex2 & Hatc2 & _).
  exists c1, s1, c2, s2.
  rewrite (document_to_show_ext s s1 Ha1 Hb1 Hsb1 Hss1) in Hlex2.
  rewrite (Hlook1 Hmax) in Hlex2.
  do 6 (split; [assumption|]).
  destruct Hat1 as (cl & Hcl & _). eapply lookup_lt_Some. exact Hcl.
Qed.

(** C4, amended: [transform] determines a cursor column of its own, the
    cursor's column on the cursor's line and [None] on every other line,
    but it does not pass it on: on every line the input of the processors
    is the application, the control, the document, the line number, the
    identity, the tokens, the width and the height, so that the document,
    cursor included, reaches the processors on every line alike, and the
    processed line is what the processors return for that input. The cursor
    is mapped into display space by [create_content], through the
    [source_to_display] of the processed line of the cursor's row. *)
Theorem transform_input_without_cursor_column (a : App Env)
    (document : Document.t) (width : Z) (height : option Z) (lineno : Z)
    (line : Line) (s : state) :
  let input :=
    BufferControl.transformation_input self a document width height lineno
                                       line in
  BufferControl.cursor_column_of document lineno
  = (if decide (cursor_position_row document = lineno)
     then Some (cursor_position_col document) else None)
  /\ (ti_app input = a /\ ti_buffer_control input = self
      /\ ti_document input = document /\ ti_lineno input = lineno
      /\ (forall i, ti_source_to_display input i = i)
      /\ ti_tokens input = line /\ ti_width input = width
      /\ ti_height input = height)
  /\ transform a document width height lineno line
     = mkProcessedLine (tr_tokens (apply_transformation input))
         (tr_source_to_display (apply_transformation input))
         (tr_display_to_source (apply_transformation input))
  /\ exists content s1,
      create_content width height s = (Ok content, s1)
      /\ UIContent.cursor_position content
         = mkPoint
             (source_to_display
                (transform (BufferControl.app s) (document_to_show s) width
                   height (cursor_position_row (document_to_show s))
                   (BufferControl.lexer_lines s (document_to_show s)
                      (cursor_position_row (document_to_show s))))
                (cursor_position_col (document_to_show s)))
             (cursor_position_row (document_to_show s)).
Proof.
  intros input. split; [reflexivity|]. split; [now repeat split|].
  split; [reflexivity|].
  destruct (create_content_spec s width height)
    as (content & s1 & Hrun & _ & _ & Hcursor & _).
  exists content, s1. split; [exact Hrun | exact Hcursor].
Qed.

(** C5: a focused control without a menu-position callback, over a buffer
    with a running completion, produces as menu position the display-space
    translation of the row and column of the offset
    [min(cursor, cursor of the completion's original document)]; a control
    that is not focused, or a focused one for which neither a callback nor a
    completion applies, produces no menu position; in none of these cases
    is an error raised. *)
Theorem menu_position_of_completion (s : state) (width : Z)
    (height : option Z) :
  exists content s1,
    create_content width height s = (Ok content, s1)
    /\ (forall complete_state,
          BufferControl.has_focus self s = true ->
          menu_position = None ->
          Buffer.complete_state (BufferControl.buffer s)
          = Some complete_state ->
          UIContent.menu_position content
          = Some (BufferControl.translated self (BufferControl.app s)
                    (document_to_show s) width height
                    (BufferControl.lexer_lines s (document_to_show s))
                    (translate_index_to_position
                       (Buffer.document (BufferControl.buffer s))
                       (Z.min
                          (Buffer.cursor_position (BufferControl.buffer s))
                          (Document.cursor_position
                             (original_document complete_state))))))
    /\ (BufferControl.has_focus self s = false ->
        UIContent.menu_position content = None)
    /\ (match menu_position with
        | Some callback => callback (BufferControl.app s)
        | None => None
        end = None ->
        Buffer.complete_state (BufferControl.buffer s) = None ->
        UIContent.menu_position content = None).
Proof.
  destruct (create_content_spec s width height)
    as (content & s1 & Hrun & _ & _ & _ & Hmenu & _).
  exists content, s1. split; [exact Hrun|].
  unfold BufferControl.menu_offset in Hmenu. split; [|split].
  - intros cs Hfocus Hcb Hcs. rewrite Hmenu, Hfocus, Hcb, Hcs. reflexivity.
  - intros Hfocus. rewrite Hmenu, Hfocus. reflexivity.
  - intros Hcb Hcs. rewrite Hmenu, Hcb, Hcs.
    destruct (BufferControl.has_focus self s); reflexivity.
Qed.

Lemma is_double_click_true (t0 now : Q) :
  ~ (t0 == 0)%Q -> (now - t0 < 3 # 10)%Q ->
  BufferControl.is_double_click (Some t0) now = true.
Proof.
  intros Hnz Hlt. unfold BufferControl.is_double_click, Qlt_bool.
  apply andb_true_intro. split; apply negb_true_iff.
  - destruct (Qeq_bool t0 0) eqn:He; [|reflexivity].
    apply Qeq_bool_iff in He. contradiction.
  - destruct (Qle_bool (3 # 10) (now - t0)) eqn:Hle; [|reflexivity].
    apply Qle_bool_iff in Hle. exfalso.
    exact (Qlt_not_le _ _ Hlt Hle).
Qed.

(** C6, amended: a release that a focused control with a render pass
    handles less than 0.3 s after the time stamp of the previous release, a
    time stamp that is not zero, puts a selection of characters on the
    current word around the cursor of the buffer: the selection starts at
    the start of that word and the cursor ends at its end. Before that, the
    cursor was moved to the resolved offset if it was more than one unit
    away from it; so the word is the one around the resolved offset when the
    cursor was on that offset or more than one unit away, and the one around
    the cursor, one unit off the resolved offset, otherwise. *)
Theorem double_click_selects_word_at_cursor (s : state) (addr : nat)
    (document : Document.t) (width : Z) (height : option Z)
    (lines : Z -> Line) (p : Point) (t0 now1 now2 : Q) :
  BufferControl.has_focus self s = true ->
  BufferControl._last_get_processed_line s = Some addr ->
  closure_at s addr document width height lines ->
  BufferControl._last_click_timestamp s = Some t0 ->
  ~ (t0 == 0)%Q ->
  (now1 - t0 < 3 # 10)%Q ->
  let b := BufferControl.buffer s in
  let index :=
    translate_row_col_to_index (Buffer.document b) (y p)
      (display_to_source
         (transform (BufferControl.app s) document width height (y p)
                    (lines (y p)))
         (x p)) in
  let b1 :=
    if 1 <? Z.abs (Buffer.cursor_position b - index)
    then Buffer.set_cursor_position index
           (Buffer.start_selection CHARACTERS b)
    else b in
  let word := find_boundaries_of_current_word (Buffer.document b1) in
  exists s',
    mouse_handler (mkMouseEvent p MOUSE_UP) now1 now2 s = (Ok PyNone, s')
    /\ BufferControl.buffer s'
       = Buffer.mk (Buffer.text b)
           (Buffer.cursor_position b1 + snd word)
           (Some (mkSelectionState (Buffer.cursor_position b1 + fst word)
                                   CHARACTERS))
           (Buffer.complete_state b)
    /\ BufferControl._last_click_timestamp s' = Some now2
    /\ Z.abs (Buffer.cursor_position b1 - index) <= 1
    /\ (Buffer.cursor_position b = index
        \/ 1 < Z.abs (Buffer.cursor_position b - index) ->
        Buffer.cursor_position b1 = index).
Proof.
  intros Hfocus Hlast Hat Hts Hnz Hlt b index b1 word.
  destruct (get_processed_line_spec s addr (y p) _ _ _ _ Hat)
    as (sa & Hrun & _ & Hfr & _).
  destruct Hfr as (_ & Hb & _ & _ & _ & Hts' & _ & _).
  unfold BufferControl.mouse_handler. cbv zeta.
  cbn [position event_type].
  rewrite bind_gets, Hfocus, bind_gets, Hlast.
  rewrite (bind_ok _ _ _ _ _ Hrun), bind_gets, Hb.
  fold b. fold index.
  assert (Hdc : forall (sb : state) (b' : Buffer.t),
    BufferControl._last_click_timestamp sb = Some t0 ->
    BufferControl.buffer sb = b' ->
    exists s',
      bind (gets BufferControl._last_click_timestamp)
        (fun last_click =>
           let double_click :=
             BufferControl.is_double_click last_click now1 in
           bind (modify (BufferControl.set_last_click_timestamp (Some now2)))
             (fun _ =>
                if double_click then
                  bind (gets BufferControl.buffer)
                    (fun b0 =>
                       let '(start, end_) :=
                         find_boundaries_of_current_word
                           (Buffer.document b0) in
                       bind (modify (BufferControl.update_buffer (fun b2 =>
                               Buffer.set_cursor_position
                                 (Buffer.cursor_position b2 + start) b2)))
                         (fun _ =>
                       bind (modify (BufferControl.update_buffer
                                       (Buffer.start_selection CHARACTERS)))
                         (fun _ =>
                       bind (modify (BufferControl.update_buffer (fun b2 =>
                               Buffer.set_cursor_position
                                 (Buffer.cursor_position b2
                                  + (end_ - start)) b2)))
                         (fun _ => ret PyNone))))
                else ret PyNone)) sb
      = (Ok PyNone, s')
      /\ BufferControl.buffer s'
         = Buffer.mk (Buffer.text b')
             (Buffer.cursor_position b'
              + snd (find_boundaries_of_current_word (Buffer.document b')))
             (Some (mkSelectionState
                      (Buffer.cursor_position b'
                       + fst (find_boundaries_of_current_word
                                (Buffer.document b')))
                      CHARACTERS))
             (Buffer.complete_state b')
      /\ BufferControl._last_click_timestamp s' = Some now2).
  { intros sb b' Hsb Hbuf. rewrite bind_gets, Hsb. cbv zeta.
    rewrite (is_double_click_true t0 now1 Hnz Hlt).
    rewrite bind_modify, bind_gets.
    change (BufferControl.buffer
              (BufferControl.set_last_click_timestamp (Some now2) sb))
      with (BufferControl.buffer sb).
    rewrite Hbuf.
    destruct (find_boundaries_of_current_word (Buffer.document b'))
      as [start end_].
    eexists. split; [reflexivity|]. split; [|reflexivity].
    cbn. rewrite Hbuf.
    unfold Buffer.set_cursor_position, Buffer.start_selection.
    cbn [Buffer.text Buffer.cursor_position Buffer.selection_state
         Buffer.complete_state fst snd].
    f_equal. lia. }
  subst word b1.
  destruct (1 <? Z.abs (Buffer.cursor_position b - index)) eqn:Hcmp.
  - apply Z.ltb_lt in Hcmp.
    match goal with
    | |- context [bind (bind (modify ?f) (fun _ => modify ?g)) ?k sa] =>
        change (bind (bind (modify f) (fun _ => modify g)) k sa)
          with (k tt (g (f sa)))
    end.
    edestruct (Hdc
      (BufferControl.update_buffer (Buffer.set_cursor_position index)
         (BufferControl.update_buffer (Buffer.start_selection CHARACTERS)
            sa))
      (Buffer.set_cursor_position index
         (Buffer.start_selection CHARACTERS b)))
      as (s' & Hrun' & Hbuf' & Hstamp').
    + cbn. rewrite Hts'. exact Hts.
    + cbn. rewrite Hb. reflexivity.
    + exists s'. split; [exact Hrun'|]. split; [exact Hbuf'|].
      split; [exact Hstamp'|].
      cbn [Buffer.cursor_position Buffer.set_cursor_position]. split.
      * rewrite Z.sub_diag. simpl. lia.
      * reflexivity.
  - apply Z.ltb_ge in Hcmp.
    change (bind (ret tt) ?k sa) with (k tt sa).
    destruct (Hdc sa b) as (s' & Hrun' & Hbuf' & Hstamp').
    + rewrite Hts'. exact Hts.
    + exact Hb.
    + exists s'. split; [exact Hrun'|]. split; [exact Hbuf'|].
      split; [exact Hstamp'|]. split; [exact Hcmp|].
      intros [?|?]; [assumption | lia].
Qed.

(** Every release that a focused control with a render pass handles is
    consumed and leaves its second reading of the clock as the time stamp
    of the last click; the control keeps the focus and the closure. *)
Lemma release_stores_time_stamp (s : state) (addr : nat)
    (document : Document.t) (width : Z) (height : option Z)
    (lines : Z -> Line) (p : Point) (now1 now2 : Q) :
  BufferControl.has_focus self s = true ->
  BufferControl._last_get_processed_line s = Some addr ->
  closure_at s addr document width height lines ->
  exists s',
    mouse_handler (mkMouseEvent p MOUSE_UP) now1 now2 s = (Ok PyNone, s')
    /\ BufferControl._last_click_timestamp s' = Some now2
    /\ BufferControl.has_focus self s' = true
    /\ BufferControl._last_get_processed_line s' = Some addr
    /\ closure_at s' addr document width height lines.
Proof.
  intros Hfocus Hlast Hat.
  destruct (get_processed_line_spec s addr (y p) _ _ _ _ Hat)
    as (sa & Hrun & Hat' & Hfr & _).
  destruct Hfr as (Ha & _ & _ & _ & _ & _ & Hl & _).
  assert (Hfocus' : BufferControl.has_focus self sa = true)
    by (unfold BufferControl.has_focus in *; now rewrite Ha).
  rewrite Hlast in Hl.
  unfold BufferControl.mouse_handler. cbv zeta.
  cbn [position event_type].
  rewrite bind_gets, Hfocus, bind_gets, Hlast.
  rewrite (bind_ok _ _ _ _ _ Hrun), bind_gets.
  destruct (1 <? Z.abs _);
    [ match goal with
      | |- context [bind (bind (modify ?f) (fun _ => modify ?g)) ?k sa] =>
          change (bind (bind (modify f) (fun _ => modify g)) k sa)
            with (k tt (g (f sa)))
      end
    | change (bind (ret tt) ?k sa) with (k tt sa) ];
    cbv beta; rewrite bind_gets; cbv zeta; rewrite bind_modify;
    (destruct (BufferControl.is_double_click _ now1);
     [ rewrite bind_gets;
       destruct (find_boundaries_of_current_word _) as [start end_];
       rewrite !bind_modify
     | ]);
    (eexists; split; [reflexivity|]; split; [reflexivity|];
     split; [exact Hfocus'|]; split; [exact Hl|];
     eapply closure_at_ext; [| |exact Hat']; reflexivity).
Qed.

(** C10: a focused control for which no [create_content] has produced a
    closure yet returns [None] for every mouse event, of whatever kind, and
    leaves the buffer, cursor and selection included, and everything else,
    as it was; it does not return [NotImplemented]. *)
Theorem mouse_handler_before_first_render (s : state)
    (mouse_event : MouseEvent) (now1 now2 : Q) :
  BufferControl.has_focus self s = true ->
  BufferControl._last_get_processed_line s = None ->
  mouse_handler mouse_event now1 now2 s = (Ok PyNone, s).
Proof.
  intros Hfocus Hlast. unfold BufferControl.mouse_handler. cbv zeta.
  rewrite bind_gets, Hfocus, bind_gets, Hlast. reflexivity.
Qed.

(** The closure that [create_content] made is the one that the control
    keeps for its mouse handler. *)
Lemma create_content_leaves_closure (s : state) (width : Z)
    (height : option Z) :
  let s1 := snd (create_content width height s) in
  closure_at s1 (length (BufferControl.closures s)) (document_to_show s)
    width height (BufferControl.lexer_lines s (document_to_show s))
  /\ BufferControl._last_get_processed_line s1
     = Some (length (BufferControl.closures s))
  /\ BufferControl.app s1 = BufferControl.app s
  /\ BufferControl.buffer s1 = BufferControl.buffer s.
Proof.
  destruct (create_content_spec s width height)
    as (content & s1 & Hrun & _ & _ & _ & _ & Hat & Hlast & Happ & Hbuf & _).
  rewrite Hrun. cbn [snd]. now repeat split.
Qed.

(** The lines that a call of [translate_rowcol] leaves in the cache of the
    closure are those that were there and the one of its row. *)
Lemma translate_rowcol_cache_rows (s : state) (addr : nat) (row col : Z)
    (cl : BufferControl.Closure) (rows : Z -> Prop) :
  BufferControl.closures s !! addr = Some cl ->
  (forall j, is_Some (BufferControl.cache cl !! j) -> rows j) ->
  exists cl',
    BufferControl.closures
      (snd (BufferControl.translate_rowcol self addr row col s)) !! addr
    = Some cl'
    /\ forall j, is_Some (BufferControl.cache cl' !! j) -> rows j \/ j = row.
Proof.
  intros Hcl Hrows.
  assert (Hlt : (addr < length (BufferControl.closures s))%nat)
    by (eapply lookup_lt_Some; eassumption).
  unfold BufferControl.translate_rowcol, BufferControl.get_processed_line,
    bind, ret.
  rewrite Hcl. destruct (BufferControl.cache cl !! row) as [pl|] eqn:Hc.
  - exists cl. split; [exact Hcl|]. intros j Hj. left. now apply Hrows.
  - eexists. cbn [snd BufferControl.closures BufferControl.set_closures
                  BufferControl.count_apply_transformation].
    split; [apply list_lookup_insert_eq; exact Hlt|].
    intros j Hj. cbn [BufferControl.cache BufferControl.set_cache] in Hj.
    destruct (decide (row = j)) as [->|Hne]; [now right|].
    rewrite lookup_insert_ne in Hj by exact Hne. left. now apply Hrows.
Qed.

(** The closure that [create_content] makes holds, when the call returns,
    the lines of the rows that the call itself processed, and no other:
    nothing comes from the closures of earlier calls. *)
Lemma create_content_new_cache (s : state) (width : Z) (height : option Z) :
  exists content s1 cl,
    create_content width height s = (Ok content, s1)
    /\ BufferControl.closures s1 !! length (BufferControl.closures s)
       = Some cl
    /\ forall j,
         is_Some (BufferControl.cache cl !! j) ->
         BufferControl.rendered_row self preview_search menu_position
           document_for_search s j.
Proof.
  set (document := document_to_show s).
  set (lines := BufferControl.lexer_lines s document).
  set (addr := length (BufferControl.closures s)).
  unfold BufferControl.create_content.
  rewrite !bind_gets. fold document.
  destruct (create_func_spec s document width height)
    as (sa & Hrun & Hcs & Happ & Hbuf & _).
  rewrite (bind_ok _ _ _ _ _ Hrun), bind_modify. fold addr.
  set (sb := BufferControl.set_last_get_processed_line (Some addr) sa).
  assert (Hat : closure_at sb addr document width height lines).
  { apply (closure_at_ext sa sb); [reflexivity | reflexivity |].
    exact (closure_at_new sa _ _ Hcs eq_refl). }
  assert (Hnew : BufferControl.closures sb !! addr
                 = Some (BufferControl.mkClosure document width height
                           lines ∅)).
  { change (BufferControl.closures sb) with (BufferControl.closures sa).
    rewrite Hcs. apply list_lookup_middle. reflexivity. }
  destruct (translate_rowcol_spec sb addr (cursor_position_row document)
              (cursor_position_col document) _ _ _ _ Hat)
    as (sc & Hrun1 & Hat1 & Hfr1 & _).
  destruct (translate_rowcol_cache_rows sb addr
              (cursor_position_row document) (cursor_position_col document)
              _ (fun _ => False) Hnew)
    as (cl1 & Hcl1 & Hrows1).
  { intros j [pl Hj]. cbn in Hj. rewrite lookup_empty in Hj. discriminate. }
  rewrite Hrun1 in Hcl1. cbn [snd] in Hcl1.
  destruct Hfr1 as (Ha1 & _).
  change (BufferControl.app sb) with (BufferControl.app sa) in *.
  rewrite (bind_ok _ _ _ _ _ Hrun1). cbv zeta. rewrite bind_gets.
  assert (Hfocus : BufferControl.has_focus self sc
                   = BufferControl.has_focus self s).
  { unfold BufferControl.has_focus. now rewrite Ha1, Happ. }
  rewrite Hfocus.
  assert (Hcursor : forall j,
            is_Some (BufferControl.cache cl1 !! j) ->
            BufferControl.rendered_row self preview_search menu_position
              document_for_search s j).
  { intros j Hj. destruct (Hrows1 j Hj) as [[]| ->]. now left. }
  destruct (BufferControl.has_focus self s) eqn:Hf.
  - rewrite bind_gets, Ha1, Happ.
    assert (Hmenu : forall offset : Z,
      BufferControl.menu_offset menu_position s = Some offset ->
      forall k : Point -> M state (UIContent.t state),
      (forall p, exists content, k p = ret content) ->
      exists content s1 cl,
        (let '(menu_row, menu_col) :=
           translate_index_to_position
             (Buffer.document (BufferControl.buffer s)) offset in
         bind (BufferControl.translate_rowcol self addr menu_row menu_col) k)
          sc
        = (Ok content, s1)
        /\ BufferControl.closures s1 !! addr = Some cl
        /\ forall j,
             is_Some (BufferControl.cache cl !! j) ->
             BufferControl.rendered_row self preview_search menu_position
               document_for_search s j).
    { intros offset Hoffset k Hk.
      destruct (translate_index_to_position
                  (Buffer.document (BufferControl.buffer s)) offset)
        as [menu_row menu_col] eqn:Hpos.
      destruct (translate_rowcol_spec sc addr menu_row menu_col _ _ _ _ Hat1)
        as (sd & Hrun2 & _).
      destruct (translate_rowcol_cache_rows sc addr menu_row menu_col _ _
                  Hcl1 Hcursor)
        as (cl2 & Hcl2 & Hrows2).
      rewrite Hrun2 in Hcl2. cbn [snd] in Hcl2.
      rewrite (bind_ok _ _ _ _ _ Hrun2).
      destruct (Hk (BufferControl.translated self (BufferControl.app sc)
                      document width height lines (menu_row, menu_col)))
        as (content & Hcontent).
      rewrite Hcontent. exists content, sd, cl2.
      split; [reflexivity|]. split; [exact Hcl2|].
      intros j Hj. destruct (Hrows2 j Hj) as [Hold| ->]; [exact Hold|].
      right. split; [exact Hf|]. exists offset.
      split; [exact Hoffset|]. now rewrite Hpos. }
    unfold BufferControl.menu_offset in Hmenu.
    destruct (match menu_position with
              | Some callback => callback (BufferControl.app s)
              | None => None
              end) as [menu|].
    + apply (Hmenu menu eq_refl). intros p. eexists. reflexivity.
    + destruct (Buffer.complete_state (BufferControl.buffer s))
        as [complete_state|].
      * apply (Hmenu _ eq_refl). intros p. eexists. reflexivity.
      * eexists. exists sc, cl1. split; [reflexivity|].
        split; [exact Hcl1 | exact Hcursor].
  - eexists. exists sc, cl1. split; [reflexivity|].
    split; [exact Hcl1 | exact Hcursor].
Qed.

(** The lines that a caller asks of the content of a closure: the closure
    stays as it was made, and the state changes in the closures and in the
    count of the applications of the processors only. *)
Lemma request_lines_spec (content : UIContent.t state) (requested : list Z)
    (addr : nat) (document : Document.t) (width : Z) (height : option Z)
    (lines : Z -> Line) :
  UIContent.get_line content = BufferControl.get_line self addr ->
  forall s : state,
    closure_at s addr document width height lines ->
    exists got s',
      request_lines content requested s = (Ok got, s')
      /\ closure_at s' addr document width height lines
      /\ BufferControl.frame s s'
      /\ length (BufferControl.closures s')
         = length (BufferControl.closures s).
Proof.
  intros Hget. induction requested as [|i rest IH]; intros s Hat.
  - exists [], s. split; [reflexivity|]. split; [exact Hat|].
    split; [apply frame_refl | reflexivity].
  - destruct (get_processed_line_spec s addr i _ _ _ _ Hat)
      as (s1 & Hrun1 & Hat1 & Hfr1 & Hlen1 & _).
    destruct (IH s1 Hat1) as (got & s2 & Hrun2 & Hat2 & Hfr2 & Hlen2).
    eexists. exists s2. cbn [request_lines]. rewrite Hget.
    unfold BufferControl.get_line at 1.
    unfold bind at 1 2. rewrite Hrun1. cbv zeta.
    unfold ret at 1. rewrite (bind_ok _ _ _ _ _ Hrun2).
    split; [reflexivity|]. split; [exact Hat2|].
    split; [exact (frame_trans _ _ _ Hfr1 Hfr2) | congruence].
Qed.

Lemma rendered_row_ext (s s' : state) (i : Z) :
  BufferControl.app s' = BufferControl.app s ->
  BufferControl.buffer s' = BufferControl.buffer s ->
  BufferControl.search_buffer s' = BufferControl.search_buffer s ->
  BufferControl.search_state s' = BufferControl.search_state s ->
  BufferControl.rendered_row self preview_search menu_position
    document_for_search s' i
  <-> BufferControl.rendered_row self preview_search menu_position
        document_for_search s i.
Proof.
  intros Ha Hb Hsb Hss.
  unfold BufferControl.rendered_row, BufferControl.has_focus,
    BufferControl.menu_offset.
  rewrite (document_to_show_ext s s' Ha Hb Hsb Hss), Ha, Hb. reflexivity.
Qed.

(** A second [create_content], after lines were asked of the first
    content: the lexer is not called again; the new closure holds the lines
    of the rows that the call processed and nothing of the old closure, so
    that every other line that is asked of the new content is processed
    again. *)
Lemma create_content_again (s : state) (width : Z) (height : option Z)
    (requested : list Z) :
  (0 < SimpleCache.maxsize (BufferControl._token_cache s))%nat ->
  exists content1 s1 got s1' content2 s2,
    create_content width height s = (Ok content1, s1)
    /\ request_lines content1 requested s1 = (Ok got, s1')
    /\ create_content width height s1' = (Ok content2, s2)
    /\ BufferControl.lex_document_calls s2
       = BufferControl.lex_document_calls s1
    /\ (S (BufferControl.apply_transformation_calls s1')
        <= BufferControl.apply_transformation_calls s2
        <= S (S (BufferControl.apply_transformation_calls s1')))%nat
    /\ BufferControl._last_get_processed_line s1
       = Some (length (BufferControl.closures s))
    /\ BufferControl._last_get_processed_line s2
       = Some (length (BufferControl.closures s1'))
    /\ (length (BufferControl.closures s)
        < length (BufferControl.closures s1'))%nat
    /\ (exists cl,
          BufferControl.closures s2 !! length (BufferControl.closures s1')
          = Some cl
          /\ forall i,
               is_Some (BufferControl.cache cl !! i) ->
               BufferControl.rendered_row self preview_search menu_position
                 document_for_search s i)
    /\ (forall i,
          ~ BufferControl.rendered_row self preview_search menu_position
              document_for_search s i ->
          exists line s3,
            UIContent.get_line content2 i s2 = (Ok line, s3)
            /\ BufferControl.apply_transformation_calls s3
               = S (BufferControl.apply_transformation_calls s2)).
Proof.
  intros Hmax.
  destruct (create_content_spec s width height)
    as (c1 & s1 & Hrun1 & Hget1 & _ & _ & _ & Hat1 & Hl1 & Ha1 & Hb1 & Hsb1
        & Hss1 & _ & _ & _ & Hmax1 & Hlook1).
  destruct (request_lines_spec c1 requested _ _ _ _ _ Hget1 s1 Hat1)
    as (got & s1' & Hreq & Hat1' & Hfr & Hlen).
  destruct Hfr as (Ha & Hb & Hsb & Hss & Htc & _ & _ & Hlx).
  destruct (create_content_spec s1' width height)
    as (c2 & s2 & Hrun2 & Hget2 & _ & _ & _ & Hat2 & Hl2 & _ & _ & _ & _ & _
        & Hlex2 & Hatc2 & _).
  destruct (create_content_new_cache s1' width height)
    as (c2' & s2' & cl & Hrun2' & Hcl & Hrows).
  rewrite Hrun2 in Hrun2'. injection Hrun2' as <- <-.
  assert (Hdoc : document_to_show s1' = document_to_show s).
  { apply document_to_show_ext; congruence. }
  assert (Hrow : forall i,
            BufferControl.rendered_row self preview_search menu_position
              document_for_search s1' i
            <-> BufferControl.rendered_row self preview_search menu_position
                  document_for_search s i).
  { intros i. apply rendered_row_ext; congruence. }
  rewrite Hdoc, Htc, (Hlook1 Hmax) in Hlex2.
  exists c1, s1, got, s1', c2, s2.
  split; [exact Hrun1|]. split; [exact Hreq|]. split; [exact Hrun2|].
  split; [congruence|]. split; [exact Hatc2|]. split; [exact Hl1|].
  split; [exact Hl2|]. split.
  { rewrite Hlen. destruct Hat1 as (cl1 & Hcl1 & _).
    eapply lookup_lt_Some. exact Hcl1. }
  split.
  { exists cl. split; [exact Hcl|]. intros i Hi. apply Hrow. now apply Hrows. }
  intros i Hnot.
  destruct (get_processed_line_spec s2 _ i _ _ _ _ Hat2)
    as (s3 & Hline & _ & _ & _ & Hcount & _).
  eexists. exists s3. rewrite Hget2. unfold BufferControl.get_line.
  rewrite (bind_ok _ _ _ _ _ Hline). split; [reflexivity|].
  specialize (Hcount cl Hcl).
  destruct (BufferControl.cache cl !! i) as [pl|] eqn:Hc; [|exact Hcount].
  exfalso. apply Hnot, Hrow, Hrows. rewrite Hc. eauto.
Qed.

End buffer_control.

(** ** Rendering twice *)

(** C3, as stated, fails: the second [create_content] of a buffer control
    over the unchanged two-line document does not call the lexer again, but
    it applies the processors once more. *)
Lemma second_render_applies_processors_again :
  BufferControl.lex_document_calls
    (Sample.rendered (Sample.rendered (Sample.control Sample.abc_def 1)))
  = BufferControl.lex_document_calls
      (Sample.rendered (Sample.control Sample.abc_def 1))
  /\ BufferControl.apply_transformation_calls
       (Sample.rendered (Sample.rendered (Sample.control Sample.abc_def 1)))
     = S (BufferControl.apply_transformation_calls
            (Sample.rendered (Sample.control Sample.abc_def 1))).
Proof. split; vm_compute; reflexivity. Qed.

(** C3, amended: when [create_content] is invoked a second time on the
    unchanged control, with the same width, after any lines were asked of
    the first content, the buffer control does not call the lexer again,
    the text of the document being in its token cache; but it has no cache
    of contents: it makes a new closure, which takes nothing from the cache
    of the closure of the first call, and applies the processors again, to
    the line of the cursor and, when the menu is anchored on another line,
    to that line. When the call returns, the new closure holds
    the lines of those rows only, and every other line that is asked of the
    new content is processed again, also when it had been asked of the
    first content. The token list control, when the second invocation
    obtains the same token list, takes the content from its cache: the same
    content is returned and [get_content] is not run again. *)
Theorem second_create_content {Env : Type} `{!DocumentOps} `{!Lexer Env}
    `{!Processor Env} (self : nat) (preview_search : App Env -> bool)
    (menu_position : option (App Env -> option Z))
    (document_for_search : Buffer.t -> SearchState -> Document.t)
    (s : BufferControl.t) (width : Z) (height : option Z)
    (requested : list Z)
    (TApp : Type) (render_counter : TApp -> Z)
    (get_tokens : TApp -> list Item) (app app' : TApp)
    (t : TokenListControl.t) :
  (0 < SimpleCache.maxsize (BufferControl._token_cache s))%nat ->
  (0 < SimpleCache.maxsize (TokenListControl._content_cache t))%nat ->
  TokenListControl.cached_tokens TApp render_counter get_tokens app'
    (snd (TokenListControl.create_content TApp render_counter get_tokens
            app width height t))
  = TokenListControl.cached_tokens TApp render_counter get_tokens app t ->
  (exists content1 s1 got s1' content2 s2,
      BufferControl.create_content self preview_search menu_position
        document_for_search width height s = (Ok content1, s1)
      /\ request_lines content1 requested s1 = (Ok got, s1')
      /\ BufferControl.create_content self preview_search menu_position
           document_for_search width height s1' = (Ok content2, s2)
      /\ BufferControl.lex_document_calls s2
         = BufferControl.lex_document_calls s1
      /\ (S (BufferControl.apply_transformation_calls s1')
          <= BufferControl.apply_transformation_calls s2
          <= S (S (BufferControl.apply_transformation_calls s1')))%nat
      /\ BufferControl._last_get_processed_line s1
         = Some (length (BufferControl.closures s))
      /\ BufferControl._last_get_processed_line s2
         = Some (length (BufferControl.closures s1'))
      /\ (length (BufferControl.closures s)
          < length (BufferControl.closures s1'))%nat
      /\ (exists cl,
            BufferControl.closures s2 !! length (BufferControl.closures s1')
            = Some cl
            /\ forall i,
                 is_Some (BufferControl.cache cl !! i) ->
                 BufferControl.rendered_row self preview_search menu_position
                   document_for_search s i)
      /\ (forall i,
            ~ BufferControl.rendered_row self preview_search menu_position
                document_for_search s i ->
            exists line s3,
              UIContent.get_line content2 i s2 = (Ok line, s3)
              /\ BufferControl.apply_transformation_calls s3
                 = S (BufferControl.apply_transformation_calls s2)))
  /\ (exists content t1 t2,
        TokenListControl.create_content TApp render_counter get_tokens
          app width height t = (Ok content, t1)
        /\ TokenListControl.create_content TApp render_counter get_tokens
             app' width height t1 = (Ok content, t2)
        /\ TokenListControl.get_content_calls t2
           = TokenListControl.get_content_calls t1).
Proof.
  intros Hmax Hmax' Hsame. split.
  - now apply create_content_again.
  - now apply token_list_create_content_twice.
Qed.

(** A new render pass of the sample controls. The second line of the
    document was asked of the first content; asked of the second content,
    it is processed again. The token list is fetched again and is the
    same. *)
Lemma second_create_content_witness :
  (exists content1 s1 got s1' content2 s2 line s3,
      Sample.create_content 80 None (Sample.control Sample.abc_def 1)
      = (Ok content1, s1)
      /\ request_lines content1 [1] s1 = (Ok got, s1')
      /\ Sample.create_content 80 None s1' = (Ok content2, s2)
      /\ BufferControl.lex_document_calls s2
         = BufferControl.lex_document_calls s1
      /\ (S (BufferControl.apply_transformation_calls s1')
          <= BufferControl.apply_transformation_calls s2)%nat
      /\ UIContent.get_line content2 1 s2 = (Ok line, s3)
      /\ BufferControl.apply_transformation_calls s3
         = S (BufferControl.apply_transformation_calls s2))
  /\ (exists content t1 t2,
        Sample.toolbar_content 1 TokenListControl.init = (Ok content, t1)
        /\ Sample.toolbar_content 2 t1 = (Ok content, t2)
        /\ TokenListControl.get_content_calls t2
           = TokenListControl.get_content_calls t1).
Proof.
  destruct (second_create_content 0%nat (fun _ => false) None
              Sample.search_document (Sample.control Sample.abc_def 1)
              80 None [1] Z (fun app => app) Sample.toolbar_tokens 1 2
              TokenListControl.init)
    as [(c1 & s1 & got & s1' & c2 & s2 & H1 & Hreq & H2 & Hlex & [Hatc _]
         & _ & _ & _ & _ & Hagain) Htl].
  - vm_compute. lia.
  - vm_compute. lia.
  - vm_compute. reflexivity.
  - split; [|exact Htl].
    destruct (Hagain 1) as (line & s3 & Hline & Hcount).
    { intros [Hrow|(_ & menu & Hmenu & _)].
      - vm_compute in Hrow. discriminate.
      - vm_compute in Hmenu. discriminate. }
    exists c1, s1, got, s1', c2, s2, line, s3. now repeat split.
Defined.

(** ** The cursor and the processors *)

(** C4, as stated, fails: with the cursor on the first line of the two-line
    document, at column 1 or at column 2, the second line does not contain
    the cursor and [transform] has no cursor column for it; yet the input of
    the processors for the second line holds the document, whose cursor
    column is 1 in the one case and 2 in the other. *)
Lemma cursor_column_reaches_processors_on_other_lines :
  cursor_position_row (Document.mk Sample.abc_def 1 None) = 0
  /\ cursor_position_row (Document.mk Sample.abc_def 2 None) = 0
  /\ BufferControl.cursor_column_of (Document.mk Sample.abc_def 1 None) 1
     = None
  /\ BufferControl.cursor_column_of (Document.mk Sample.abc_def 2 None) 1
     = None
  /\ cursor_position_col
       (ti_document
          (BufferControl.transformation_input 0%nat Sample.the_app
             (Document.mk Sample.abc_def 1 None) 80 None 1
             [(Token, u "def")]))
     = 1
  /\ cursor_position_col
       (ti_document
          (BufferControl.transformation_input 0%nat Sample.the_app
             (Document.mk Sample.abc_def 2 None) 80 None 1
             [(Token, u "def")]))
     = 2.
Proof. repeat split; vm_compute; reflexivity. Qed.

(** ** The menu *)

(** While [abcdefghij] is completed to [abc], the menu is anchored at
    offset 3, the lesser of 3 and 10. *)
Lemma menu_position_of_completion_witness :
  exists content s1,
    Sample.create_content 80 None Sample.completing = (Ok content, s1)
    /\ UIContent.menu_position content = Some (mkPoint 3 0).
Proof.
  destruct (menu_position_of_completion 0%nat (fun _ => false) None
              Sample.search_document Sample.completing 80 None)
    as (content & s1 & Hrun & Hmenu & _).
  exists content, s1. split; [exact Hrun|].
  rewrite (Hmenu (mkCompletionState (Document.mk (u "abcdefghij") 10 None))
                 eq_refl eq_refl eq_refl).
  vm_compute. reflexivity.
Defined.

(** ** The mouse *)

(** C6, as stated, fails: the two releases are on the blank of [ab cd], at
    offset 2, a tenth of a second apart, with the cursor one cell to the
    right, on the [c], where it was pressed. The word around offset 2 is
    [ab], from 0 to 2; the selection that the second release leaves is
    [cd], from 3 to 5, the word around the cursor. *)
Lemma double_click_selects_word_beside_the_click :
  translate_row_col_to_index (Document.mk (u "ab cd") 3 None) 0 2 = 2
  /\ find_boundaries_of_current_word (Document.mk (u "ab cd") 2 None)
     = (-2, 0)
  /\ BufferControl.buffer Sample.jittery_double_click
     = Buffer.mk (u "ab cd") 5 (Some (mkSelectionState 3 CHARACTERS)) None.
Proof. repeat split; vm_compute; reflexivity. Qed.

(** A second release on the [w] of [hello world], a tenth of a second after
    the first, selects [world]. *)
Lemma double_click_selects_word_at_cursor_witness :
  exists s',
    Sample.mouse_handler (mkMouseEvent (mkPoint 6 0) MOUSE_UP)
      (1001 # 10) (1001 # 10) Sample.clicked
    = (Ok PyNone, s')
    /\ BufferControl.buffer s'
       = Buffer.mk (u "hello world") 11
           (Some (mkSelectionState 6 CHARACTERS)) None.
Proof.
  destruct (create_content_leaves_closure 0%nat (fun _ => false) None
              Sample.search_document (Sample.control (u "hello world") 6)
              80 None)
    as (Hat & Hlast & Happ & Hbuf).
  destruct (double_click_selects_word_at_cursor 0%nat (fun _ => false)
              Sample.clicked 0%nat (Document.mk (u "hello world") 6 None)
              80 None
              (lex_document Sample.the_app
                 (Document.mk (u "hello world") 6 None))
              (mkPoint 6 0) 100 (1001 # 10) (1001 # 10))
    as (s' & Hrun & Hbuffer & _).
  - vm_compute. reflexivity.
  - exact Hlast.
  - eapply closure_at_ext; [| |exact Hat]; reflexivity.
  - reflexivity.
  - intros Hzero. vm_compute in Hzero. discriminate.
  - vm_compute. reflexivity.
  - exists s'. split; [exact Hrun|]. rewrite Hbuffer.
    vm_compute. reflexivity.
Defined.

(** Before the first render, a press on a focused control is consumed and
    changes nothing. *)
Lemma mouse_handler_before_first_render_witness :
  Sample.mouse_handler (mkMouseEvent (mkPoint 2 0) MOUSE_DOWN) 100 100
    (Sample.control (u "hello") 0)
  = (Ok PyNone, Sample.control (u "hello") 0).
Proof.
  apply (mouse_handler_before_first_render 0%nat (fun _ => false));
    reflexivity.
Defined.

(** * Further properties *)

(** ** Heights *)

(** X1: in a positive width the height times the width gives room for the
    display width of the text, and a height above one is the least that
    does. *)
Theorem get_height_for_text_rows (get_cwidth : str -> Z) (txt : str)
    (width : Z) :
  0 < width ->
  get_cwidth txt <= UIContent.get_height_for_text get_cwidth txt width * width
  /\ (1 < UIContent.get_height_for_text get_cwidth txt width ->
      (UIContent.get_height_for_text get_cwidth txt width - 1) * width
      < get_cwidth txt).
Proof.
  intros Hw. rewrite get_height_for_text_positive_width by exact Hw.
  pose proof (ceil_div_spec (get_cwidth txt) width Hw) as Hc.
  split; [|intros H1]; nia.
Qed.

Lemma get_height_for_text_rows_witness :
  cells (u "hello world") <= UIContent.get_height_for_text cells
                               (u "hello world") 4 * 4
  /\ (UIContent.get_height_for_text cells (u "hello world") 4 - 1) * 4
     < cells (u "hello world").
Proof.
  destruct (get_height_for_text_rows cells (u "hello world") 4 ltac:(lia))
    as [Hroom Hleast].
  split; [exact Hroom|]. apply Hleast. vm_compute. reflexivity.
Defined.

(** X2: in a wider space a text is not higher: for positive widths the
    height does not grow with the width. *)
Theorem get_height_for_text_antitone (get_cwidth : str -> Z) (txt : str)
    (width1 width2 : Z) :
  0 < width1 -> width1 <= width2 ->
  UIContent.get_height_for_text get_cwidth txt width2
  <= UIContent.get_height_for_text get_cwidth txt width1.
Proof.
  intros H1 H12.
  rewrite !get_height_for_text_positive_width by lia.
  pose proof (ceil_div_spec (get_cwidth txt) width1 ltac:(lia)) as Hc1.
  pose proof (ceil_div_spec (get_cwidth txt) width2 ltac:(lia)) as Hc2.
  apply Z.max_lub; [lia|].
  destruct (Z_le_gt_dec (ceil_div (get_cwidth txt) width2) 1); [lia|].
  apply Z.le_trans with (ceil_div (get_cwidth txt) width1); [nia | lia].
Qed.

Lemma get_height_for_text_antitone_witness :
  UIContent.get_height_for_text cells (u "hello world") 8
  <= UIContent.get_height_for_text cells (u "hello world") 4.
Proof.
  apply (get_height_for_text_antitone cells (u "hello world") 4 8); lia.
Defined.

(** X3: a negative width raises nothing: the height of a text whose display
    width is not negative is then 1. *)
Theorem get_height_for_text_negative_width (get_cwidth : str -> Z)
    (txt : str) (width : Z) :
  width < 0 -> 0 <= get_cwidth txt ->
  UIContent.get_height_for_text get_cwidth txt width = 1.
Proof.
  intros Hw Ha. unfold UIContent.get_height_for_text.
  rewrite divmod_nonzero by lia.
  pose proof (Z.div_mod (get_cwidth txt) width ltac:(lia)) as Hdm.
  pose proof (Z.mod_neg_bound (get_cwidth txt) width Hw) as Hr.
  destruct (Z.eqb_spec (get_cwidth txt mod width) 0); apply Z.max_l; nia.
Qed.

Lemma get_height_for_text_negative_width_witness :
  UIContent.get_height_for_text cells (u "hello world") (-3) = 1.
Proof.
  apply (get_height_for_text_negative_width cells (u "hello world") (-3));
    [lia | vm_compute; discriminate].
Defined.

(** X4: [get_height_for_line] remembers what it measured: the height that a
    call returns is stored under the line number and the width, the heights
    stored under other keys stay, and every later call for the same line
    and width returns that height without fetching the line, whatever the
    state of the control then is. A call that finds nothing stored fetches
    the line and returns the height of its text. *)
Theorem get_height_for_line_memo {S} (get_cwidth : str -> Z)
    (token_list_to_text : Line -> str) (c : UIContent.t S)
    (lineno width : Z) (s s1 : S) (heights heights1 : gmap (Z * Z) Z)
    (h : Z) :
  UIContent.get_height_for_line get_cwidth token_list_to_text c lineno width
    (s, heights) = (Ok h, (s1, heights1)) ->
  heights1 !! (lineno, width) = Some h
  /\ (forall s2 : S,
        UIContent.get_height_for_line get_cwidth token_list_to_text c lineno
          width (s2, heights1) = (Ok h, (s2, heights1)))
  /\ (forall key, key <> (lineno, width) ->
        heights1 !! key = heights !! key)
  /\ (heights !! (lineno, width) = None ->
      exists line,
        UIContent.get_line c lineno s = (Ok line, s1)
        /\ h = UIContent.get_height_for_text get_cwidth
                 (token_list_to_text line) width).
Proof.
  unfold UIContent.get_height_for_line. intros Hrun.
  destruct (heights !! (lineno, width)) as [h0|] eqn:Hh.
  - injection Hrun as <- <- <-.
    split; [exact Hh|]. split; [intros s2; now rewrite Hh|].
    split; [reflexivity | discriminate].
  - destruct (UIContent.get_line c lineno s) as [[line|e] s'] eqn:Hline;
      [|discriminate].
    injection Hrun as <- <- <-.
    split; [apply lookup_insert_eq|].
    split; [intros s2; now rewrite lookup_insert_eq|].
    split; [intros key Hkey; now apply lookup_insert_ne|].
    intros _. exists line. split; reflexivity.
Qed.

Lemma get_height_for_line_memo_witness :
  UIContent.get_height_for_line cells (fun line => concat (map snd line))
    (TokenListControl.get_content [[(Token, u "hello world")]]) 0 4
    (tt, <[(0, 4) := 3]> ∅)
  = (Ok 3, (tt, <[(0, 4) := 3]> ∅)).
Proof.
  destruct (get_height_for_line_memo cells (fun line => concat (map snd line))
              (TokenListControl.get_content [[(Token, u "hello world")]])
              0 4 tt tt ∅ (<[(0, 4) := 3]> ∅) 3)
    as (_ & Hagain & _).
  - vm_compute. reflexivity.
  - apply Hagain.
Defined.

(** ** The token list control *)

Lemma find_in_line_none (token : TokenType) (line : Line) (x0 : Z) :
  TokenListControl.find_in_line token line x0 = None
  <-> Forall (fun item => fst item <> token) line.
Proof.
  revert x0. induction line as [|[t txt] line IH]; intros x0; simpl.
  - split; [constructor | reflexivity].
  - destruct (decide (t = token)) as [->|Hne].
    + split; [discriminate|]. intros Hall. inversion Hall; subst.
      simpl in *. contradiction.
    + rewrite IH. split.
      * intros Hall. constructor; [exact Hne | exact Hall].
      * intros Hall. now inversion Hall.
Qed.

Lemma find_in_line_some (token : TokenType) (pre post : Line) (txt : str)
    (x0 : Z) :
  Forall (fun item => fst item <> token) pre ->
  TokenListControl.find_in_line token (pre ++ (token, txt) :: post) x0
  = Some (x0 + TokenListControl.line_length pre).
Proof.
  revert x0. induction pre as [|[t txt'] pre IH]; intros x0 Hpre; simpl.
  - destruct (decide (token = token)); [|contradiction].
    f_equal. unfold TokenListControl.line_length. simpl. lia.
  - inversion Hpre as [|? ? Hne Hrest]; subst. simpl in Hne.
    destruct (decide (t = token)); [contradiction|].
    rewrite IH by exact Hrest. f_equal.
    unfold TokenListControl.line_length. simpl. lia.
Qed.

Lemma find_in_lines_none (token : TokenType) (lines : list Line) (y0 : Z) :
  TokenListControl.find_in_lines token lines y0 = None
  <-> Forall (Forall (fun item => fst item <> token)) lines.
Proof.
  revert y0. induction lines as [|line lines IH]; intros y0; simpl.
  - split; [constructor | reflexivity].
  - destruct (TokenListControl.find_in_line token line 0) as [x|] eqn:Hline.
    + split; [discriminate|]. intros Hall. inversion Hall; subst.
      apply find_in_line_none with (x0 := 0) in H1. congruence.
    + apply find_in_line_none in Hline. rewrite IH. split.
      * intros Hall. now constructor.
      * intros Hall. now inversion Hall.
Qed.

Lemma find_in_lines_some (token : TokenType) (before after : list Line)
    (pre post : Line) (txt : str) (y0 : Z) :
  Forall (Forall (fun item => fst item <> token)) before ->
  Forall (fun item => fst item <> token) pre ->
  TokenListControl.find_in_lines token
    (before ++ (pre ++ (token, txt) :: post) :: after) y0
  = Some (mkPoint (TokenListControl.line_length pre)
                  (y0 + Z.of_nat (length before))).
Proof.
  revert y0. induction before as [|line before IH]; intros y0 Hbefore Hpre.
  - simpl. rewrite find_in_line_some by exact Hpre.
    do 2 f_equal; lia.
  - inversion Hbefore as [|? ? Hline Hrest]; subst.
    apply find_in_line_none with (x0 := 0) in Hline.
    cbn [app TokenListControl.find_in_lines]. rewrite Hline.
    rewrite IH by assumption. do 2 f_equal. simpl length. lia.
Qed.

(** X5: without a [Token.SetCursorPosition] token in the lines, the cursor
    of the content of a token list is at the upper left corner; the content
    has no menu position exactly when the lines hold no
    [Token.SetMenuPosition] token. *)
Theorem token_list_positions_absent (token_lines : list Line) :
  (Forall (Forall (fun item => fst item <> Token_SetCursorPosition))
          token_lines ->
   UIContent.cursor_position (TokenListControl.get_content token_lines)
   = mkPoint 0 0)
  /\ (UIContent.menu_position (TokenListControl.get_content token_lines)
      = None
      <-> Forall (Forall (fun item => fst item <> Token_SetMenuPosition))
                 token_lines).
Proof.
  split.
  - intros Hall. apply (find_in_lines_none _ _ 0) in Hall.
    unfold TokenListControl.get_content, UIContent.init,
      TokenListControl.get_cursor_position.
    cbn [UIContent.cursor_position]. now rewrite Hall.
  - apply find_in_lines_none.
Qed.

Lemma token_list_positions_absent_witness :
  UIContent.cursor_position
    (TokenListControl.get_content [[(Token, u "a")]; [(Token, u "b")]])
  = mkPoint 0 0.
Proof.
  destruct (token_list_positions_absent
              [[(Token, u "a")]; [(Token, u "b")]]) as [Hcursor _].
  apply Hcursor. repeat constructor; discriminate.
Defined.

(** X6: the position that the content of a token list takes from a marker
    token is that of its first occurrence: the number of lines before its
    line, and the number of characters before it in its line. This gives
    the cursor position for [Token.SetCursorPosition] and the menu position
    for [Token.SetMenuPosition]. *)
Theorem token_list_positions_first_occurrence (token : TokenType)
    (before after : list Line) (pre post : Line) (txt : str) :
  Forall (Forall (fun item => fst item <> token)) before ->
  Forall (fun item => fst item <> token) pre ->
  let token_lines := before ++ (pre ++ (token, txt) :: post) :: after in
  let point := mkPoint (TokenListControl.line_length pre)
                       (Z.of_nat (length before)) in
  TokenListControl.get_cursor_position token_lines token = Some point
  /\ (token = Token_SetCursorPosition ->
      UIContent.cursor_position (TokenListControl.get_content token_lines)
      = point)
  /\ (token = Token_SetMenuPosition ->
      UIContent.menu_position (TokenListControl.get_content token_lines)
      = Some point).
Proof.
  intros Hbefore Hpre token_lines point.
  assert (Hfind : TokenListControl.get_cursor_position token_lines token
                  = Some point).
  { unfold TokenListControl.get_cursor_position, token_lines.
    rewrite find_in_lines_some by assumption. reflexivity. }
  split; [exact Hfind|]. split; intros ->.
  - unfold TokenListControl.get_content, UIContent.init.
    cbn [UIContent.cursor_position]. now rewrite Hfind.
  - unfold TokenListControl.get_content, UIContent.init,
      TokenListControl.get_menu_position.
    cbn [UIContent.menu_position]. exact Hfind.
Qed.

Lemma token_list_positions_first_occurrence_witness :
  UIContent.cursor_position
    (TokenListControl.get_content
       [[(Token, u "a")];
        [(Token, u "bc"); (Token_SetCursorPosition, []); (Token, u "d")]])
  = mkPoint 2 1.
Proof.
  destruct (token_list_positions_first_occurrence Token_SetCursorPosition
              [[(Token, u "a")]] [] [(Token, u "bc")] [(Token, u "d")] [])
    as (_ & Hcursor & _).
  - repeat constructor; discriminate.
  - repeat constructor; discriminate.
  - exact (Hcursor eq_refl).
Defined.

Lemma split_newlines_nonempty (txt : str) : split_newlines txt <> [].
Proof.
  induction txt as [|c txt IH]; simpl; [discriminate|].
  destruct (split_newlines txt) as [|part parts]; [discriminate|].
  destruct (c =? 10)%N; discriminate.
Qed.

Lemma max_width_fold (get_cwidth : str -> Z) (parts : list str) (m : Z) :
  let r := fold_left (fun m l => Z.max m (get_cwidth l)) parts m in
  m <= r
  /\ (forall l, l ∈ parts -> get_cwidth l <= r)
  /\ (r = m \/ exists l, l ∈ parts /\ r = get_cwidth l).
Proof.
  revert m. induction parts as [|p parts IH]; intros m; simpl.
  - split; [lia|]. split; [|now left].
    intros l Hl. inversion Hl.
  - destruct (IH (Z.max m (get_cwidth p))) as (Hle & Hall & Hat).
    split; [lia|]. split.
    + intros l Hl. apply elem_of_cons in Hl as [->|Hl]; [lia | now apply Hall].
    + destruct Hat as [Heq|(l & Hl & Heq)].
      * destruct (Z.max_spec m (get_cwidth p)) as [[_ Hm]|[_ Hm]].
        -- right. exists p. split; [apply list_elem_of_here | congruence].
        -- left. congruence.
      * right. exists l. split; [now apply list_elem_of_further | exact Heq].
Qed.

Section token_list_control_pass.
Variable App : Type.
Variable render_counter : App -> Z.
Variable get_tokens : App -> list Item.

Local Abbreviation tl_get_tokens_cached :=
  (TokenListControl._get_tokens_cached App render_counter get_tokens).
Local Abbreviation tl_cached_tokens :=
  (TokenListControl.cached_tokens App render_counter get_tokens).
Local Abbreviation tl_content :=
  (TokenListControl.create_content App render_counter get_tokens).
Local Abbreviation tl_preferred_height :=
  (TokenListControl.preferred_height App render_counter get_tokens).
Local Abbreviation tl_preferred_width :=
  (TokenListControl.preferred_width App render_counter get_tokens).

(** What [_get_tokens_cached] returns, and what it leaves in the cache. *)
Lemma get_tokens_cached_spec (app : App) (s : TokenListControl.t) :
  exists s1,
    tl_get_tokens_cached app s = (Ok (tl_cached_tokens app s), s1)
    /\ (TokenListControl.get_tokens_calls s
        <= TokenListControl.get_tokens_calls s1
        <= S (TokenListControl.get_tokens_calls s))%nat
    /\ SimpleCache.maxsize (TokenListControl._token_cache s1)
       = SimpleCache.maxsize (TokenListControl._token_cache s)
    /\ ((0 < SimpleCache.maxsize (TokenListControl._token_cache s))%nat ->
        SimpleCache.lookup (render_counter app)
                           (TokenListControl._token_cache s1)
        = Some (tl_cached_tokens app s)).
Proof.
  unfold TokenListControl._get_tokens_cached,
    TokenListControl.cached_tokens, SimpleCache.get, bind, modify, ret.
  destruct (SimpleCache.lookup (render_counter app)
                               (TokenListControl._token_cache s))
    as [tokens|] eqn:Hc.
  - exists s. split; [reflexivity|]. split; [lia|].
    split; [reflexivity|]. intros _. exact Hc.
  - eexists. split; [reflexivity|]. cbn. split; [lia|].
    split; [reflexivity|]. intros Hmax. now apply lookup_store.
Qed.

Lemma get_tokens_cached_hit (app : App) (s : TokenListControl.t)
    (tokens : list Item) :
  SimpleCache.lookup (render_counter app) (TokenListControl._token_cache s)
  = Some tokens ->
  tl_get_tokens_cached app s = (Ok tokens, s).
Proof.
  intros Hc. unfold TokenListControl._get_tokens_cached, SimpleCache.get.
  now rewrite Hc.
Qed.

(** After the token list was obtained, [create_content] leaves the token
    cache and the count of the calls of [get_tokens] as they are. *)
Lemma create_content_after_tokens (app : App) (width : Z)
    (height : option Z) (s : TokenListControl.t) (tokens : list Item) :
  SimpleCache.lookup (render_counter app) (TokenListControl._token_cache s)
  = Some tokens ->
  exists content s1,
    tl_content app width height s = (Ok content, s1)
    /\ TokenListControl._token_cache s1 = TokenListControl._token_cache s
    /\ TokenListControl.get_tokens_calls s1
       = TokenListControl.get_tokens_calls s
    /\ TokenListControl._tokens s1 = Some tokens.
Proof.
  intros Hc. unfold TokenListControl.create_content.
  rewrite (bind_ok _ _ _ _ _ (get_tokens_cached_hit app s tokens Hc)).
  cbv zeta. rewrite bind_modify.
  unfold SimpleCache.get, bind, modify, ret.
  destruct (SimpleCache.lookup (tokens, width) _) as [content|];
    eexists; eexists; (split; [reflexivity|]); now repeat split.
Qed.

(** X7: within one render pass the token list is retrieved once: when the
    preferred width, the preferred height and the content are asked for in
    turn, for the same application and render counter, [get_tokens] is
    called at most once, by the first of them, and the content is made from
    the token list that the first one obtained. *)
Theorem tokens_retrieved_once_per_pass (get_cwidth : str -> Z)
    (token_list_to_text : list Item -> str) (app : App)
    (max_available_width width : Z) (height : option Z)
    (s : TokenListControl.t) :
  (0 < SimpleCache.maxsize (TokenListControl._token_cache s))%nat ->
  exists w s1 h s2 content s3,
    tl_preferred_width get_cwidth token_list_to_text app max_available_width s
    = (Ok w, s1)
    /\ tl_preferred_height app width s1 = (Ok h, s2)
    /\ tl_content app width height s2 = (Ok content, s3)
    /\ (TokenListControl.get_tokens_calls s1
        <= S (TokenListControl.get_tokens_calls s))%nat
    /\ TokenListControl.get_tokens_calls s2
       = TokenListControl.get_tokens_calls s1
    /\ TokenListControl.get_tokens_calls s3
       = TokenListControl.get_tokens_calls s1
    /\ TokenListControl._tokens s3 = Some (tl_cached_tokens app s).
Proof.
  intros Hmax.
  destruct (get_tokens_cached_spec app s)
    as (s1 & Hrun1 & [_ Hcalls1] & _ & Hlook1).
  specialize (Hlook1 Hmax).
  destruct (create_content_after_tokens app width None s1 _ Hlook1)
    as (c2 & s2 & Hrun2 & Hcache2 & Hcalls2 & _).
  rewrite <- Hcache2 in Hlook1.
  destruct (create_content_after_tokens app width height s2 _ Hlook1)
    as (c3 & s3 & Hrun3 & _ & Hcalls3 & Htokens3).
  exists (TokenListControl.max_width get_cwidth
            (split_newlines (token_list_to_text (tl_cached_tokens app s)))),
    s1, (UIContent.line_count c2), s2, c3, s3.
  split.
  { unfold TokenListControl.preferred_width.
    now rewrite (bind_ok _ _ _ _ _ Hrun1). }
  split.
  { unfold TokenListControl.preferred_height.
    now rewrite (bind_ok _ _ _ _ _ Hrun2). }
  split; [exact Hrun3|]. split; [exact Hcalls1|].
  split; [exact Hcalls2|]. split; [congruence | exact Htokens3].
Qed.

(** X8: the preferred width of a token list is the display width of its
    widest line: no line of the text of the tokens is wider, and one line
    is that wide; the available width plays no part in it. *)
Theorem preferred_width_is_widest_line (get_cwidth : str -> Z)
    (token_list_to_text : list Item -> str) (app : App)
    (max_available_width : Z) (s : TokenListControl.t) :
  exists w s1,
    tl_preferred_width get_cwidth token_list_to_text app max_available_width s
    = (Ok w, s1)
    /\ (forall l,
          l ∈ split_newlines (token_list_to_text (tl_cached_tokens app s)) ->
          get_cwidth l <= w)
    /\ (exists l,
          l ∈ split_newlines (token_list_to_text (tl_cached_tokens app s))
          /\ w = get_cwidth l)
    /\ (forall other_width,
          fst (tl_preferred_width get_cwidth token_list_to_text app
                 other_width s) = Ok w).
Proof.
  destruct (get_tokens_cached_spec app s) as (s1 & Hrun1 & _).
  exists (TokenListControl.max_width get_cwidth
            (split_newlines (token_list_to_text (tl_cached_tokens app s)))),
    s1.
  split.
  { unfold TokenListControl.preferred_width.
    now rewrite (bind_ok _ _ _ _ _ Hrun1). }
  pose proof (split_newlines_nonempty
                (token_list_to_text (tl_cached_tokens app s))) as Hne.
  destruct (split_newlines (token_list_to_text (tl_cached_tokens app s)))
    as [|part parts] eqn:Hsplit; [contradiction|].
  unfold TokenListControl.max_width.
  destruct (max_width_fold get_cwidth parts (get_cwidth part))
    as (Hle & Hall & Hat).
  split; [|split].
  - intros l Hl. apply elem_of_cons in Hl as [->|Hl];
      [exact Hle | now apply Hall].
  - destruct Hat as [Heq|(l & Hl & Heq)].
    + exists part. split; [apply list_elem_of_here | exact Heq].
    + exists l. split; [now apply list_elem_of_further | exact Heq].
  - intros other. unfold TokenListControl.preferred_width.
    rewrite (bind_ok _ _ _ _ _ Hrun1). now rewrite Hsplit.
Qed.

End token_list_control_pass.

Lemma tokens_retrieved_once_per_pass_witness :
  exists w s1 h s2 content s3,
    TokenListControl.preferred_width Z (fun app => app)
      Sample.toolbar_tokens cells
      (fun items => concat (map item_text items)) 1 80
      TokenListControl.init = (Ok w, s1)
    /\ TokenListControl.preferred_height Z (fun app => app)
         Sample.toolbar_tokens 1 80 s1 = (Ok h, s2)
    /\ Sample.toolbar_content 1 s2 = (Ok content, s3)
    /\ TokenListControl.get_tokens_calls s3 = 1%nat.
Proof.
  destruct (tokens_retrieved_once_per_pass Z (fun app => app)
              Sample.toolbar_tokens cells
              (fun items => concat (map item_text items)) 1 80 80 None
              TokenListControl.init)
    as (w & s1 & h & s2 & c & s3 & H1 & H2 & H3 & _ & _ & Hcalls & _).
  - vm_compute. lia.
  - exists w, s1, h, s2, c, s3. split; [exact H1|]. split; [exact H2|].
    split; [exact H3|]. rewrite Hcalls.
    vm_compute in H1. injection H1 as _ <-. reflexivity.
Defined.

(** ** The mouse handler of the token list control *)

Lemma py_index_elem {A} (l : list A) (i : Z) (a : A) :
  py_index l i = Ok a -> a ∈ l.
Proof.
  unfold py_index. cbv zeta.
  destruct ((0 <=? _) && (_ <? _)); [|discriminate].
  destruct (l !! _) as [b|] eqn:Hl; [|discriminate].
  intros [= <-]. apply list_elem_of_lookup. eauto.
Qed.

Lemma split_parts_inv (P : Item -> Prop) (tok : TokenType)
    (h : option nat) (parts : list str) (line : list Item) :
  (forall part, P (mkItem tok part h)) ->
  Forall P line ->
  Forall (Forall P) (fst (split_parts tok h parts line))
  /\ Forall P (snd (split_parts tok h parts line)).
Proof.
  intros Hnew. revert line.
  induction parts as [|part parts IH]; intros line Hline.
  - simpl. split; [constructor | exact Hline].
  - destruct parts as [|part' parts].
    + simpl. split; [constructor|].
      apply Forall_app. split; [exact Hline | repeat constructor; apply Hnew].
    + change (split_parts tok h (part :: part' :: parts) line)
        with (let line' := match part with
                           | [] => line
                           | _ => line ++ [mkItem tok part h]
                           end in
              let '(done, cur) := split_parts tok h (part' :: parts) [] in
              (line' :: done, cur)).
      cbv zeta.
      destruct (IH [] ltac:(constructor)) as [Hdone Hcur].
      destruct (split_parts tok h (part' :: parts) []) as [done cur].
      simpl in *. split; [|exact Hcur].
      constructor; [|exact Hdone].
      destruct part; [exact Hline|].
      apply Forall_app. split; [exact Hline | repeat constructor; apply Hnew].
Qed.

Lemma split_lines_from_inv (P : Item -> Prop) (tokens line : list Item) :
  Forall (fun item =>
            forall part, P (mkItem (item_token item) part (item_handler item)))
         tokens ->
  Forall P line ->
  Forall (Forall P) (split_lines_from tokens line).
Proof.
  revert line. induction tokens as [|item tokens IH]; intros line Hall Hline.
  - simpl. repeat constructor. exact Hline.
  - inversion Hall as [|? ? Hitem Hrest]; subst. simpl.
    destruct (split_parts_inv P (item_token item) (item_handler item)
                (split_newlines (item_text item)) line Hitem Hline)
      as [Hdone Hcur].
    destruct (split_parts _ _ _ line) as [done cur]. simpl in *.
    apply Forall_app. split; [exact Hdone | now apply IH].
Qed.

Section token_list_mouse.
Variable App : Type.
Variable call : nat -> App -> MouseEvent -> handled.

Local Abbreviation tl_mouse_handler := (TokenListMouse.mouse_handler App call).

Lemma find_handler_carried (P : option nat -> Prop) (line : list Item)
    (count xpos : Z) :
  P None ->
  Forall (fun item => P (item_handler item)) line ->
  P (TokenListMouse.find_handler line count xpos).
Proof.
  intros Hnone. revert count.
  induction line as [|item line IH]; intros count Hall; simpl.
  - exact Hnone.
  - inversion Hall; subst.
    destruct (xpos <=? _); [assumption | now apply IH].
Qed.

Lemma items_length_nonneg (items : list Item) :
  0 <= TokenListMouse.items_length items.
Proof.
  induction items as [|item items IH]; unfold TokenListMouse.items_length in *;
    simpl; lia.
Qed.

Lemma find_handler_decides (pre post : list Item) (item : Item)
    (count xpos : Z) :
  pre = [] \/ count + TokenListMouse.items_length pre < xpos ->
  xpos <= count + TokenListMouse.items_length pre
          + Z.of_nat (length (item_text item)) ->
  TokenListMouse.find_handler (pre ++ item :: post) count xpos
  = item_handler item.
Proof.
  revert count. induction pre as [|first pre IH]; intros count Hpre Hx.
  - simpl. unfold TokenListMouse.items_length in Hx. simpl in Hx.
    destruct (Z.leb_spec xpos (count + Z.of_nat (length (item_text item))));
      [reflexivity | lia].
  - destruct Hpre as [Hnil|Hpre]; [discriminate|].
    pose proof (items_length_nonneg pre) as Hnn.
    unfold TokenListMouse.items_length in Hpre, Hx, Hnn |- *.
    simpl in Hpre, Hx |- *.
    destruct (Z.leb_spec xpos (count + Z.of_nat (length (item_text first))));
      [lia|].
    apply IH.
    + right. unfold TokenListMouse.items_length. lia.
    + unfold TokenListMouse.items_length. lia.
Qed.

Lemma find_handler_beyond (line : list Item) (count xpos : Z) :
  count + TokenListMouse.items_length line < xpos ->
  TokenListMouse.find_handler line count xpos = None.
Proof.
  revert count. induction line as [|item line IH]; intros count Hx; simpl.
  - reflexivity.
  - pose proof (items_length_nonneg line) as Hnn.
    unfold TokenListMouse.items_length in Hx, Hnn. simpl in Hx.
    destruct (Z.leb_spec xpos (count + Z.of_nat (length (item_text item))));
      [lia|].
    apply IH. unfold TokenListMouse.items_length. lia.
Qed.

(** X9: the mouse handler of a token list either does not handle the
    event, or returns what a handler that an item of the kept token list
    carries returns; it leaves the control as it is. So a token list whose
    items carry no handler, and a control that was reset or has not made a
    content yet, handle no event. *)
Theorem token_list_mouse_handler_calls_a_carried_handler (app : App)
    (mouse_event : MouseEvent) (s : TokenListControl.t) :
  (tl_mouse_handler app mouse_event s = (Ok NotImplemented, s)
   \/ exists tokens item handler,
        TokenListControl._tokens s = Some tokens
        /\ item ∈ tokens
        /\ item_handler item = Some handler
        /\ tl_mouse_handler app mouse_event s
           = (Ok (call handler app mouse_event), s))
  /\ (forall tokens,
        TokenListControl._tokens s = Some tokens ->
        Forall (fun item => item_handler item = None) tokens ->
        tl_mouse_handler app mouse_event s = (Ok NotImplemented, s))
  /\ tl_mouse_handler app mouse_event (TokenListControl.reset s)
     = (Ok NotImplemented, TokenListControl.reset s).
Proof.
  assert (Hcarried : forall tokens,
    TokenListControl._tokens s = Some tokens ->
    tl_mouse_handler app mouse_event s = (Ok NotImplemented, s)
    \/ exists item handler,
         item ∈ tokens /\ item_handler item = Some handler
         /\ tl_mouse_handler app mouse_event s
            = (Ok (call handler app mouse_event), s)).
  { intros tokens Htokens. unfold TokenListMouse.mouse_handler.
    rewrite Htokens. destruct tokens as [|item items]; [now left|].
    cbv zeta.
    destruct (py_index (split_lines (item :: items))
                       (y (position mouse_event))) as [line|e] eqn:Hline;
      [|now left].
    apply py_index_elem in Hline.
    pose proof (split_lines_from_inv
                  (fun it => exists it0, it0 ∈ item :: items
                                         /\ item_handler it = item_handler it0)
                  (item :: items) []) as Hinv.
    assert (Hline' : Forall (fun it => exists it0, it0 ∈ item :: items
                               /\ item_handler it = item_handler it0) line).
    { eapply Forall_forall in Hinv; [exact Hinv| | |exact Hline].
      - apply Forall_forall. intros it Hit part. exists it. now split.
      - constructor. }
    pose proof (find_handler_carried
                  (fun h => h = None
                            \/ exists it0, it0 ∈ item :: items
                                           /\ h = item_handler it0)
                  line 0 (x (position mouse_event))) as Hfind.
    destruct Hfind as [Hnone|(it0 & Hit0 & Hh)].
    - now left.
    - eapply Forall_impl; [exact Hline'|].
      intros it (it0 & Hit0 & Heq). right. exists it0. now split.
    - rewrite Hnone. now left.
    - destruct (TokenListMouse.find_handler line 0 _) as [h|]; [|now left].
      right. exists it0, h. now repeat split. }
  split; [|split].
  - destruct (TokenListControl._tokens s) as [tokens|] eqn:Htokens.
    + destruct (Hcarried tokens eq_refl)
        as [Hno|(item & handler & Hin & Hh & Hrun)]; [now left|].
      right. exists tokens, item, handler. now repeat split.
    + left. unfold TokenListMouse.mouse_handler. now rewrite Htokens.
  - intros tokens Htokens Hall.
    destruct (Hcarried tokens Htokens)
      as [Hno|(item & handler & Hin & Hh & Hrun)]; [exact Hno|].
    eapply Forall_forall in Hall; [|exact Hin]. congruence.
  - reflexivity.
Qed.

(** X10: a click on a line of a token list goes to the first item at whose
    end the count of the characters of the line reaches the column of the
    click: the item after whose predecessors the count is still below the
    column. The handler of that item is called, and an item without a
    handler leaves the event unhandled. A click at a column past the end of
    the line, or on a row that the token list does not have, is not
    handled. *)
Theorem token_list_mouse_handler_picks_item (app : App)
    (mouse_event : MouseEvent) (s : TokenListControl.t)
    (tokens : list Item) :
  TokenListControl._tokens s = Some tokens ->
  tokens <> [] ->
  (forall pre item post,
      py_index (split_lines tokens) (y (position mouse_event))
      = Ok (pre ++ item :: post) ->
      pre = [] \/ TokenListMouse.items_length pre < x (position mouse_event) ->
      x (position mouse_event)
      <= TokenListMouse.items_length pre
         + Z.of_nat (length (item_text item)) ->
      tl_mouse_handler app mouse_event s
      = (Ok match item_handler item with
            | Some handler => call handler app mouse_event
            | None => NotImplemented
            end, s))
  /\ (forall line,
        py_index (split_lines tokens) (y (position mouse_event)) = Ok line ->
        TokenListMouse.items_length line < x (position mouse_event) ->
        tl_mouse_handler app mouse_event s = (Ok NotImplemented, s))
  /\ (forall e,
        py_index (split_lines tokens) (y (position mouse_event)) = Raise e ->
        tl_mouse_handler app mouse_event s = (Ok NotImplemented, s)).
Proof.
  intros Htokens Hne. destruct tokens as [|first rest]; [contradiction|].
  unfold TokenListMouse.mouse_handler. rewrite Htokens. cbv zeta.
  split; [|split].
  - intros pre item post Hline Hpre Hx. rewrite Hline.
    rewrite find_handler_decides by (simpl; [tauto || lia .. ]).
    now destruct (item_handler item).
  - intros line Hline Hx. rewrite Hline.
    now rewrite find_handler_beyond by lia.
  - intros e Hline. now rewrite Hline.
Qed.

End token_list_mouse.

Lemma token_list_mouse_handler_picks_item_witness :
  TokenListMouse.mouse_handler unit
    (fun handler _ _ => if (handler =? 7)%nat then PyNone else NotImplemented)
    tt (mkMouseEvent (mkPoint 2 0) MOUSE_UP)
    (TokenListControl.set_tokens
       (Some [mkItem Token (u "ab") (Some 7%nat);
              mkItem Token (u "cd") (Some 8%nat)])
       TokenListControl.init)
  = (Ok PyNone,
     TokenListControl.set_tokens
       (Some [mkItem Token (u "ab") (Some 7%nat);
              mkItem Token (u "cd") (Some 8%nat)])
       TokenListControl.init).
Proof.
  destruct (token_list_mouse_handler_picks_item unit
              (fun handler _ _ =>
                 if (handler =? 7)%nat then PyNone else NotImplemented)
              tt (mkMouseEvent (mkPoint 2 0) MOUSE_UP)
              (TokenListControl.set_tokens
                 (Some [mkItem Token (u "ab") (Some 7%nat);
                        mkItem Token (u "cd") (Some 8%nat)])
                 TokenListControl.init)
              [mkItem Token (u "ab") (Some 7%nat);
               mkItem Token (u "cd") (Some 8%nat)]
              eq_refl ltac:(discriminate))
    as (Hpick & _).
  apply (Hpick [] (mkItem Token (u "ab") (Some 7%nat))
               [mkItem Token (u "cd") (Some 8%nat)]).
  - vm_compute. reflexivity.
  - now left.
  - vm_compute. discriminate.
Defined.

(** ** More on the buffer control *)

Section buffer_control_more.
Context {Env : Type} `{!DocumentOps} `{!Lexer Env} `{!Processor Env}.
Variable self : nat.
Variable preview_search : App Env -> bool.
Variable focus_on_click : App Env -> bool.
Variable menu_position : option (App Env -> option Z).
Variable document_for_search : Buffer.t -> SearchState -> Document.t.

Local Abbreviation state := (@BufferControl.t Env).
Local Abbreviation get_processed_line :=
  (BufferControl.get_processed_line self).
Local Abbreviation transform := (BufferControl.transform self).
Local Abbreviation closure_at := (BufferControl.closure_at self).
Local Abbreviation create_content :=
  (BufferControl.create_content self preview_search menu_position
                                document_for_search).
Local Abbreviation mouse_handler :=
  (BufferControl.mouse_handler self focus_on_click).
Local Abbreviation document_to_show :=
  (BufferControl.document_to_show preview_search document_for_search).

(** A line that is in the cache of the closure is returned as it is, and
    nothing changes. *)
Lemma get_processed_line_again (s : state) (addr : nat) (i : Z)
    (document : Document.t) (width : Z) (height : option Z)
    (lines : Z -> Line) :
  closure_at s addr document width height lines ->
  (forall cl, BufferControl.closures s !! addr = Some cl ->
              is_Some (BufferControl.cache cl !! i)) ->
  get_processed_line addr i s
  = (Ok (transform (BufferControl.app s) document width height i (lines i)),
     s).
Proof.
  intros (cl & Hcl & Hd & Hw & Hh & Hl & Hok) Hcached. subst.
  destruct (Hcached cl Hcl) as [pl Hpl].
  unfold BufferControl.get_processed_line. rewrite Hcl, Hpl.
  now rewrite (Hok i pl Hpl).
Qed.

(** X11: a line of the content of a buffer control is processed once: the
    first request of line [i] applies the processors at most once, and a
    second request returns the same tokens and changes nothing, so that it
    applies no processor. *)
Theorem get_line_twice (s : state) (width : Z) (height : option Z) :
  exists content s1,
    create_content width height s = (Ok content, s1)
    /\ forall i : Z, exists line s2,
        UIContent.get_line content i s1 = (Ok line, s2)
        /\ UIContent.get_line content i s2 = (Ok line, s2)
        /\ (BufferControl.apply_transformation_calls s2
            <= S (BufferControl.apply_transformation_calls s1))%nat.
Proof.
  destruct (create_content_spec self preview_search menu_position
              document_for_search s width height)
    as (content & s1 & Hrun & Hget & _ & _ & _ & Hat & _).
  exists content, s1. split; [exact Hrun|]. intros i.
  destruct (get_processed_line_spec self s1 _ i _ _ _ _ Hat)
    as (s2 & Hline & Hat2 & Hfr & _ & Hcount & Hcached).
  eexists. exists s2. rewrite Hget. unfold BufferControl.get_line.
  rewrite (bind_ok _ _ _ _ _ Hline).
  rewrite (bind_ok _ _ _ _ _
             (get_processed_line_again s2 _ i _ _ _ _ Hat2 Hcached)).
  destruct Hfr as (Happ & _). rewrite Happ.
  split; [reflexivity|]. split; [reflexivity|].
  destruct Hat as (cl & Hcl & _). specialize (Hcount cl Hcl).
  destruct (BufferControl.cache cl !! i); lia.
Qed.

(** X12: when the focused control has a menu-position callback that gives
    an offset, the menu is anchored at the translation of that offset, also
    while a completion runs; when the callback gives [None], the offset of
    the running completion is used instead. The row and the column of the
    offset are those of the document of the buffer. *)
Theorem menu_position_of_callback (s : state) (width : Z)
    (height : option Z) (callback : App Env -> option Z) :
  BufferControl.has_focus self s = true ->
  menu_position = Some callback ->
  exists content s1,
    create_content width height s = (Ok content, s1)
    /\ (forall offset,
          callback (BufferControl.app s) = Some offset ->
          UIContent.menu_position content
          = Some (BufferControl.translated self (BufferControl.app s)
                    (document_to_show s) width height
                    (BufferControl.lexer_lines s (document_to_show s))
                    (translate_index_to_position
                       (Buffer.document (BufferControl.buffer s)) offset)))
    /\ (forall complete_state,
          callback (BufferControl.app s) = None ->
          Buffer.complete_state (BufferControl.buffer s)
          = Some complete_state ->
          UIContent.menu_position content
          = Some (BufferControl.translated self (BufferControl.app s)
                    (document_to_show s) width height
                    (BufferControl.lexer_lines s (document_to_show s))
                    (translate_index_to_position
                       (Buffer.document (BufferControl.buffer s))
                       (Z.min
                          (Buffer.cursor_position (BufferControl.buffer s))
                          (Document.cursor_position
                             (original_document complete_state)))))).
Proof.
  intros Hfocus Hcb.
  destruct (create_content_spec self preview_search menu_position
              document_for_search s width height)
    as (content & s1 & Hrun & _ & _ & _ & Hmenu & _).
  exists content, s1. split; [exact Hrun|].
  unfold BufferControl.menu_offset in Hmenu.
  rewrite Hfocus, Hcb in Hmenu. split.
  - intros offset Hoffset. now rewrite Hmenu, Hoffset.
  - intros cs Hnone Hcs. now rewrite Hmenu, Hnone, Hcs.
Qed.

Lemma is_double_click_false (last_click : option Q) (now : Q) :
  match last_click with
  | Some t0 => (3 # 10 <= now - t0)%Q
  | None => True
  end ->
  BufferControl.is_double_click last_click now = false.
Proof.
  destruct last_click as [t0|]; [|reflexivity]. intros Hle.
  unfold BufferControl.is_double_click, Qlt_bool.
  apply Qle_bool_iff in Hle. rewrite Hle. apply andb_false_r.
Qed.

(** What the handling of a press does in a focused control with a render
    pass. *)
Lemma handle_press (s : state) (addr : nat) (document : Document.t)
    (width : Z) (height : option Z) (lines : Z -> Line) (p : Point)
    (now1 now2 : Q) :
  BufferControl.has_focus self s = true ->
  BufferControl._last_get_processed_line s = Some addr ->
  closure_at s addr document width height lines ->
  exists s',
    mouse_handler (mkMouseEvent p MOUSE_DOWN) now1 now2 s = (Ok PyNone, s')
    /\ BufferControl.buffer s'
       = Buffer.mk (Buffer.text (BufferControl.buffer s))
           (translate_row_col_to_index
              (Buffer.document (BufferControl.buffer s)) (y p)
              (display_to_source
                 (transform (BufferControl.app s) document width height
                            (y p) (lines (y p)))
                 (x p)))
           None (Buffer.complete_state (BufferControl.buffer s))
    /\ BufferControl._last_click_timestamp s'
       = BufferControl._last_click_timestamp s
    /\ BufferControl.app s' = BufferControl.app s
    /\ BufferControl._last_get_processed_line s' = Some addr
    /\ closure_at s' addr document width height lines.
Proof.
  intros Hfocus Hlast Hat.
  destruct (get_processed_line_spec self s addr (y p) _ _ _ _ Hat)
    as (sa & Hrun & Hat' & Hfr & _).
  destruct Hfr as (Ha & Hb & _ & _ & _ & Hts & Hl & _).
  unfold BufferControl.mouse_handler. cbv zeta.
  cbn [position event_type].
  rewrite bind_gets, Hfocus, bind_gets, Hlast.
  rewrite (bind_ok _ _ _ _ _ Hrun), bind_gets, !bind_modify.
  eexists. split; [reflexivity|].
  split; [cbn; now rewrite Hb|]. split; [exact Hts|].
  split; [exact Ha|]. split; [cbn; congruence|].
  eapply closure_at_ext; [| |exact Hat']; reflexivity.
Qed.

(** What the handling of a release that is not a double click does. *)
Lemma handle_release (s : state) (addr : nat) (document : Document.t)
    (width : Z) (height : option Z) (lines : Z -> Line) (p : Point)
    (now1 now2 : Q) :
  BufferControl.has_focus self s = true ->
  BufferControl._last_get_processed_line s = Some addr ->
  closure_at s addr document width height lines ->
  match BufferControl._last_click_timestamp s with
  | Some t0 => (3 # 10 <= now1 - t0)%Q
  | None => True
  end ->
  let b := BufferControl.buffer s in
  let index :=
    translate_row_col_to_index (Buffer.document b) (y p)
      (display_to_source
         (transform (BufferControl.app s) document width height (y p)
                    (lines (y p)))
         (x p)) in
  exists s',
    mouse_handler (mkMouseEvent p MOUSE_UP) now1 now2 s = (Ok PyNone, s')
    /\ BufferControl.buffer s'
       = (if 1 <? Z.abs (Buffer.cursor_position b - index)
          then Buffer.mk (Buffer.text b) index
                 (Some (mkSelectionState (Buffer.cursor_position b)
                                         CHARACTERS))
                 (Buffer.complete_state b)
          else b)
    /\ BufferControl._last_click_timestamp s' = Some now2.
Proof.
  intros Hfocus Hlast Hat Hslow b index.
  destruct (get_processed_line_spec self s addr (y p) _ _ _ _ Hat)
    as (sa & Hrun & _ & Hfr & _).
  destruct Hfr as (_ & Hb & _ & _ & _ & Hts & _ & _).
  apply is_double_click_false in Hslow. rewrite <- Hts in Hslow.
  unfold BufferControl.mouse_handler. cbv zeta.
  cbn [position event_type].
  rewrite bind_gets, Hfocus, bind_gets, Hlast.
  rewrite (bind_ok _ _ _ _ _ Hrun), bind_gets, Hb.
  fold b. fold index.
  destruct (1 <? Z.abs (Buffer.cursor_position b - index)).
  - match goal with
    | |- context [bind (bind (modify ?f) (fun _ => modify ?g)) ?k sa] =>
        change (bind (bind (modify f) (fun _ => modify g)) k sa)
          with (k tt (g (f sa)))
    end.
    cbv beta. rewrite bind_gets. cbv zeta.
    change (BufferControl._last_click_timestamp
              (BufferControl.update_buffer _
                 (BufferControl.update_buffer _ sa)))
      with (BufferControl._last_click_timestamp sa).
    rewrite Hslow, bind_modify.
    eexists. split; [reflexivity|]. split; [|reflexivity].
    cbn. now rewrite Hb.
  - change (bind (ret tt) ?k sa) with (k tt sa).
    cbv beta. rewrite bind_gets. cbv zeta. rewrite Hslow, bind_modify.
    eexists. split; [reflexivity|]. split; [|reflexivity]. exact Hb.
Qed.

(** X13: a press on a focused control with a render pass clears the
    selection and puts the cursor at the offset that the document of the
    buffer gives for the row of the press and for the source column of its
    display column, an offset that is not negative; it returns [None], and
    the text and the time stamp of the last click stay as they are. *)
Theorem press_sets_cursor (s : state) (addr : nat) (document : Document.t)
    (width : Z) (height : option Z) (lines : Z -> Line) (p : Point)
    (now1 now2 : Q) :
  BufferControl.has_focus self s = true ->
  BufferControl._last_get_processed_line s = Some addr ->
  closure_at s addr document width height lines ->
  let index :=
    translate_row_col_to_index
      (Buffer.document (BufferControl.buffer s)) (y p)
      (display_to_source
         (transform (BufferControl.app s) document width height (y p)
                    (lines (y p)))
         (x p)) in
  0 <= index ->
  exists s',
    mouse_handler (mkMouseEvent p MOUSE_DOWN) now1 now2 s = (Ok PyNone, s')
    /\ Buffer.cursor_position (BufferControl.buffer s') = index
    /\ Buffer.selection_state (BufferControl.buffer s') = None
    /\ Buffer.text (BufferControl.buffer s')
       = Buffer.text (BufferControl.buffer s)
    /\ BufferControl._last_click_timestamp s'
       = BufferControl._last_click_timestamp s.
Proof.
  intros Hfocus Hlast Hat index _.
  destruct (handle_press s addr _ _ _ _ p now1 now2 Hfocus Hlast Hat)
    as (s' & Hrun & Hbuf & Hts & _).
  exists s'. rewrite Hbuf. now repeat split.
Qed.

(** X14: a release that is no double click, the first release or one at
    least 0.3 s after the previous one, starts a selection of characters at
    the cursor and moves the cursor to the resolved offset when the two are
    more than one unit apart, and leaves the buffer as it is otherwise; it
    returns [None] and records its time. *)
Theorem release_selects_from_cursor (s : state) (addr : nat)
    (document : Document.t) (width : Z) (height : option Z)
    (lines : Z -> Line) (p : Point) (now1 now2 : Q) :
  BufferControl.has_focus self s = true ->
  BufferControl._last_get_processed_line s = Some addr ->
  closure_at s addr document width height lines ->
  match BufferControl._last_click_timestamp s with
  | Some t0 => (3 # 10 <= now1 - t0)%Q
  | None => True
  end ->
  let b := BufferControl.buffer s in
  let index :=
    translate_row_col_to_index (Buffer.document b) (y p)
      (display_to_source
         (transform (BufferControl.app s) document width height (y p)
                    (lines (y p)))
         (x p)) in
  exists s',
    mouse_handler (mkMouseEvent p MOUSE_UP) now1 now2 s = (Ok PyNone, s')
    /\ BufferControl.buffer s'
       = (if 1 <? Z.abs (Buffer.cursor_position b - index)
          then Buffer.mk (Buffer.text b) index
                 (Some (mkSelectionState (Buffer.cursor_position b)
                                         CHARACTERS))
                 (Buffer.complete_state b)
          else b)
    /\ BufferControl._last_click_timestamp s' = Some now2.
Proof.
  intros Hfocus Hlast Hat Hslow.
  exact (handle_release s addr _ _ _ _ p now1 now2 Hfocus Hlast Hat Hslow).
Qed.

(** X15: dragging selects: after a press at one place and a release at
    another whose offset is more than one unit from that of the press, the
    release being no double click, the selection of characters is anchored
    at the offset of the press and the cursor is at the offset of the
    release. *)
Theorem drag_selects (s : state) (addr : nat) (document : Document.t)
    (width : Z) (height : option Z) (lines : Z -> Line) (p1 p2 : Point)
    (t1 t2 now1 now2 : Q) :
  BufferControl.has_focus self s = true ->
  BufferControl._last_get_processed_line s = Some addr ->
  closure_at s addr document width height lines ->
  match BufferControl._last_click_timestamp s with
  | Some t0 => (3 # 10 <= now1 - t0)%Q
  | None => True
  end ->
  let b := BufferControl.buffer s in
  let source_column p :=
    display_to_source
      (transform (BufferControl.app s) document width height (y p)
                 (lines (y p)))
      (x p) in
  let pressed :=
    translate_row_col_to_index (Buffer.document b) (y p1)
                               (source_column p1) in
  let released :=
    translate_row_col_to_index
      (Buffer.document
         (Buffer.mk (Buffer.text b) pressed None (Buffer.complete_state b)))
      (y p2) (source_column p2) in
  1 < Z.abs (pressed - released) ->
  exists s1 s2,
    mouse_handler (mkMouseEvent p1 MOUSE_DOWN) t1 t2 s = (Ok PyNone, s1)
    /\ mouse_handler (mkMouseEvent p2 MOUSE_UP) now1 now2 s1
       = (Ok PyNone, s2)
    /\ BufferControl.buffer s2
       = Buffer.mk (Buffer.text b) released
           (Some (mkSelectionState pressed CHARACTERS))
           (Buffer.complete_state b).
Proof.
  intros Hfocus Hlast Hat Hslow b source_column pressed released Hfar.
  destruct (handle_press s addr _ _ _ _ p1 t1 t2 Hfocus Hlast Hat)
    as (s1 & Hrun1 & Hbuf1 & Hts1 & Happ1 & Hlast1 & Hat1).
  assert (Hfocus1 : BufferControl.has_focus self s1 = true)
    by (unfold BufferControl.has_focus in *; now rewrite Happ1).
  rewrite <- Hts1 in Hslow.
  destruct (handle_release s1 addr _ _ _ _ p2 now1 now2 Hfocus1 Hlast1 Hat1
              Hslow)
    as (s2 & Hrun2 & Hbuf2 & _).
  exists s1, s2. split; [exact Hrun1|]. split; [exact Hrun2|].
  rewrite Hbuf2, Hbuf1, Happ1.
  cbn [Buffer.cursor_position Buffer.text Buffer.complete_state].
  fold b. fold (source_column p1). fold pressed.
  fold (source_column p2). fold released.
  destruct (Z.ltb_spec 1 (Z.abs (pressed - released))); [reflexivity | lia].
Qed.

(** X16: a scroll event on a focused control with a render pass is not
    handled: [NotImplemented] is returned, and the buffer, the time stamp of
    the last click and the focus stay as they are. *)
Theorem scroll_is_not_handled (s : state) (addr : nat)
    (document : Document.t) (width : Z) (height : option Z)
    (lines : Z -> Line) (mouse_event : MouseEvent) (now1 now2 : Q) :
  BufferControl.has_focus self s = true ->
  BufferControl._last_get_processed_line s = Some addr ->
  closure_at s addr document width height lines ->
  event_type mouse_event = SCROLL_UP \/ event_type mouse_event = SCROLL_DOWN ->
  exists s',
    mouse_handler mouse_event now1 now2 s = (Ok NotImplemented, s')
    /\ BufferControl.buffer s' = BufferControl.buffer s
    /\ BufferControl._last_click_timestamp s'
       = BufferControl._last_click_timestamp s
    /\ BufferControl.app s' = BufferControl.app s.
Proof.
  intros Hfocus Hlast Hat Hkind.
  destruct (get_processed_line_spec self s addr (y (position mouse_event))
              _ _ _ _ Hat)
    as (sa & Hrun & _ & Hfr & _).
  destruct Hfr as (Ha & Hb & _ & _ & _ & Hts & _ & _).
  unfold BufferControl.mouse_handler. cbv zeta.
  rewrite bind_gets, Hfocus, bind_gets, Hlast.
  rewrite (bind_ok _ _ _ _ _ Hrun), bind_gets.
  exists sa. destruct Hkind as [-> | ->]; now repeat split.
Qed.

(** X17: a control without the focus takes it on a release when focusing
    on click is enabled, and consumes the event; every other event it
    leaves unhandled, and nothing changes. The buffer is never touched. *)
Theorem unfocused_control_focuses_on_release (s : state)
    (mouse_event : MouseEvent) (now1 now2 : Q) :
  BufferControl.has_focus self s = false ->
  (focus_on_click (BufferControl.app s) = true ->
   event_type mouse_event = MOUSE_UP ->
   exists s',
     mouse_handler mouse_event now1 now2 s = (Ok PyNone, s')
     /\ BufferControl.has_focus self s' = true
     /\ BufferControl.buffer s' = BufferControl.buffer s
     /\ environment (BufferControl.app s')
        = environment (BufferControl.app s))
  /\ (focus_on_click (BufferControl.app s) = false
      \/ event_type mouse_event <> MOUSE_UP ->
      mouse_handler mouse_event now1 now2 s = (Ok NotImplemented, s)).
Proof.
  intros Hfocus. unfold BufferControl.mouse_handler. cbv zeta.
  rewrite bind_gets, Hfocus, bind_gets. split.
  - intros Hclick Hup. rewrite Hclick, Hup.
    eexists. split; [reflexivity|].
    split; [|now split].
    unfold BufferControl.has_focus. cbn. now apply bool_decide_eq_true.
  - intros [Hclick|Hkind].
    + now rewrite Hclick.
    + rewrite (bool_decide_eq_false_2 _ Hkind), andb_false_r. reflexivity.
Qed.

(** X18: whatever the event and whatever the state of the control, the
    mouse handler does not change the text of the buffer, does not call the
    lexer or touch the token cache, makes no closure and keeps the one that
    the last [create_content] left, and applies the processors at most
    once, for the line of the event. *)
Theorem mouse_handler_keeps_text (s : state) (mouse_event : MouseEvent)
    (now1 now2 : Q) :
  let s' := snd (mouse_handler mouse_event now1 now2 s) in
  Buffer.text (BufferControl.buffer s')
  = Buffer.text (BufferControl.buffer s)
  /\ BufferControl.lex_document_calls s' = BufferControl.lex_document_calls s
  /\ BufferControl._token_cache s' = BufferControl._token_cache s
  /\ BufferControl._last_get_processed_line s'
     = BufferControl._last_get_processed_line s
  /\ length (BufferControl.closures s') = length (BufferControl.closures s)
  /\ (BufferControl.apply_transformation_calls s
      <= BufferControl.apply_transformation_calls s'
      <= S (BufferControl.apply_transformation_calls s))%nat.
Proof.
  unfold BufferControl.mouse_handler, BufferControl.get_processed_line,
    bind, gets, modify, ret.
  cbv zeta.
  destruct (BufferControl.has_focus self s).
  - destruct (BufferControl._last_get_processed_line s) as [addr|] eqn:Hlast;
      [|cbn; rewrite Hlast; repeat split; lia].
    destruct (BufferControl.closures s !! addr) as [cl|];
      [|cbn; rewrite Hlast; repeat split; lia].
    destruct (BufferControl.cache cl !! y (position mouse_event)) as [pl|];
      destruct (event_type mouse_event); cbn;
      try (rewrite ?Hlast, ?length_insert; repeat split; lia);
      destruct (1 <? _); cbn;
      destruct (BufferControl.is_double_click _ _); cbn;
      try (rewrite ?Hlast, ?length_insert; repeat split; lia);
      destruct (find_boundaries_of_current_word _); cbn;
      rewrite ?Hlast, ?length_insert; repeat split; lia.
  - destruct (focus_on_click _ && _); cbn; repeat split; lia.
Qed.

Lemma get_height_for_text_at_least_1 (get_cwidth : str -> Z) (txt : str)
    (width : Z) :
  1 <= UIContent.get_height_for_text get_cwidth txt width.
Proof.
  unfold UIContent.get_height_for_text.
  destruct (divmod (get_cwidth txt) width) as [[q r]|e]; lia.
Qed.

Section preferred_height.
Variable get_cwidth : str -> Z.
Variable token_list_to_text : Line -> str.

Local Abbreviation line_height :=
  (BufferControl.line_height self get_cwidth token_list_to_text).

Local Abbreviation heights_ok :=
  (BufferControl.heights_ok self get_cwidth token_list_to_text).

Lemma get_height_for_line_of_buffer (content : UIContent.t state)
    (s : state) (addr : nat) (i : Z) (document : Document.t) (width : Z)
    (lines : Z -> Line) (heights : gmap (Z * Z) Z) :
  UIContent.get_line content = BufferControl.get_line self addr ->
  closure_at s addr document width None lines ->
  heights_ok (BufferControl.app s) document width lines heights ->
  exists s' heights',
    UIContent.get_height_for_line get_cwidth token_list_to_text content i
      width (s, heights)
    = (Ok (line_height (BufferControl.app s) document width None lines i),
       (s', heights'))
    /\ closure_at s' addr document width None lines
    /\ BufferControl.app s' = BufferControl.app s
    /\ BufferControl.buffer s' = BufferControl.buffer s
    /\ heights_ok (BufferControl.app s') document width lines heights'.
Proof.
  intros Hget Hat Hok. unfold UIContent.get_height_for_line.
  destruct (heights !! (i, width)) as [hh|] eqn:Hh.
  - exists s, heights. rewrite (Hok i hh Hh). now repeat split.
  - rewrite Hget.
    destruct (get_line_spec self s addr i _ _ _ _ Hat)
      as (s' & Hline & Hat' & Hfr).
    destruct Hfr as (Happ & Hbuf & _).
    rewrite Hline. cbv zeta. eexists. eexists.
    split; [reflexivity|]. split; [exact Hat'|]. split; [exact Happ|].
    split; [exact Hbuf|].
    intros j hh Hj. rewrite Happ.
    destruct (decide (i = j)) as [->|Hne].
    + rewrite lookup_insert_eq in Hj. now injection Hj as <-.
    + rewrite lookup_insert_ne in Hj by congruence. exact (Hok j hh Hj).
Qed.

Lemma sum_from_nonneg (f : Z -> Z) (n : nat) (i : Z) :
  (forall j, 1 <= f j) -> 0 <= BufferControl.sum_from f n i.
Proof.
  intros Hf. revert i. induction n as [|n IH]; intros i; simpl; [lia|].
  specialize (IH (i + 1)). specialize (Hf i). lia.
Qed.

Lemma preferred_height_loop_spec (content : UIContent.t state) (addr : nat)
    (document : Document.t) (width max_available_height : Z)
    (lines : Z -> Line) (n : nat) :
  UIContent.get_line content = BufferControl.get_line self addr ->
  forall (i height : Z) (s : state) (heights : gmap (Z * Z) Z),
    closure_at s addr document width None lines ->
    heights_ok (BufferControl.app s) document width lines heights ->
    height < max_available_height ->
    exists s' heights',
      BufferControl.preferred_height_loop get_cwidth token_list_to_text
        content width max_available_height n i height (s, heights)
      = (Ok (Z.min max_available_height
               (height
                + BufferControl.sum_from
                    (line_height (BufferControl.app s) document width None
                                 lines) n i)),
         (s', heights'))
      /\ BufferControl.buffer s' = BufferControl.buffer s.
Proof.
  intros Hget. induction n as [|n IH]; intros i height s heights Hat Hok Hlt.
  - exists s, heights. simpl. split; [|reflexivity].
    unfold ret. do 2 f_equal. lia.
  - destruct (get_height_for_line_of_buffer content s addr i _ _ _ heights
                Hget Hat Hok)
      as (s1 & heights1 & Hrun & Hat1 & Happ1 & Hbuf1 & Hok1).
    cbn [BufferControl.preferred_height_loop BufferControl.sum_from].
    rewrite (bind_ok _ _ _ _ _ Hrun). cbv zeta.
    pose proof (sum_from_nonneg
                  (line_height (BufferControl.app s) document width None lines)
                  n (i + 1)
                  (fun j => get_height_for_text_at_least_1 _ _ _)) as Hnn.
    destruct (Z.leb_spec max_available_height
                (height + line_height (BufferControl.app s) document width
                            None lines i)) as [Hfull|Hroom].
    + exists s1, heights1. split; [|exact Hbuf1].
      unfold ret. do 2 f_equal. lia.
    + destruct (IH (i + 1) _ s1 heights1 Hat1 Hok1 Hroom)
        as (s2 & heights2 & Hrun2 & Hbuf2).
      exists s2, heights2. rewrite Hrun2, Happ1.
      split; [do 3 f_equal; lia | congruence].
Qed.

(** X19: the preferred height of a buffer control. Without line wrapping
    it is the number of lines of the document, whatever height is
    available. With line wrapping it is the sum of the heights that the
    lines take at the given width, and the available height when that sum
    reaches it; it never exceeds the available height. When the height
    follows from the number of lines alone, no line is measured: the
    processors are applied as for the content only, at most twice. *)
Theorem preferred_height_of_buffer (s : state) (width : Z)
    (max_available_height : Z) (wrap_lines : bool) :
  0 <= line_count (document_to_show s) ->
  let document := document_to_show s in
  let lines := BufferControl.lexer_lines s document in
  exists r s',
    BufferControl.preferred_height self preview_search menu_position
      document_for_search get_cwidth token_list_to_text width
      max_available_height wrap_lines s = (Ok r, s')
    /\ (wrap_lines = false -> r = line_count document)
    /\ (wrap_lines = true ->
        r = Z.min max_available_height
              (BufferControl.sum_from
                 (line_height (BufferControl.app s) document width None
                              lines)
                 (Z.to_nat (line_count document)) 0)
        /\ r <= max_available_height)
    /\ (wrap_lines = false \/ max_available_height <= line_count document ->
        (BufferControl.apply_transformation_calls s'
         <= S (S (BufferControl.apply_transformation_calls s)))%nat)
    /\ BufferControl.buffer s' = BufferControl.buffer s.
Proof.
  intros Hcount document lines.
  change (0 <= line_count document) in Hcount.
  destruct (create_content_spec self preview_search menu_position
              document_for_search s width None)
    as (content & s1 & Hrun & Hget & Hlc & _ & _ & Hat & _ & Happ & Hbuf & _
        & _ & _ & _ & [_ Hatc] & _).
  fold document in Hlc, Hat. fold lines in Hat.
  unfold BufferControl.preferred_height.
  rewrite (bind_ok _ _ _ _ _ Hrun), Hlc.
  destruct wrap_lines; cbn [negb].
  - destruct (Z.leb_spec max_available_height (line_count document))
      as [Hsmall|Hlarge].
    + exists max_available_height, s1. split; [reflexivity|].
      split; [discriminate|]. split; [|split; [intros _; exact Hatc|exact Hbuf]].
      intros _. split; [|lia].
      pose proof (get_height_for_text_at_least_1) as Hge.
      assert (Hsum : forall n i,
                Z.of_nat n
                <= BufferControl.sum_from
                     (line_height (BufferControl.app s) document width None
                                  lines) n i).
      { induction n as [|n IH]; intros i; [simpl; lia|].
        cbn [BufferControl.sum_from]. specialize (IH (i + 1)).
        pose proof (Hge get_cwidth
                      (token_list_to_text
                         (tr_tokens
                            (apply_transformation
                               (BufferControl.transformation_input self
                                  (BufferControl.app s) document width None
                                  i (lines i)))
                          ++ [(Token, u " ")])) width) as H1.
        unfold BufferControl.line_height at 1. lia. }
      specialize (Hsum (Z.to_nat (line_count document)) 0). lia.
    + destruct (preferred_height_loop_spec content _ document width
                  max_available_height lines
                  (Z.to_nat (line_count document)) Hget 0 0 s1 ∅ Hat)
        as (s2 & heights2 & Hloop & Hbuf2).
      { intros j hh Hj. rewrite lookup_empty in Hj. discriminate. }
      { lia. }
      rewrite Hloop, Happ. eexists. exists s2.
      split; [reflexivity|]. split; [discriminate|].
      split; [intros _; split; [reflexivity | lia]|].
      split; [intros [?|?]; [discriminate | lia] | congruence].
  - exists (line_count document), s1. split; [reflexivity|].
    split; [reflexivity|]. split; [discriminate|].
    split; [intros _; exact Hatc | exact Hbuf].
Qed.

End preferred_height.

End buffer_control_more.

(** ** Instances *)

(** While [abcdefghij] is completed to [abc], a callback that gives offset
    1 anchors the menu there. *)
Lemma menu_position_of_callback_witness :
  exists content s1,
    BufferControl.create_content 0%nat (fun _ => false)
      (Some (fun _ => Some 1)) Sample.search_document 80 None
      Sample.completing = (Ok content, s1)
    /\ UIContent.menu_position content = Some (mkPoint 1 0).
Proof.
  destruct (menu_position_of_callback 0%nat (fun _ => false)
              (Some (fun _ => Some 1)) Sample.search_document
              Sample.completing 80 None (fun _ => Some 1)
              eq_refl eq_refl)
    as (content & s1 & Hrun & Hmenu & _).
  exists content, s1. split; [exact Hrun|].
  rewrite (Hmenu 1 eq_refl). vm_compute. reflexivity.
Defined.

(** A press on the [w] of [hello world] puts the cursor at 6. *)
Lemma press_sets_cursor_witness :
  exists s',
    Sample.mouse_handler (mkMouseEvent (mkPoint 6 0) MOUSE_DOWN) 100 100
      (Sample.rendered (Sample.control (u "hello world") 0))
    = (Ok PyNone, s')
    /\ Buffer.cursor_position (BufferControl.buffer s') = 6
    /\ Buffer.selection_state (BufferControl.buffer s') = None.
Proof.
  destruct (create_content_leaves_closure 0%nat (fun _ => false) None
              Sample.search_document (Sample.control (u "hello world") 0)
              80 None)
    as (Hat & Hlast & _).
  destruct (press_sets_cursor 0%nat (fun _ => false)
              (Sample.rendered (Sample.control (u "hello world") 0)) 0%nat
              (Document.mk (u "hello world") 0 None) 80 None
              (lex_document Sample.the_app
                 (Document.mk (u "hello world") 0 None))
              (mkPoint 6 0) 100 100)
    as (s' & Hrun & Hcursor & Hsel & _).
  - vm_compute. reflexivity.
  - exact Hlast.
  - exact Hat.
  - vm_compute. discriminate.
  - exists s'. split; [exact Hrun|]. split; [|exact Hsel].
    rewrite Hcursor. vm_compute. reflexivity.
Defined.

(** The first release, on the [w] of [hello world] with the cursor at 0,
    selects from 0 to 6. *)
Lemma release_selects_from_cursor_witness :
  exists s',
    Sample.mouse_handler (mkMouseEvent (mkPoint 6 0) MOUSE_UP) 100 100
      (Sample.rendered (Sample.control (u "hello world") 0))
    = (Ok PyNone, s')
    /\ BufferControl.buffer s'
       = Buffer.mk (u "hello world") 6
           (Some (mkSelectionState 0 CHARACTERS)) None.
Proof.
  destruct (create_content_leaves_closure 0%nat (fun _ => false) None
              Sample.search_document (Sample.control (u "hello world") 0)
              80 None)
    as (Hat & Hlast & _).
  destruct (release_selects_from_cursor 0%nat (fun _ => false)
              (Sample.rendered (Sample.control (u "hello world") 0)) 0%nat
              (Document.mk (u "hello world") 0 None) 80 None
              (lex_document Sample.the_app
                 (Document.mk (u "hello world") 0 None))
              (mkPoint 6 0) 100 100)
    as (s' & Hrun & Hbuffer & _).
  - vm_compute. reflexivity.
  - exact Hlast.
  - exact Hat.
  - vm_compute. exact I.
  - exists s'. split; [exact Hrun|]. rewrite Hbuffer.
    vm_compute. reflexivity.
Defined.

(** A press on the [e] of [hello world] and a release on its [w] select
    from 1 to 6. *)
Lemma drag_selects_witness :
  exists s1 s2,
    Sample.mouse_handler (mkMouseEvent (mkPoint 1 0) MOUSE_DOWN) 100 100
      (Sample.rendered (Sample.control (u "hello world") 0))
    = (Ok PyNone, s1)
    /\ Sample.mouse_handler (mkMouseEvent (mkPoint 6 0) MOUSE_UP) 101 101 s1
       = (Ok PyNone, s2)
    /\ BufferControl.buffer s2
       = Buffer.mk (u "hello world") 6
           (Some (mkSelectionState 1 CHARACTERS)) None.
Proof.
  destruct (create_content_leaves_closure 0%nat (fun _ => false) None
              Sample.search_document (Sample.control (u "hello world") 0)
              80 None)
    as (Hat & Hlast & _).
  destruct (drag_selects 0%nat (fun _ => false)
              (Sample.rendered (Sample.control (u "hello world") 0)) 0%nat
              (Document.mk (u "hello world") 0 None) 80 None
              (lex_document Sample.the_app
                 (Document.mk (u "hello world") 0 None))
              (mkPoint 1 0) (mkPoint 6 0) 100 100 101 101)
    as (s1 & s2 & Hrun1 & Hrun2 & Hbuffer).
  - vm_compute. reflexivity.
  - exact Hlast.
  - exact Hat.
  - vm_compute. exact I.
  - vm_compute. reflexivity.
  - exists s1, s2. split; [exact Hrun1|]. split; [exact Hrun2|].
    rewrite Hbuffer. vm_compute. reflexivity.
Defined.

(** Scrolling up over [hello world] leaves the buffer as it is. *)
Lemma scroll_is_not_handled_witness :
  exists s',
    Sample.mouse_handler (mkMouseEvent (mkPoint 6 0) SCROLL_UP) 100 100
      (Sample.rendered (Sample.control (u "hello world") 0))
    = (Ok NotImplemented, s')
    /\ BufferControl.buffer s' = Buffer.mk (u "hello world") 0 None None.
Proof.
  destruct (create_content_leaves_closure 0%nat (fun _ => false) None
              Sample.search_document (Sample.control (u "hello world") 0)
              80 None)
    as (Hat & Hlast & _ & Hbuf).
  destruct (scroll_is_not_handled 0%nat (fun _ => false)
              (Sample.rendered (Sample.control (u "hello world") 0)) 0%nat
              (Document.mk (u "hello world") 0 None) 80 None
              (lex_document Sample.the_app
                 (Document.mk (u "hello world") 0 None))
              (mkMouseEvent (mkPoint 6 0) SCROLL_UP) 100 100)
    as (s' & Hrun & Hbuffer & _).
  - vm_compute. reflexivity.
  - exact Hlast.
  - exact Hat.
  - now left.
  - exists s'. split; [exact Hrun|]. rewrite Hbuffer. exact Hbuf.
Defined.

(** Another control has the focus: a release on a control that focuses on
    click is consumed, a press is not handled. *)
Lemma unfocused_control_focuses_on_release_witness :
  BufferControl.mouse_handler 0%nat (fun _ => true)
    (mkMouseEvent (mkPoint 0 0) MOUSE_DOWN) 100 100
    (BufferControl.init (mkApp 1%nat tt) (Buffer.mk (u "hello") 0 None None)
       None (mkSearchState [] FORWARD false))
  = (Ok NotImplemented,
     BufferControl.init (mkApp 1%nat tt) (Buffer.mk (u "hello") 0 None None)
       None (mkSearchState [] FORWARD false)).
Proof.
  destruct (unfocused_control_focuses_on_release 0%nat (fun _ => true)
              (BufferControl.init (mkApp 1%nat tt)
                 (Buffer.mk (u "hello") 0 None None) None
                 (mkSearchState [] FORWARD false))
              (mkMouseEvent (mkPoint 0 0) MOUSE_DOWN) 100 100 eq_refl)
    as [_ Hother].
  apply Hother. right. discriminate.
Defined.

(** The two lines [abc] and [def], wrapped at width 2, take two rows each:
    with five rows available the preferred height is 4, with three it
    is 3. *)
Lemma preferred_height_of_buffer_witness :
  exists r s',
    BufferControl.preferred_height 0%nat (fun _ => false) None
      Sample.search_document cells (fun line => concat (map snd line))
      2 5 true (Sample.control Sample.abc_def 1) = (Ok r, s')
    /\ r = 4.
Proof.
  destruct (preferred_height_of_buffer 0%nat (fun _ => false) None
              Sample.search_document cells
              (fun line => concat (map snd line))
              (Sample.control Sample.abc_def 1) 2 5 true)
    as (r & s' & Hrun & _ & Hwrap & _).
  - vm_compute. discriminate.
  - exists r, s'. split; [exact Hrun|].
    destruct (Hwrap eq_refl) as [-> _]. vm_compute. reflexivity.
Defined.
